(** * Anomaly detection with self-healing fallback

    A shallow embedding of [ml-service/features/anomaly_detection.py]
    (class [AnomalyDetector]) and the properties of its [detect] and
    [train] methods.

    Conventions of the embedding.
    - Python floats are idealised as rationals ([Q]): numeric comparison is
      [Qeq]/[Qle], the conversion of the feature vector to [float32] is the
      identity, and the one place where numpy yields a not-a-number
      ([np.mean] of an empty list) is kept as an explicit [NaN].
    - An event is the dictionary produced by [Event.dict()] in [app.py]; a
      field of type [option] is [None] when the key is missing, which is
      what [dict.get] observes.
    - Raised exceptions are explicit: a method returns a [Result].
    - A method that reads or writes [self] is a computation in the monad
      [M], which threads the detector object and keeps it when an
      exception is raised, as Python does.
    - A library call that works on an object in place ([fit]) yields,
      beside what it returns or raises, the state in which it leaves the
      object.
    - A truth value carries its class ([bool] or [numpy.bool_]) where the
      client of the program can observe it: under [is_anomaly].
    - Everything the module imports (numpy's elementary functions,
      [datetime.fromisoformat], the scikit-learn scaler and estimator,
      joblib, [os.path.exists]) is a field of the record [Runtime].  The
      wall clock read by [datetime.now] is an explicit argument of
      [detect], read once per call. *)

From Stdlib Require Import QArith Qabs Qround Qfield Lqa ZArith List String Ascii Bool Lia.
From stdpp Require Import base gmap strings list pretty.

Open Scope string_scope.

(** ** Exceptions and results *)

Inductive exn : Type :=
| ValueError                      (* min() of an empty sequence *)
| KeyError (key : string)         (* d[key] on a missing key *)
| IndexError                      (* xs[0] on an empty sequence *)
| AttributeError                  (* method call on None *)
| NameError (name : string)       (* a name no import has bound *)
| LibraryError (what : string).   (* anything raised inside a library call *)

Inductive Result (A : Type) : Type :=
| Ok (a : A)
| Raise (e : exn).
Arguments Ok {A} a.
Arguments Raise {A} e.

Definition rbind {A B} (r : Result A) (f : A -> Result B) : Result B :=
  match r with
  | Ok a => f a
  | Raise e => Raise e
  end.

Definition rmap {A B} (f : A -> B) (r : Result A) : Result B :=
  rbind r (fun a => Ok (f a)).

Declare Scope result_scope.
Delimit Scope result_scope with result.
Notation "x <- r ;; k" := (rbind r (fun x => k))
  (at level 100, r at next level, right associativity) : result_scope.

Definition index0 {A} (xs : list A) : Result A :=
  match xs with
  | x :: _ => Ok x
  | [] => Raise IndexError
  end.

(** [d[key]] on an optional field. *)
Definition index_key {A} (key : string) (x : option A) : Result A :=
  match x with
  | Some a => Ok a
  | None => Raise (KeyError key)
  end.

(** [try: body except: pass] around an assignment: the handler keeps the
    value the variables had before the block. *)
Definition try_except {A} (body : Result A) (otherwise : A) : A :=
  match body with
  | Ok a => a
  | Raise _ => otherwise
  end.

Fixpoint traverse {A B} (f : A -> Result B) (l : list A) : Result (list B) :=
  match l with
  | [] => Ok []
  | x :: l' =>
      match f x with
      | Raise e => Raise e
      | Ok y => rmap (cons y) (traverse f l')
      end
  end.

(** ** Numbers *)

Definition Qlt_bool (x y : Q) : bool := negb (Qle_bool y x).

(** Python's [max(a, b, c)]: the first of the largest arguments. *)
Definition py_max3 (a b c : Q) : Q :=
  let m := if Qlt_bool a b then b else a in
  if Qlt_bool m c then c else m.

(** Python's [min(xs)] and [max(xs)] on a sequence; [min] of an empty
    sequence raises [ValueError]. *)
Definition py_min (xs : list Q) : Result Q :=
  match xs with
  | [] => Raise ValueError
  | x :: xs' => Ok (fold_left (fun m y => if Qlt_bool y m then y else m) xs' x)
  end.

Definition py_max (xs : list Q) : Result Q :=
  match xs with
  | [] => Raise ValueError
  | x :: xs' => Ok (fold_left (fun m y => if Qlt_bool m y then y else m) xs' x)
  end.

(** Nearest integer, ties to even. *)
Definition round_half_even (x : Q) : Z :=
  let f := Qfloor x in
  match Qcompare (x - inject_Z f) (1 # 2) with
  | Lt => f
  | Gt => (f + 1)%Z
  | Eq => if Z.even f then f else (f + 1)%Z
  end.

(** [round(x, 3)]. *)
Definition py_round3 (x : Q) : Q := Qmake (round_half_even (x * 1000)) 1000.

(** A float that may be not-a-number. *)
Inductive float_val : Type :=
| Num (q : Q)
| NaN.

Definition Qsum (xs : list Q) : Q := fold_right Qplus 0%Q xs.

(** [np.mean(xs)]: not-a-number (with a warning, no exception) on an empty
    list. *)
Definition np_mean (xs : list Q) : float_val :=
  match xs with
  | [] => NaN
  | _ => Num (Qsum xs / inject_Z (Z.of_nat (length xs)))
  end.

(** ** Strings *)

(** [s.replace(old, new)] for a one-character [old]. *)
Fixpoint str_replace (old : ascii) (new : string) (s : string) : string :=
  match s with
  | EmptyString => EmptyString
  | String c s' =>
      if Ascii.eqb c old then new ++ str_replace old new s'
      else String c (str_replace old new s')
  end.

Definition ascii_lower (c : ascii) : ascii :=
  let n := nat_of_ascii c in
  if (65 <=? n)%nat && (n <=? 90)%nat then ascii_of_nat (n + 32) else c.

(** [s.lower()], on the ASCII letters: the result is only compared with
    four lower-case ASCII words. *)
Fixpoint str_lower (s : string) : string :=
  match s with
  | EmptyString => EmptyString
  | String c s' => String (ascii_lower c) (str_lower s')
  end.

(** Truth value of a string, of a number and of an optional value
    ([dict.get] without default yields [None], which is false). *)
Definition truthy_str (s : option string) : bool :=
  match s with
  | Some (String _ _) => true
  | _ => false
  end.

Definition truthy_num (x : option Q) : bool :=
  match x with
  | Some q => negb (Qeq_bool q 0)
  | None => false
  end.

(** [d.get(key) != 0]: true for a missing key, since [None != 0]. *)
Definition ne_zero (x : option Q) : bool :=
  match x with
  | Some q => negb (Qeq_bool q 0)
  | None => true
  end.

(** [==] on optional numbers and optional strings. *)
Definition opt_num_eqb (x y : option Q) : bool :=
  match x, y with
  | Some a, Some b => Qeq_bool a b
  | None, None => true
  | _, _ => false
  end.

Definition opt_str_eqb (x y : option string) : bool :=
  match x, y with
  | Some a, Some b => String.eqb a b
  | None, None => true
  | _, _ => false
  end.

(** ** Data model *)

(** The dictionary of an event. *)
Record Event : Type := {
  ev_id : option string;
  ev_state : option string;
  ev_event_type : option string;
  ev_latitude : option Q;
  ev_longitude : option Q;
  ev_timestamp : option string;
  ev_description : option string;
  ev_attributes : gmap string string
}.

(** [event1 == event2] on dictionaries. *)
Definition event_eqb (a b : Event) : bool :=
  opt_str_eqb (ev_id a) (ev_id b)
  && opt_str_eqb (ev_state a) (ev_state b)
  && opt_str_eqb (ev_event_type a) (ev_event_type b)
  && opt_num_eqb (ev_latitude a) (ev_latitude b)
  && opt_num_eqb (ev_longitude a) (ev_longitude b)
  && opt_str_eqb (ev_timestamp a) (ev_timestamp b)
  && opt_str_eqb (ev_description a) (ev_description b)
  && bool_decide (ev_attributes a = ev_attributes b).

(** [event.get('latitude', 0)] and [event.get('longitude', 0)]. *)
Definition get_latitude (e : Event) : Q := default 0%Q (ev_latitude e).
Definition get_longitude (e : Event) : Q := default 0%Q (ev_longitude e).

(** A parsed timestamp.  [dt_timestamp] is its position in seconds on the
    axis of its own time zone class: aware datetimes on the universal axis,
    naive ones on the local wall clock. *)
Record datetime : Type := {
  dt_hour : Z;
  dt_weekday : Z;
  dt_minute : Z;
  dt_tzinfo : option Z;
  dt_timestamp : Q
}.

(** [datetime.now(tz)], in seconds on the axis of [tz]. *)
Definition Clock : Type := option Z -> Q.

(** A state baseline: the dictionary stored under a state code. *)
Record Baseline : Type := {
  bl_events : list Event;
  bl_lats : list Q;
  bl_lons : list Q;
  bl_avg_count : option Z;
  bl_lat_range : option (Q * Q);
  bl_lon_range : option (Q * Q)
}.

(** The fallback suggestion. *)
Record Fallback : Type := {
  fb_source : string;
  fb_latitude : option float_val;
  fb_longitude : option float_val;
  fb_action : option string;
  fb_confidence : Q
}.

Record MethodScores : Type := {
  statistical : Q;
  ml : Q;
  pattern : Q
}.

(** The class of a truth value: Python's [bool], or [numpy.bool_], the
    class of the result of a comparison on a numpy scalar. *)
Inductive bool_class : Type :=
| builtin_bool
| numpy_bool.

(** The dictionary returned by [detect].  The object under [is_anomaly] is
    given by its truth value and its class. *)
Record Verdict : Type := {
  v_is_anomaly : bool;
  v_is_anomaly_class : bool_class;
  v_score : Q;
  v_type : string;
  v_explanation : string;
  v_fallback : option Fallback;
  v_scores : MethodScores;
  v_confidence : Q
}.

(** The dictionary returned by [train]. *)
Inductive TrainOutcome : Type :=
| TrainError (error : string)
| TrainMetrics (training_samples : nat) (states_profiled : nat) (model_type : string).

(** The components of the tuple [(anomaly, score, type)] a detection
    method returns. *)
Definition anomaly_of (d : bool * Q * string) : bool := fst (fst d).
Definition score_of (d : bool * Q * string) : Q := snd (fst d).
Definition type_of (d : bool * Q * string) : string := snd d.

(** ** The imported libraries *)

Record Runtime : Type := {
  (* numpy *)
  np_radians : Q -> Q;
  np_sin : Q -> Q;
  np_cos : Q -> Q;
  np_sqrt : Q -> Q;
  np_arctan2 : Q -> Q -> Q;
  (* datetime.fromisoformat; None when it raises *)
  fromisoformat : string -> option datetime;
  (* str() of a float, used by the f-strings *)
  float_str : Q -> string;
  (* scikit-learn *)
  SKLEARN_AVAILABLE : bool;
  Scaler : Type;
  Model : Type;
  StandardScaler : Scaler;
  IsolationForest : Model;
  (* fit works on the object in place: beside what the call returns or
     raises, the state in which it leaves the object *)
  scaler_fit : Scaler -> list (list Q) -> Result unit * Scaler;
  scaler_transform : Scaler -> list (list Q) -> Result (list (list Q));
  (* bool(model), which the estimator computes itself *)
  model_bool : Model -> Result bool;
  model_has_predict : Model -> bool;
  model_fit : Model -> list (list Q) -> Result unit * Model;
  model_predict : Model -> list (list Q) -> Result (list Z);
  model_score_samples : Model -> list (list Q) -> Result (list Q);
  (* os.path.exists, and joblib.load of a model file *)
  os_path_exists : string -> bool;
  joblib_load : string -> Result (option Model * Scaler * gmap string Baseline);
  (* os.makedirs and joblib.dump of model, scaler and baselines *)
  joblib_dump : string -> option Model -> Scaler -> gmap string Baseline -> Result unit
}.

(** ** The detector *)

Section AnomalyDetector.

Context (rt : Runtime).

(** The attributes of an [AnomalyDetector] object. *)
Record Detector : Type := {
  model_path : string;
  model : option (Model rt);
  scaler : Scaler rt;
  event_history : list Event;
  state_baselines : gmap string Baseline
}.

(** A method: it may raise, and it leaves a detector behind either way. *)
Definition M (A : Type) : Type := Detector -> Result A * Detector.

Definition ret {A} (a : A) : M A := fun self => (Ok a, self).

Definition bind {A B} (m : M A) (f : A -> M B) : M B :=
  fun self =>
    match m self with
    | (Ok a, self') => f a self'
    | (Raise e, self') => (Raise e, self')
    end.

Definition get : M Detector := fun self => (Ok self, self).
Definition put (self' : Detector) : M unit := fun _ => (Ok tt, self').
Definition lift {A} (r : Result A) : M A := fun self => (r, self).

Declare Scope method_scope.
Delimit Scope method_scope with method.
Notation "x <- m ;; k" := (bind m (fun x => k))
  (at level 100, m at next level, right associativity) : method_scope.

(** [_load_model]. *)
Definition _load_model : M unit :=
  (self <- get ;;
   if SKLEARN_AVAILABLE rt && os_path_exists rt (model_path self) then
     data <- lift (joblib_load rt (model_path self)) ;;
     put {| model_path := model_path self;
            model := fst (fst data);
            scaler := snd (fst data);
            event_history := event_history self;
            state_baselines := snd data |}
   else ret tt)%method.

(** [__init__].  Without scikit-learn the name [StandardScaler] is unbound
    and the constructor raises. *)
Definition __init__ (path : string) : Result Detector :=
  if SKLEARN_AVAILABLE rt then
    let self := {| model_path := path;
                   model := None;
                   scaler := StandardScaler rt;
                   event_history := [];
                   state_baselines := ∅ |} in
    if os_path_exists rt path then
      match _load_model self with
      | (Ok _, self') => Ok self'
      | (Raise e, _) => Raise e
      end
    else
      Ok {| model_path := path;
            model := Some (IsolationForest rt);
            scaler := StandardScaler rt;
            event_history := [];
            state_baselines := ∅ |}
  else Raise (NameError "StandardScaler").

(** [_distance]: the Haversine formula, in kilometres. *)
Definition _distance (event1 event2 : Event) : Q :=
  let lat1 := get_latitude event1 in
  let lon1 := get_longitude event1 in
  let lat2 := get_latitude event2 in
  let lon2 := get_longitude event2 in
  let R := 6371%Q in
  let dlat := np_radians rt (lat2 - lat1) in
  let dlon := np_radians rt (lon2 - lon1) in
  let a := (np_sin rt (dlat / 2) ^ 2
            + np_cos rt (np_radians rt lat1) * np_cos rt (np_radians rt lat2)
              * np_sin rt (dlon / 2) ^ 2)%Q in
  let c := (2 * np_arctan2 rt (np_sqrt rt a) (np_sqrt rt (1 - a)))%Q in
  (R * c)%Q.

(** [datetime.fromisoformat(event['timestamp'].replace('Z', '+00:00'))]
    under [if event.get('timestamp')] and [try]: [None] when the field is
    missing or empty, or when parsing raises. *)
Definition parse_timestamp (event : Event) : option datetime :=
  match ev_timestamp event with
  | Some s =>
      if truthy_str (Some s) then fromisoformat rt (str_replace "Z" "+00:00" s)
      else None
  | None => None
  end.

Definition event_types : list string :=
  ["construction"; "incident"; "weather"; "special_event"].

(** [_extract_features]. *)
Definition _extract_features (event : Event) (context : list Event) : Result (list Q) :=
  (* Event attributes *)
  let features := [get_latitude event; get_longitude event] in
  (* Timestamp features *)
  let features :=
    (features ++
     match parse_timestamp event with
     | Some ts => [inject_Z (dt_hour ts); inject_Z (dt_weekday ts); inject_Z (dt_minute ts)]
     | None => [0%Q; 0%Q; 0%Q]
     end)%list in
  (* Event type encoding *)
  let event_type := str_lower (default "" (ev_event_type event)) in
  let features :=
    (features
     ++ map (fun et => if String.eqb et event_type then 1%Q else 0%Q) event_types)%list in
  (* Distance from nearest recent event *)
  (features <-
     match context with
     | _ :: _ =>
         min_dist <- py_min (map (_distance event)
                               (List.filter (fun e => truthy_num (ev_latitude e)) context)) ;;
         Ok (features ++ [min_dist])%list
     | [] => Ok (features ++ [999%Q])%list
     end ;;
   (* Number of nearby recent events *)
   let nearby := length (List.filter (fun e => Qlt_bool (_distance event e) 10) context) in
   Ok (features ++ [inject_Z (Z.of_nat nearby)])%list)%result.

(** [recent[-5:]]. *)
Definition last5 {A} (recent : list A) : list A := skipn (length recent - 5) recent.

Definition coord_eqb (a b : option Q * option Q) : bool :=
  opt_num_eqb (fst a) (fst b) && opt_num_eqb (snd a) (snd b).

(** [len(set(coords))]. *)
Fixpoint set_len (coords : list (option Q * option Q)) : nat :=
  match coords with
  | [] => 0
  | c :: rest => if existsb (coord_eqb c) rest then set_len rest else S (set_len rest)
  end.

(** [_statistical_detection]. *)
Definition _statistical_detection (now : Clock) (event : Event) (recent : list Event)
  : bool * Q * string :=
  let lat := get_latitude event in
  let lon := get_longitude event in
  (* All events at (0,0) - sensor failure *)
  if Qeq_bool lat 0 && Qeq_bool lon 0 then (true, 1%Q, "zero_coordinates")
  (* Coordinates outside US bounds *)
  else if negb (Qle_bool 24 lat && Qle_bool lat 50
                && Qle_bool (-125) lon && Qle_bool lon (-65))
  then (true, 1%Q, "invalid_coordinates")
  (* All recent events have identical coordinates - API stuck *)
  else if (5 <=? length recent)%nat
          && (set_len (map (fun e => (ev_latitude e, ev_longitude e)) (last5 recent)) =? 1)%nat
  then (true, (9 # 10)%Q, "stuck_api")
  else
    match parse_timestamp event with
    | Some ts =>
        (* Timestamp in future *)
        if Qlt_bool (now (dt_tzinfo ts) + 3600) (dt_timestamp ts)
        then (true, (95 # 100)%Q, "future_timestamp")
        (* Very old event suddenly appearing *)
        else if Qlt_bool 168 ((now (dt_tzinfo ts) - dt_timestamp ts) / 3600)
        then (true, (8 # 10)%Q, "stale_event")
        else (false, 0%Q, "none")
    | None => (false, 0%Q, "none")
    end.

(** [_pattern_detection]. *)
Definition _pattern_detection (self : Detector) (event : Event) (recent : list Event)
  : bool * Q * string :=
  let state := ev_state event in
  let duplicate_check :=
    (* Duplicate ID with different data *)
    let event_id := ev_id event in
    if truthy_str event_id then
      match List.filter (fun e => opt_str_eqb (ev_id e) event_id) recent with
      | d :: _ => if negb (event_eqb d event) then (true, (85 # 100)%Q, "duplicate_id_mismatch")
                  else (false, 0%Q, "none")
      | [] => (false, 0%Q, "none")
      end
    else (false, 0%Q, "none") in
  (* Check against state baseline patterns *)
  match state ≫= (fun st => state_baselines self !! st) with
  | Some baseline =>
      (* Sudden spike in event count *)
      let current_count :=
        length (List.filter (fun e => opt_str_eqb (ev_state e) state) recent) in
      if (default 10 (bl_avg_count baseline) * 3 <? Z.of_nat current_count)%Z
      then (true, (7 # 10)%Q, "event_spike")
      else
        (* Event in unexpected location for state *)
        let expected_lat_range := default (0%Q, 90%Q) (bl_lat_range baseline) in
        let expected_lon_range := default ((-180)%Q, 0%Q) (bl_lon_range baseline) in
        let lat := get_latitude event in
        let lon := get_longitude event in
        if negb (Qle_bool (fst expected_lat_range) lat && Qle_bool lat (snd expected_lat_range)
                 && Qle_bool (fst expected_lon_range) lon
                 && Qle_bool lon (snd expected_lon_range))
        then (true, (75 # 100)%Q, "out_of_state_bounds")
        else duplicate_check
  | None => duplicate_check
  end.

(** The condition of the list comprehension in the [zero_coordinates]
    branch of [_generate_fallback]. *)
Definition last_known_good (state : option string) (e : Event) : bool :=
  opt_str_eqb (ev_state e) state && ne_zero (ev_latitude e) && ne_zero (ev_longitude e).

(** Values of [e[key]] over the events with a true [e.get(key)]. *)
Definition truthy_values (field : Event -> option Q) (events : list Event) : list Q :=
  omap (fun e => if truthy_num (field e) then field e else None) events.

(** The tail of [_generate_fallback]: interpolate from nearby events. *)
Definition fallback_default (anomalous_event : Event) (recent_events : list Event) : Fallback :=
  let state := ev_state anomalous_event in
  let nearby :=
    List.filter (fun e => opt_str_eqb (ev_state e) state
                          && Qlt_bool (_distance e anomalous_event) 50) recent_events in
  match nearby with
  | _ :: _ =>
      let avg_lat := np_mean (truthy_values ev_latitude nearby) in
      let avg_lon := np_mean (truthy_values ev_longitude nearby) in
      {| fb_source := "interpolated";
         fb_latitude := Some avg_lat;
         fb_longitude := Some avg_lon;
         fb_action := None;
         fb_confidence := (5 # 10)%Q |}
  | [] =>
      {| fb_source := "none_available";
         fb_latitude := None;
         fb_longitude := None;
         fb_action := Some "manual_review_required";
         fb_confidence := 0%Q |}
  end.

(** [_generate_fallback]. *)
Definition _generate_fallback (anomalous_event : Event) (recent_events : list Event)
    (anomaly_type : string) : Result Fallback :=
  let state := ev_state anomalous_event in
  if String.eqb anomaly_type "zero_coordinates" then
    (* Use last known good coordinates for this state/event *)
    let similar := List.filter (last_known_good state) (rev recent_events) in
    match similar with
    | e :: _ =>
        (latitude <- index_key "latitude" (ev_latitude e) ;;
         longitude <- index_key "longitude" (ev_longitude e) ;;
         Ok {| fb_source := "cached_coordinates";
               fb_latitude := Some (Num latitude);
               fb_longitude := Some (Num longitude);
               fb_action := None;
               fb_confidence := (6 # 10)%Q |})%result
    | [] => Ok (fallback_default anomalous_event recent_events)
    end
  else if String.eqb anomaly_type "stuck_api" then
    (* Skip update, use previous version *)
    Ok {| fb_source := "skip_update";
          fb_latitude := None;
          fb_longitude := None;
          fb_action := Some "retain_previous_data";
          fb_confidence := (8 # 10)%Q |}
  else if String.eqb anomaly_type "stale_event" then
    (* Mark as historical, don't display *)
    Ok {| fb_source := "filtered_out";
          fb_latitude := None;
          fb_longitude := None;
          fb_action := Some "remove_from_active_events";
          fb_confidence := (9 # 10)%Q |}
  else Ok (fallback_default anomalous_event recent_events).

(** [str(x)] of an optional field inside an f-string. *)
Definition fmt_str (x : option string) : string := default "None" x.
Definition fmt_num (x : option Q) : string :=
  match x with
  | Some q => float_str rt q
  | None => "None"
  end.

Fixpoint dict_get (key : string) (d : list (string * string)) : option string :=
  match d with
  | [] => None
  | (k, v) :: d' => if String.eqb k key then Some v else dict_get key d'
  end.

(** [_explain_anomaly]. *)
Definition _explain_anomaly (anomaly_type : string) (event : Event) : string :=
  let explanations :=
    [ ("zero_coordinates",
       "Event coordinates (0, 0) indicate sensor failure for "
       ++ default "unknown" (ev_state event) ++ " API");
      ("invalid_coordinates",
       "Coordinates (" ++ fmt_num (ev_latitude event) ++ ", "
       ++ fmt_num (ev_longitude event) ++ ") outside valid US range");
      ("stuck_api",
       "API returning identical data - possible caching issue or service outage");
      ("future_timestamp",
       "Event timestamp " ++ fmt_str (ev_timestamp event) ++ " is in the future");
      ("stale_event",
       "Event is over 1 week old - may be incorrectly included in feed");
      ("event_spike",
       "Unusual spike in events from " ++ fmt_str (ev_state event)
       ++ " - possible data corruption");
      ("out_of_state_bounds",
       "Event location doesn't match state " ++ fmt_str (ev_state event) ++ " geography");
      ("duplicate_id_mismatch",
       "Event ID " ++ fmt_str (ev_id event) ++ " reused with different data") ] in
  default "Anomaly detected by ML model" (dict_get anomaly_type explanations).

(** The condition
    [SKLEARN_AVAILABLE and self.model and hasattr(self.model, 'predict')].
    The truth value of the stored estimator is computed by the estimator
    object itself, outside any [try]. *)
Definition model_available (self : Detector) : Result bool :=
  if SKLEARN_AVAILABLE rt then
    match model self with
    | None => Ok false
    | Some m => (b <- model_bool rt m ;; Ok (b && model_has_predict rt m))%result
    end
  else Ok false.

(** The body of the [try] block of method 2: the pair
    [(ml_anomaly, ml_score)] it assigns. *)
Definition ml_try (self : Detector) (features : list Q) : Result (bool * Q) :=
  match model self with
  | None => Raise AttributeError
  | Some m =>
      (features_scaled <- scaler_transform rt (scaler self) [features] ;;
       prediction <- rbind (model_predict rt m features_scaled) index0 ;;
       ml_score <- rmap Qabs (rbind (model_score_samples rt m features_scaled) index0) ;;
       Ok ((prediction =? -1)%Z, ml_score))%result
  end.

(** Method 2 of [detect]: ML-based detection, if a model is available. *)
Definition ml_detection (self : Detector) (features : list Q) : Result (bool * Q) :=
  (available <- model_available self ;;
   Ok (if available then try_except (ml_try self features) (false, 0%Q)
       else (false, 0%Q)))%result.

(** [detect]. *)
Definition detect (now : Clock) (current_event : Event) (recent_events : list Event)
  : M Verdict :=
  (self <- get ;;
   (* Extract features *)
   features <- lift (_extract_features current_event recent_events) ;;
   (* Method 1: Statistical outlier detection *)
   let stat := _statistical_detection now current_event recent_events in
   let stat_anomaly := anomaly_of stat in
   let stat_score := score_of stat in
   let stat_type := type_of stat in
   (* Method 2: ML-based detection (if model available) *)
   learned <- lift (ml_detection self features) ;;
   let ml_anomaly := fst learned in
   let ml_score := snd learned in
   (* Method 3: Pattern-based detection *)
   let pat := _pattern_detection self current_event recent_events in
   let pattern_anomaly := anomaly_of pat in
   let pattern_score := score_of pat in
   let pattern_type := type_of pat in
   (* Combine methods *)
   let anomaly_scores :=
     {| statistical := stat_score; ml := ml_score; pattern := pattern_score |} in
   let is_anomaly := stat_anomaly || ml_anomaly || pattern_anomaly in
   (* [or] yields its first true operand, else its last one; the flags of
      methods 1 and 3 are [True] or [False], and a true [ml_anomaly] is the
      [numpy.bool_] that [prediction == -1] evaluates to *)
   let is_anomaly_class :=
     if stat_anomaly then builtin_bool
     else if ml_anomaly then numpy_bool
     else builtin_bool in
   let anomaly_score := py_max3 stat_score ml_score pattern_score in
   let anomaly_type :=
     if stat_anomaly then stat_type
     else if pattern_anomaly then pattern_type
     else if ml_anomaly then "ml_detected"
     else "none" in
   let explanation :=
     if stat_anomaly then _explain_anomaly stat_type current_event
     else if pattern_anomaly then _explain_anomaly pattern_type current_event
     else if ml_anomaly then "Event deviates from learned normal patterns"
     else "" in
   (* Generate fallback data if anomaly detected *)
   fallback <- lift (if is_anomaly
                     then rmap Some (_generate_fallback current_event recent_events anomaly_type)
                     else Ok None) ;;
   ret {| v_is_anomaly := is_anomaly;
          v_is_anomaly_class := is_anomaly_class;
          v_score := py_round3 anomaly_score;
          v_type := anomaly_type;
          v_explanation := explanation;
          v_fallback := fallback;
          v_scores := anomaly_scores;
          v_confidence := py_round3 anomaly_score |})%method.

(** *** Training *)

Definition set_scaler (sc : Scaler rt) (self : Detector) : Detector :=
  {| model_path := model_path self; model := model self; scaler := sc;
     event_history := event_history self; state_baselines := state_baselines self |}.

Definition set_model (m : Model rt) (self : Detector) : Detector :=
  {| model_path := model_path self; model := Some m; scaler := scaler self;
     event_history := event_history self; state_baselines := state_baselines self |}.

Definition set_state_baselines (b : gmap string Baseline) (self : Detector) : Detector :=
  {| model_path := model_path self; model := model self; scaler := scaler self;
     event_history := event_history self; state_baselines := b |}.

Definition new_baseline : Baseline :=
  {| bl_events := []; bl_lats := []; bl_lons := [];
     bl_avg_count := None; bl_lat_range := None; bl_lon_range := None |}.

(** [xs.append(e[key])] under [if e.get(key)]. *)
Definition append_truthy (xs : list Q) (x : option Q) : list Q :=
  match x with
  | Some q => if truthy_num x then (xs ++ [q])%list else xs
  | None => xs
  end.

(** One iteration of the loop that builds the state baselines. *)
Definition add_event (baselines : gmap string Baseline) (event : Event)
  : gmap string Baseline :=
  match ev_state event with
  | Some state =>
      if truthy_str (Some state) then
        let data := default new_baseline (baselines !! state) in
        <[state := {| bl_events := (bl_events data ++ [event])%list;
                      bl_lats := append_truthy (bl_lats data) (ev_latitude event);
                      bl_lons := append_truthy (bl_lons data) (ev_longitude event);
                      bl_avg_count := bl_avg_count data;
                      bl_lat_range := bl_lat_range data;
                      bl_lon_range := bl_lon_range data |}]> baselines
      else baselines
  | None => baselines
  end.

(** [(min(xs), max(xs))] under [if xs], else the entry already there. *)
Definition range_of (xs : list Q) (old : option (Q * Q)) : option (Q * Q) :=
  match py_min xs, py_max xs with
  | Ok lo, Ok hi => Some (lo, hi)
  | _, _ => old
  end.

(** One iteration of the loop that calculates the statistics. *)
Definition calc_statistics (data : Baseline) : Baseline :=
  {| bl_events := bl_events data;
     bl_lats := bl_lats data;
     bl_lons := bl_lons data;
     bl_avg_count := Some (Z.of_nat (length (bl_events data)));
     bl_lat_range := range_of (bl_lats data) (bl_lat_range data);
     bl_lon_range := range_of (bl_lons data) (bl_lon_range data) |}.

(** The two loops of [train] over the state baselines. *)
Definition build_baselines (baselines : gmap string Baseline) (normal_events : list Event)
  : gmap string Baseline :=
  calc_statistics <$> fold_left add_event normal_events baselines.

(** [_save_model]. *)
Definition _save_model : M unit :=
  (self <- get ;;
   if SKLEARN_AVAILABLE rt
   then lift (joblib_dump rt (model_path self) (model self) (scaler self)
                (state_baselines self))
   else ret tt)%method.

Definition is_empty {A} (xs : list A) : bool :=
  match xs with
  | [] => true
  | _ :: _ => false
  end.

(** [self.scaler.fit(X)] and [self.model.fit(X)]: the call works on the
    object in place, so the detector holds the object as the call leaves
    it, whether the call returns or raises. *)
Definition fit_scaler (X : list (list Q)) : M unit :=
  fun self =>
    let outcome := scaler_fit rt (scaler self) X in
    (fst outcome, set_scaler (snd outcome) self).

Definition fit_model (X : list (list Q)) : M unit :=
  fun self =>
    match model self with
    | Some m =>
        let outcome := model_fit rt m X in
        (fst outcome, set_model (snd outcome) self)
    | None => (Raise AttributeError, self)
    end.

(** [train]. *)
Definition train (normal_events : list Event) : M TrainOutcome :=
  (if negb (SKLEARN_AVAILABLE rt) || is_empty normal_events
   then ret (TrainError "Training requires sklearn and training data")
   else
     (* Extract features from normal events *)
     features <- lift (traverse (fun e => _extract_features e normal_events)
                         normal_events) ;;
     (* Fit scaler *)
     _ <- fit_scaler features ;;
     self <- get ;;
     features_scaled <- lift (scaler_transform rt (scaler self) features) ;;
     (* Train isolation forest *)
     _ <- fit_model features_scaled ;;
     (* Build state baselines and calculate statistics *)
     self <- get ;;
     _ <- put (set_state_baselines
                 (build_baselines (state_baselines self) normal_events) self) ;;
     _ <- _save_model ;;
     self <- get ;;
     ret (TrainMetrics (length normal_events) (size (state_baselines self))
            "IsolationForest"))%method.

(** [is_loaded]. *)
Definition is_loaded : M bool := ret true.

End AnomalyDetector.

Arguments model_path {rt} _.
Arguments model {rt} _.
Arguments scaler {rt} _.
Arguments event_history {rt} _.
Arguments state_baselines {rt} _.

(** ** A reference runtime

    An executable instance of [Runtime], used to run the methods on
    concrete inputs.  The elementary functions are low-order rational
    approximations, exact at 0; the timestamp parser reads
    [YYYY-MM-DDTHH:MM:SS] with an optional [+HH:MM] or [-HH:MM] offset; a
    scaler is fitted or not, and scales by the identity once fitted; an
    estimator is a constant one, described by what its three operations
    return; the file system holds no model file. *)

Module Reference.

Definition pi : Q := 355 # 113.

Definition radians (x : Q) : Q := Qred (x * pi / 180).
Definition sin (x : Q) : Q := Qred (x - x ^ 3 / 6 + x ^ 5 / 120).
Definition cos (x : Q) : Q := Qred (1 - x ^ 2 / 2 + x ^ 4 / 24).

Definition sqrt (x : Q) : Q :=
  if Qle_bool x 0 then 0%Q
  else Qred (Qmake (Z.sqrt (Qnum x * 10 ^ 24 / Zpos (Qden x))) (10 ^ 12)).

Definition arctan (t : Q) : Q := Qred (t - t ^ 3 / 3 + t ^ 5 / 5).

Definition arctan2 (y x : Q) : Q :=
  if Qlt_bool 0 x && Qle_bool (Qabs y) x then arctan (y / x)
  else if Qlt_bool 0 y then Qred (pi / 2 - arctan (x / y))
  else if Qlt_bool y 0 then Qred (- (pi / 2) - arctan (x / y))
  else if Qlt_bool x 0 then pi
  else 0%Q.

Definition digit (c : ascii) : option Z :=
  let n := nat_of_ascii c in
  if (48 <=? n)%nat && (n <=? 57)%nat then Some (Z.of_nat (n - 48)) else None.

Fixpoint number_from (acc : Z) (s : string) : option Z :=
  match s with
  | EmptyString => Some acc
  | String c s' => d ← digit c; number_from (acc * 10 + d) s'
  end.

Definition number (s : string) : option Z :=
  match s with
  | EmptyString => None
  | _ => number_from 0 s
  end.

Definition days_from_civil (y m d : Z) : Z :=
  let y' := if (m <=? 2)%Z then (y - 1)%Z else y in
  let era := (y' / 400)%Z in
  let yoe := (y' - era * 400)%Z in
  let doy := ((153 * (if (2 <? m)%Z then m - 3 else m + 9) + 2) / 5 + d - 1)%Z in
  let doe := (yoe * 365 + yoe / 4 - yoe / 100 + doy)%Z in
  (era * 146097 + doe - 719468)%Z.

Definition parse_offset (s : string) : option (option Z) :=
  match s with
  | EmptyString => Some None
  | String sign rest =>
      if (String.length rest =? 5)%nat && String.eqb (substring 2 1 rest) ":" then
        h ← number (substring 0 2 rest);
        m ← number (substring 3 2 rest);
        if Ascii.eqb sign "+" then Some (Some (h * 3600 + m * 60)%Z)
        else if Ascii.eqb sign "-" then Some (Some (- (h * 3600 + m * 60))%Z)
        else None
      else None
  end.

Definition in_range (lo x hi : Z) : bool := (lo <=? x)%Z && (x <=? hi)%Z.

Definition parse_iso (s : string) : option datetime :=
  if (19 <=? String.length s)%nat
     && String.eqb (substring 4 1 s) "-" && String.eqb (substring 7 1 s) "-"
     && String.eqb (substring 10 1 s) "T"
     && String.eqb (substring 13 1 s) ":" && String.eqb (substring 16 1 s) ":"
  then
    y ← number (substring 0 4 s);
    mo ← number (substring 5 2 s);
    d ← number (substring 8 2 s);
    h ← number (substring 11 2 s);
    mi ← number (substring 14 2 s);
    sec ← number (substring 17 2 s);
    tz ← parse_offset (substring 19 (String.length s - 19) s);
    if in_range 1 mo 12 && in_range 1 d 31 && in_range 0 h 23
       && in_range 0 mi 59 && in_range 0 sec 59
    then
      let days := days_from_civil y mo d in
      let wall := (days * 86400 + h * 3600 + mi * 60 + sec)%Z in
      Some {| dt_hour := h;
              dt_weekday := ((days + 3) mod 7)%Z;
              dt_minute := mi;
              dt_tzinfo := tz;
              dt_timestamp := inject_Z (wall - default 0%Z tz) |}
    else None
  else None.

(** A constant estimator. *)
Record Estimator : Type := {
  est_bool : Result bool;
  est_predict : Result Z;
  est_score : Result Q
}.

(** An unfitted forest: its truth value is its number of trees, an
    attribute that only [fit] sets, and its prediction methods raise. *)
Definition unfitted : Estimator :=
  {| est_bool := Raise AttributeError;
     est_predict := Raise (LibraryError "NotFittedError");
     est_score := Raise (LibraryError "NotFittedError") |}.

(** A fitted forest that finds every sample normal. *)
Definition fitted : Estimator :=
  {| est_bool := Ok true; est_predict := Ok 1%Z; est_score := Ok (- (45 # 100))%Q |}.

(** [transform] of a scaler, given whether it is fitted. *)
Definition scale (is_fitted : bool) (X : list (list Q)) : Result (list (list Q)) :=
  if is_fitted then Ok X else Raise (LibraryError "NotFittedError").

Definition runtime : Runtime :=
  {| np_radians := radians;
     np_sin := sin;
     np_cos := cos;
     np_sqrt := sqrt;
     np_arctan2 := arctan2;
     fromisoformat := parse_iso;
     float_str := fun q => pretty (Qnum (Qred q)) ++ "/" ++ pretty (Zpos (Qden (Qred q)));
     SKLEARN_AVAILABLE := true;
     Scaler := bool;
     Model := Estimator;
     StandardScaler := false;
     IsolationForest := unfitted;
     scaler_fit := fun _ _ => (Ok tt, true);
     scaler_transform := scale;
     model_bool := est_bool;
     model_has_predict := fun _ => true;
     model_fit := fun _ _ => (Ok tt, fitted);
     model_predict := fun m X => rmap (fun p => map (fun _ => p) X) (est_predict m);
     model_score_samples := fun m X => rmap (fun q => map (fun _ => q) X) (est_score m);
     os_path_exists := fun _ => false;
     joblib_load := fun _ => Raise (LibraryError "FileNotFoundError");
     joblib_dump := fun _ _ _ _ => Ok tt |}.

End Reference.


(** ** Sequences of calls and vocabulary of the properties *)

(** A sequence of [train] calls, one per corpus, each of which returns its
    metrics; [None] as soon as a call raises or returns the error
    dictionary. *)
Fixpoint train_all (rt : Runtime) (corpora : list (list Event)) (self : Detector rt)
  : option (Detector rt) :=
  match corpora with
  | [] => Some self
  | corpus :: rest =>
      match train rt corpus self with
      | (Ok (TrainMetrics _ _ _), self') => train_all rt rest self'
      | _ => None
      end
  end.

(** The events of a corpus that carry a given state code. *)
Definition events_of_state (state : string) (events : list Event) : list Event :=
  List.filter (fun e => opt_str_eqb (ev_state e) (Some state)) events.

(** A baseline with further events of its state appended. *)
Definition extend_baseline (data : Baseline) (events : list Event) : Baseline :=
  {| bl_events := (bl_events data ++ events)%list;
     bl_lats := (bl_lats data ++ truthy_values ev_latitude events)%list;
     bl_lons := (bl_lons data ++ truthy_values ev_longitude events)%list;
     bl_avg_count := bl_avg_count data;
     bl_lat_range := bl_lat_range data;
     bl_lon_range := bl_lon_range data |}.

(** A coordinate that is present and equal to zero. *)
Definition zero_coordinate (x : option Q) : Prop :=
  exists q, x = Some q /\ q == 0.

(** The source tags a fallback suggestion may carry. *)
Definition fallback_sources : list string :=
  ["cached_coordinates"; "skip_update"; "filtered_out"; "interpolated"; "none_available"].

(** The context events from which the default branch interpolates. *)
Definition nearby_events (rt : Runtime) (anomalous_event : Event) (recent_events : list Event)
  : list Event :=
  List.filter (fun e => opt_str_eqb (ev_state e) (ev_state anomalous_event)
                        && Qlt_bool (_distance rt e anomalous_event) 50) recent_events.

(** The plain mean of a coordinate over a list of events, zero values
    included. *)
Definition coordinate_mean (coordinate : Event -> Q) (events : list Event) : Q :=
  Qsum (map coordinate events) / inject_Z (Z.of_nat (length events)).

(** ** Sample inputs *)

Module Sample.

Import Reference.

Definition event (id state : string) (latitude longitude : Q) (timestamp : option string)
  : Event :=
  {| ev_id := Some id;
     ev_state := Some state;
     ev_event_type := Some "incident";
     ev_latitude := Some latitude;
     ev_longitude := Some longitude;
     ev_timestamp := timestamp;
     ev_description := None;
     ev_attributes := ∅ |}.

(** A detector as restored from a model file that holds the given forest,
    a fitted scaler and no baselines. *)
Definition restored (forest : Estimator) : Detector runtime :=
  Build_Detector runtime "models/anomaly_model.pkl" (Some forest) true [] ∅.

(** A fitted forest that finds every sample an outlier, with raw score
    -0.65. *)
Definition suspicious : Estimator :=
  {| est_bool := Ok true; est_predict := Ok (-1)%Z; est_score := Ok (- (65 # 100))%Q |}.

(** A fitted forest whose raw score has four decimals. *)
Definition precise : Estimator :=
  {| est_bool := Ok true; est_predict := Ok 1%Z; est_score := Ok (- (4567 # 10000))%Q |}.

(** 2024-01-01T00:00:00Z, in seconds. *)
Definition new_year : Q := 1704067200.

Definition clock_at (seconds : Q) : Clock := fun _ => seconds.

Definition des_moines : Event := event "e1" "IA" 42 (- (935 # 10)) (Some "2024-01-01T00:00:00Z").
Definition des_moines_earlier : Event := event "e1" "IA" 41 (- (935 # 10)) None.
Definition ames : Event := event "e2" "IA" 42 (- (935 # 10)) None.
Definition null_island : Event := event "e3" "IA" 0 0 None.
Definition equator_east : Event := event "e4" "IA" 0 (1 # 10) None.
Definition meridian_north : Event := event "e5" "IA" (2 # 10) 0 None.
Definition tropics : Event := event "e6" "IA" 10 (-93) None.

(** The feature vector of [ames] on an empty context window. *)
Definition ames_features : list Q := [42; - (935 # 10); 0; 0; 0; 0; 1; 0; 0; 999; 0]%Q.

End Sample.

(** ** Tactics *)

(** Unfold a method down to the results of the calls it makes. *)
Ltac run_method :=
  unfold detect, train, fit_scaler, fit_model, _save_model, bind, get, put, lift, ret; simpl.

(** Run a call on concrete inputs and name the value it returns. *)
Ltac evaluate_call H v :=
  match goal with
  | |- exists v, ?r = Ok v /\ _ =>
      assert (H : exists v, r = Ok v) by (vm_compute; eauto);
      destruct H as [v H]; exists v; split; [exact H|]
  end.

(** ** The serving layer ([app.py]) *)

(** The request model [Event]: [id], [state], [event_type], [latitude],
    [longitude] and [timestamp] are required, so a request that lacks one
    of them never reaches the detector.  The attribute bag of a request is
    taken to be an object ([{}] when absent). *)
Record ApiEvent : Type := {
  api_id : string;
  api_state : string;
  api_event_type : string;
  api_latitude : Q;
  api_longitude : Q;
  api_timestamp : string;
  api_description : option string;
  api_attributes : gmap string string
}.

(** [e.dict()]. *)
Definition dict (e : ApiEvent) : Event :=
  {| ev_id := Some (api_id e);
     ev_state := Some (api_state e);
     ev_event_type := Some (api_event_type e);
     ev_latitude := Some (api_latitude e);
     ev_longitude := Some (api_longitude e);
     ev_timestamp := Some (api_timestamp e);
     ev_description := api_description e;
     ev_attributes := api_attributes e |}.

(** The request model [AnomalyRequest]. *)
Record AnomalyRequest : Type := {
  req_events : list ApiEvent;
  req_current_event : ApiEvent
}.

(** What the client of an endpoint gets: the dictionary the handler
    returns, as JSON; the [HTTPException] with status 500 that the handler
    raises, whose detail is the text of the exception caught; or the bare
    status 500 of the framework, when the dictionary the handler returned
    cannot be written as JSON, which happens after the handler's [try]. *)
Inductive Http (A : Type) : Type :=
| Http200 (body : A)
| Http500 (detail : exn)
| InternalServerError.
Arguments Http200 {A} body.
Arguments Http500 {A} detail.
Arguments InternalServerError {A}.

Record DetectResponse : Type := {
  resp_success : bool;
  resp_is_anomaly : bool;
  resp_is_anomaly_class : bool_class;
  resp_anomaly_score : Q;
  resp_anomaly_type : string;
  resp_fallback_data : option Fallback;
  resp_explanation : string
}.

Record TrainResponse : Type := {
  train_success : bool;
  train_metrics_body : TrainOutcome
}.

(** A float that JSON can hold: not-a-number is refused. *)
Definition json_float (x : option float_val) : bool :=
  match x with
  | Some NaN => false
  | _ => true
  end.

(** Whether the framework can write the dictionary as JSON.  The strings,
    the score (a [float], or a [numpy.float64], which is one) and a
    [bool] always can; a [numpy.bool_] has no encoding, and a coordinate
    that is not a number is refused. *)
Definition encodable (body : DetectResponse) : bool :=
  match resp_is_anomaly_class body with
  | builtin_bool => true
  | numpy_bool => false
  end
  && match resp_fallback_data body with
     | Some f => json_float (fb_latitude f) && json_float (fb_longitude f)
     | None => true
     end.

(** [detect_anomalies], on the module's [anomaly_detector]. *)
Definition detect_anomalies (rt : Runtime) (now : Clock) (request : AnomalyRequest)
  : Detector rt -> Http DetectResponse * Detector rt :=
  fun anomaly_detector =>
    match detect rt now (dict (req_current_event request))
            (map dict (req_events request)) anomaly_detector with
    | (Ok result, anomaly_detector') =>
        let body := {| resp_success := true;
                       resp_is_anomaly := v_is_anomaly result;
                       resp_is_anomaly_class := v_is_anomaly_class result;
                       resp_anomaly_score := v_score result;
                       resp_anomaly_type := v_type result;
                       resp_fallback_data := v_fallback result;
                       resp_explanation := v_explanation result |} in
        (if encodable body then Http200 body else InternalServerError, anomaly_detector')
    | (Raise e, anomaly_detector') => (Http500 e, anomaly_detector')
    end.

(** [train_anomaly_detector], on the module's [anomaly_detector].  The
    dictionary [train] returns holds integers and strings only. *)
Definition train_anomaly_detector (rt : Runtime) (events : list ApiEvent)
  : Detector rt -> Http TrainResponse * Detector rt :=
  fun anomaly_detector =>
    match train rt (map dict events) anomaly_detector with
    | (Ok metrics, anomaly_detector') =>
        (Http200 {| train_success := true; train_metrics_body := metrics |},
         anomaly_detector')
    | (Raise e, anomaly_detector') => (Http500 e, anomaly_detector')
    end.

(** The labels a verdict's [type] may carry. *)
Definition anomaly_types : list string :=
  ["none"; "zero_coordinates"; "invalid_coordinates"; "stuck_api"; "future_timestamp";
   "stale_event"; "event_spike"; "out_of_state_bounds"; "duplicate_id_mismatch";
   "ml_detected"].

(** The triples the statistical and the pattern method may return. *)
Definition statistical_verdicts : list (bool * Q * string) :=
  [(true, 1%Q, "zero_coordinates"); (true, 1%Q, "invalid_coordinates");
   (true, (9 # 10)%Q, "stuck_api"); (true, (95 # 100)%Q, "future_timestamp");
   (true, (8 # 10)%Q, "stale_event"); (false, 0%Q, "none")].

Definition pattern_verdicts : list (bool * Q * string) :=
  [(true, (7 # 10)%Q, "event_spike"); (true, (75 # 100)%Q, "out_of_state_bounds");
   (true, (85 # 100)%Q, "duplicate_id_mismatch"); (false, 0%Q, "none")].

(** Two events with the same pair of coordinates, as [==] on the tuples
    [(e.get('latitude'), e.get('longitude'))] sees it. *)
Definition same_coordinates (a b : Event) : Prop :=
  coord_eqb (ev_latitude a, ev_longitude a) (ev_latitude b, ev_longitude b) = true.

(** ** Runtimes that fail, and further sample inputs *)

Module Failing.

Import Reference.

(** The reference runtime with a scaler [fit], a forest [fit] and a model
    store of one's choice. *)
Definition runtime_with
    (fit_of_scaler : bool -> list (list Q) -> Result unit * bool)
    (fit_of_forest : Estimator -> list (list Q) -> Result unit * Estimator)
    (dump : string -> option Estimator -> bool -> gmap string Baseline -> Result unit)
  : Runtime :=
  {| np_radians := radians;
     np_sin := sin;
     np_cos := cos;
     np_sqrt := sqrt;
     np_arctan2 := arctan2;
     fromisoformat := parse_iso;
     float_str := fun q => pretty (Qnum (Qred q)) ++ "/" ++ pretty (Zpos (Qden (Qred q)));
     SKLEARN_AVAILABLE := true;
     Scaler := bool;
     Model := Estimator;
     StandardScaler := false;
     IsolationForest := unfitted;
     scaler_fit := fit_of_scaler;
     scaler_transform := scale;
     model_bool := est_bool;
     model_has_predict := fun _ => true;
     model_fit := fit_of_forest;
     model_predict := fun m X => rmap (fun p => map (fun _ => p) X) (est_predict m);
     model_score_samples := fun m X => rmap (fun q => map (fun _ => q) X) (est_score m);
     os_path_exists := fun _ => false;
     joblib_load := fun _ => Raise (LibraryError "FileNotFoundError");
     joblib_dump := dump |}.

(** A scaler whose [fit] resets the scaler, then refuses the data. *)
Definition broken_scaler : Runtime :=
  runtime_with (fun _ _ => (Raise (LibraryError "ValueError"), false))
    (fun _ _ => (Ok tt, fitted)) (fun _ _ _ _ => Ok tt).

(** A forest whose [fit] refuses the data and leaves the forest as it
    was. *)
Definition broken_forest : Runtime :=
  runtime_with (fun _ _ => (Ok tt, true))
    (fun forest _ => (Raise (LibraryError "ValueError"), forest)) (fun _ _ _ _ => Ok tt).

(** A model store that cannot be written. *)
Definition read_only_store : Runtime :=
  runtime_with (fun _ _ => (Ok tt, true)) (fun _ _ => (Ok tt, fitted))
    (fun _ _ _ _ => Raise (LibraryError "PermissionError")).

(** Detectors of these runtimes: as constructed without a model file, and
    as restored from a model file that holds a fitted scaler, a fitted
    forest and no baselines. *)
Definition fresh fit_of_scaler fit_of_forest dump
  : Detector (runtime_with fit_of_scaler fit_of_forest dump) :=
  Build_Detector (runtime_with fit_of_scaler fit_of_forest dump)
    "models/anomaly_model.pkl" (Some unfitted) false [] ∅.

Definition reloaded fit_of_scaler fit_of_forest dump
  : Detector (runtime_with fit_of_scaler fit_of_forest dump) :=
  Build_Detector (runtime_with fit_of_scaler fit_of_forest dump)
    "models/anomaly_model.pkl" (Some fitted) true [] ∅.

End Failing.

Module Requests.

Import Sample.

(** A window in which a feed replays one event. *)
Definition replayed : list Event := [ames; ames; ames; ames; ames].

(** An event whose type is written in capitals. *)
Definition weather_report : Event :=
  {| ev_id := Some "e7";
     ev_state := Some "IA";
     ev_event_type := Some "WEATHER";
     ev_latitude := Some 42%Q;
     ev_longitude := Some (- (935 # 10))%Q;
     ev_timestamp := None;
     ev_description := None;
     ev_attributes := ∅ |}.

Definition api_event (id state : string) (latitude longitude : Q) : ApiEvent :=
  {| api_id := id;
     api_state := state;
     api_event_type := "incident";
     api_latitude := latitude;
     api_longitude := longitude;
     api_timestamp := "2024-01-01T00:00:00Z";
     api_description := None;
     api_attributes := ∅ |}.

(** A request whose context holds one event at (0, 0), and one whose
    context holds a located event. *)
Definition failed_feed : AnomalyRequest :=
  {| req_events := [api_event "a1" "IA" 0 0];
     req_current_event := api_event "a2" "IA" 0 0 |}.

Definition healthy_feed : AnomalyRequest :=
  {| req_events := [api_event "a1" "IA" 42 (- (935 # 10))];
     req_current_event := api_event "a2" "IA" 0 0 |}.

(** A located event of the hour, alone. *)
Definition quiet_road : AnomalyRequest :=
  {| req_events := [];
     req_current_event := api_event "a3" "IA" 42 (- (935 # 10)) |}.

(** An event on the prime meridian, outside the bounds, 11 km south of the
    only context event, which is on the meridian too. *)
Definition meridian_feed : AnomalyRequest :=
  {| req_events := [api_event "a4" "IA" (101 # 10) 0];
     req_current_event := api_event "a5" "IA" 10 0 |}.

End Requests.
(** ** Numbers: comparison, maximum and rounding *)

Lemma Qlt_bool_iff (x y : Q) : Qlt_bool x y = true <-> (x < y)%Q.
Proof.
  unfold Qlt_bool. rewrite negb_true_iff. split.
  - intros H. apply Qnot_le_lt. intros Hle.
    apply Qle_bool_iff in Hle. congruence.
  - intros H. destruct (Qle_bool y x) eqn:E; [|reflexivity].
    apply Qle_bool_iff in E. exfalso. exact (Qlt_not_le _ _ H E).
Qed.

Lemma Qlt_bool_false_iff (x y : Q) : Qlt_bool x y = false <-> (y <= x)%Q.
Proof.
  unfold Qlt_bool. rewrite negb_false_iff. apply Qle_bool_iff.
Qed.

(** [py_max3] returns one of its arguments, and none of them exceeds it. *)
Lemma py_max3_spec (a b c : Q) :
  (py_max3 a b c = a \/ py_max3 a b c = b \/ py_max3 a b c = c)
  /\ (a <= py_max3 a b c)%Q /\ (b <= py_max3 a b c)%Q /\ (c <= py_max3 a b c)%Q.
Proof.
  unfold py_max3.
  destruct (Qlt_bool a b) eqn:Eab;
    [apply Qlt_bool_iff in Eab | apply Qlt_bool_false_iff in Eab].
  - destruct (Qlt_bool b c) eqn:Ebc;
      [apply Qlt_bool_iff in Ebc | apply Qlt_bool_false_iff in Ebc].
    + repeat split; auto using Qle_refl, Qlt_le_weak.
      apply Qlt_le_weak. eapply Qlt_trans; eassumption.
    + repeat split; auto using Qle_refl, Qlt_le_weak.
  - destruct (Qlt_bool a c) eqn:Eac;
      [apply Qlt_bool_iff in Eac | apply Qlt_bool_false_iff in Eac].
    + repeat split; auto using Qle_refl, Qlt_le_weak.
      eapply Qle_trans; [eassumption | apply Qlt_le_weak; assumption].
    + repeat split; auto using Qle_refl.
Qed.

(** With a first argument that dominates the other two, [py_max3] returns
    that very argument. *)
Lemma py_max3_first (a b c : Q) :
  (b <= a)%Q -> (c <= a)%Q -> py_max3 a b c = a.
Proof.
  intros Hb Hc. unfold py_max3.
  apply Qlt_bool_false_iff in Hb. rewrite Hb.
  apply Qlt_bool_false_iff in Hc. rewrite Hc. reflexivity.
Qed.

Lemma round_half_even_close (x : Q) :
  (Qabs (inject_Z (round_half_even x) - x) <= 1 # 2)%Q.
Proof.
  unfold round_half_even.
  pose proof (Qfloor_le x) as Hlo.
  pose proof (Qlt_floor x) as Hhi.
  rewrite inject_Z_plus in Hhi.
  assert (Hone : inject_Z 1 == 1) by reflexivity.
  rewrite Hone in Hhi.
  set (f := inject_Z (Qfloor x)) in *.
  apply Qabs_Qle_condition.
  destruct (Qcompare (x - f) (1 # 2)) eqn:E.
  - apply Qeq_alt in E.
    destruct (Z.even (Qfloor x)).
    + fold f. split; lra.
    + rewrite inject_Z_plus, Hone. fold f. split; lra.
  - apply Qlt_alt in E. fold f. split; lra.
  - apply Qgt_alt in E. rewrite inject_Z_plus, Hone. fold f. split; lra.
Qed.

(** [round(x, 3)] is within half a thousandth of [x]. *)
Lemma py_round3_close (x : Q) : (Qabs (py_round3 x - x) <= 1 # 2000)%Q.
Proof.
  unfold py_round3.
  pose proof (round_half_even_close (x * 1000)) as H.
  apply Qabs_Qle_condition in H. apply Qabs_Qle_condition.
  set (r := round_half_even (x * 1000)) in *.
  assert (Hr : r # 1000 == inject_Z r / 1000).
  { rewrite <- (Qmake_Qdiv r 1000). reflexivity. }
  rewrite Hr. destruct H as [H1 H2].
  unfold Qdiv. change (/ 1000)%Q with (1 # 1000)%Q.
  split; lra.
Qed.

Lemma py_round3_one : py_round3 1 == 1.
Proof. reflexivity. Qed.

(** ** The structure of a [detect] call *)

Section DetectProperties.

Context (rt : Runtime).

(** [detect] leaves the detector as it found it. *)
Lemma detect_keeps_self now ev ctx (self : Detector rt) :
  snd (detect rt now ev ctx self) = self.
Proof.
  run_method.
  destruct (_extract_features rt ev ctx); [|reflexivity].
  destruct (ml_detection rt self a); [|reflexivity].
  match goal with
  | |- context [match ?r with Ok _ => _ | Raise _ => _ end] => destruct r
  end; reflexivity.
Qed.

(** What a returning [detect] call has computed. *)
Lemma detect_returns now ev ctx (self : Detector rt) v :
  fst (detect rt now ev ctx self) = Ok v ->
  exists features learned,
    _extract_features rt ev ctx = Ok features /\
    ml_detection rt self features = Ok learned /\
    let stat := _statistical_detection rt now ev ctx in
    let pat := _pattern_detection rt self ev ctx in
    let is_anomaly := anomaly_of stat || fst learned || anomaly_of pat in
    let ty := if anomaly_of stat then type_of stat
              else if anomaly_of pat then type_of pat
              else if fst learned then "ml_detected" else "none" in
    (if is_anomaly then rmap Some (_generate_fallback rt ev ctx ty) else Ok None)
      = Ok (v_fallback v) /\
    v_is_anomaly v = is_anomaly /\
    v_type v = ty /\
    v_scores v = {| statistical := score_of stat; ml := snd learned;
                    pattern := score_of pat |} /\
    v_score v = py_round3 (py_max3 (score_of stat) (snd learned) (score_of pat)) /\
    v_confidence v = v_score v.
Proof.
  run_method.
  destruct (_extract_features rt ev ctx) as [features|] eqn:Ef; [|discriminate].
  destruct (ml_detection rt self features) as [learned|] eqn:El; [|discriminate].
  match goal with
  | |- context [match ?r with Ok _ => _ | Raise _ => _ end] =>
      destruct r as [fb|] eqn:Efb
  end; [|discriminate].
  simpl. intros [= <-]. exists features, learned. simpl.
  split; [reflexivity|]. split; [exact El|]. split; [exact Efb|].
  repeat split.
Qed.

(** The class of the object a returning [detect] call stores under
    [is_anomaly]: [numpy.bool_] exactly when the learned method signals
    and the statistical method does not. *)
Lemma detect_flag_class now ev ctx (self : Detector rt) v :
  fst (detect rt now ev ctx self) = Ok v ->
  exists features learned,
    _extract_features rt ev ctx = Ok features
    /\ ml_detection rt self features = Ok learned
    /\ v_is_anomaly_class v
       = (if anomaly_of (_statistical_detection rt now ev ctx) then builtin_bool
          else if fst learned then numpy_bool else builtin_bool).
Proof.
  run_method.
  destruct (_extract_features rt ev ctx) as [features|] eqn:Ef; [|discriminate].
  destruct (ml_detection rt self features) as [learned|] eqn:El; [|discriminate].
  match goal with
  | |- context [match ?r with Ok _ => _ | Raise _ => _ end] =>
      destruct r as [fb|] eqn:Efb
  end; [|discriminate].
  simpl. intros [= <-]. exists features, learned. simpl.
  split; [reflexivity|]. split; [exact El | reflexivity].
Qed.

(** [detect] returns as soon as its three fallible steps do. *)
Lemma detect_total now ev ctx (self : Detector rt) features learned fb :
  _extract_features rt ev ctx = Ok features ->
  ml_detection rt self features = Ok learned ->
  (let stat := _statistical_detection rt now ev ctx in
   let pat := _pattern_detection rt self ev ctx in
   let is_anomaly := anomaly_of stat || fst learned || anomaly_of pat in
   let ty := if anomaly_of stat then type_of stat
             else if anomaly_of pat then type_of pat
             else if fst learned then "ml_detected" else "none" in
   (if is_anomaly then rmap Some (_generate_fallback rt ev ctx ty) else Ok None)
     = Ok fb) ->
  exists v, fst (detect rt now ev ctx self) = Ok v.
Proof.
  intros Hf Hl Hfb. run_method. rewrite Hf. simpl. rewrite Hl. simpl.
  simpl in Hfb. rewrite Hfb. simpl. eauto.
Qed.

(** *** Feature extraction *)

Lemma filter_nonempty {A} (p : A -> bool) (l : list A) x :
  In x l -> p x = true -> List.filter p l <> [].
Proof.
  intros Hin Hp Hnil.
  assert (Hx : In x (List.filter p l)) by (apply filter_In; auto).
  rewrite Hnil in Hx. exact Hx.
Qed.

Lemma filter_all_false {A} (p : A -> bool) (l : list A) :
  (forall x, In x l -> p x = false) -> List.filter p l = [].
Proof.
  induction l as [|a l IH]; intros H; simpl; [reflexivity|].
  rewrite (H a (or_introl eq_refl)). apply IH. intros x Hx. apply H. right. exact Hx.
Qed.

(** Extraction returns a vector of eleven features on an empty context and
    on a context with at least one event of non-zero latitude. *)
Lemma extract_features_ok ev ctx :
  ctx = [] \/ (exists e, In e ctx /\ truthy_num (ev_latitude e) = true) ->
  exists features, _extract_features rt ev ctx = Ok features /\ length features = 11%nat.
Proof.
  intros H. unfold _extract_features.
  destruct ctx as [|c ctx].
  - simpl. eexists. split; [reflexivity|].
    rewrite ?length_app. simpl. destruct (parse_timestamp rt ev); reflexivity.
  - destruct H as [H|[e [Hin He]]]; [discriminate|].
    pose proof (filter_nonempty (fun e0 => truthy_num (ev_latitude e0)) _ _ Hin He) as Hne.
    destruct (List.filter (fun e0 => truthy_num (ev_latitude e0)) (c :: ctx))
      as [|g gs] eqn:Eg; [congruence|].
    cbn [map py_min rbind]. eexists. split; [reflexivity|].
    rewrite ?length_app. simpl. destruct (parse_timestamp rt ev); reflexivity.
Qed.

(** On a non-empty context none of whose events has a non-zero latitude,
    extraction raises [ValueError], and so does [detect]. *)
Lemma extract_features_min_empty ev c ctx :
  (forall e, In e (c :: ctx) -> truthy_num (ev_latitude e) = false) ->
  _extract_features rt ev (c :: ctx) = Raise ValueError.
Proof.
  intros H. unfold _extract_features.
  rewrite (filter_all_false _ _ H). reflexivity.
Qed.

(** *** The three detection methods *)

Lemma opt_str_eqb_spec (a b : option string) : opt_str_eqb a b = true <-> a = b.
Proof.
  destruct a as [a|], b as [b|]; simpl; try (split; congruence).
  rewrite String.eqb_eq. split; congruence.
Qed.

Lemma truthy_num_true (x : option Q) :
  truthy_num x = true <-> exists q, x = Some q /\ ~ q == 0.
Proof.
  unfold truthy_num. split.
  - destruct x as [q|]; [|discriminate]. intros H. exists q. split; [reflexivity|].
    intros Hq. apply Qeq_bool_iff in Hq. rewrite Hq in H. discriminate.
  - intros [q [-> Hq]]. destruct (Qeq_bool q 0) eqn:E; [|reflexivity].
    apply Qeq_bool_iff in E. contradiction.
Qed.

Lemma truthy_num_false (x : option Q) :
  truthy_num x = false <-> x = None \/ zero_coordinate x.
Proof.
  unfold truthy_num, zero_coordinate. split.
  - destruct x as [q|]; [|auto]. rewrite negb_false_iff. intros H.
    right. exists q. split; [reflexivity|]. apply Qeq_bool_iff. exact H.
  - intros [->|[q [-> Hq]]]; [reflexivity|].
    apply Qeq_bool_iff in Hq. rewrite Hq. reflexivity.
Qed.

(** Rule 1 of the statistical method. *)
Lemma statistical_zero now ev ctx :
  get_latitude ev == 0 -> get_longitude ev == 0 ->
  _statistical_detection rt now ev ctx = (true, 1%Q, "zero_coordinates").
Proof.
  intros Hla Hlo. unfold _statistical_detection.
  apply Qeq_bool_iff in Hla. apply Qeq_bool_iff in Hlo.
  rewrite Hla, Hlo. reflexivity.
Qed.

(** Rule 2 of the statistical method. *)
Lemma statistical_invalid now ev ctx :
  ~ (get_latitude ev == 0 /\ get_longitude ev == 0) ->
  (get_latitude ev < 24 \/ 50 < get_latitude ev
   \/ get_longitude ev < -125 \/ -65 < get_longitude ev)%Q ->
  _statistical_detection rt now ev ctx = (true, 1%Q, "invalid_coordinates").
Proof.
  intros Hnz Hout. unfold _statistical_detection.
  destruct (Qeq_bool (get_latitude ev) 0 && Qeq_bool (get_longitude ev) 0) eqn:Ez.
  - apply andb_true_iff in Ez. destruct Ez as [E1 E2].
    apply Qeq_bool_iff in E1. apply Qeq_bool_iff in E2. tauto.
  - destruct (Qle_bool 24 (get_latitude ev) && Qle_bool (get_latitude ev) 50
              && Qle_bool (-125) (get_longitude ev)
              && Qle_bool (get_longitude ev) (-65)) eqn:Eb; [|reflexivity].
    rewrite !andb_true_iff in Eb. destruct Eb as [[[B1 B2] B3] B4].
    apply Qle_bool_iff in B1, B2, B3, B4.
    exfalso. destruct Hout as [H|[H|[H|H]]];
      eapply Qlt_not_le; eassumption.
Qed.

(** Every score of the pattern method is one of four constants. *)
Lemma pattern_score_range (self : Detector rt) ev ctx :
  (0 <= score_of (_pattern_detection rt self ev ctx))%Q
  /\ (score_of (_pattern_detection rt self ev ctx) <= 1)%Q.
Proof.
  unfold _pattern_detection.
  repeat match goal with
         | |- context [match ?x with _ => _ end] => destruct x
         end; unfold score_of; simpl; split; lra.
Qed.

(** Every score of the statistical method is one of five constants. *)
Lemma statistical_score_range now ev ctx :
  (0 <= score_of (_statistical_detection rt now ev ctx))%Q
  /\ (score_of (_statistical_detection rt now ev ctx) <= 1)%Q.
Proof.
  unfold _statistical_detection.
  repeat match goal with
         | |- context [match ?x with _ => _ end] => destruct x
         end; unfold score_of; simpl; split; lra.
Qed.

(** *** The fallback synthesizer *)

Lemma fallback_default_shape ev ctx :
  In (fb_source (fallback_default rt ev ctx)) fallback_sources
  /\ (0 <= fb_confidence (fallback_default rt ev ctx))%Q
  /\ (fb_confidence (fallback_default rt ev ctx) <= 1)%Q.
Proof.
  unfold fallback_default, fallback_sources.
  match goal with
  | |- context [match ?x with _ => _ end] => destruct x
  end; simpl; repeat split; auto 6; lra.
Qed.

Lemma generate_fallback_shape ev ctx ty f :
  _generate_fallback rt ev ctx ty = Ok f ->
  In (fb_source f) fallback_sources
  /\ (0 <= fb_confidence f)%Q /\ (fb_confidence f <= 1)%Q.
Proof.
  unfold _generate_fallback.
  destruct (String.eqb ty "zero_coordinates").
  - destruct (List.filter (last_known_good (ev_state ev)) (rev ctx)) as [|e sim].
    + intros [= <-]. apply fallback_default_shape.
    + destruct (ev_latitude e); [|discriminate].
      destruct (ev_longitude e); [|discriminate].
      simpl. intros [= <-]. unfold fallback_sources. simpl. repeat split; auto; lra.
  - destruct (String.eqb ty "stuck_api").
    { intros [= <-]. unfold fallback_sources. simpl. repeat split; auto; lra. }
    destruct (String.eqb ty "stale_event").
    { intros [= <-]. unfold fallback_sources. simpl. repeat split; auto; lra. }
    intros [= <-]. apply fallback_default_shape.
Qed.

(** Outside the [zero_coordinates] branch the synthesizer returns. *)
Lemma generate_fallback_total ev ctx ty :
  ty <> "zero_coordinates" -> exists f, _generate_fallback rt ev ctx ty = Ok f.
Proof.
  intros Hty. unfold _generate_fallback.
  destruct (String.eqb ty "zero_coordinates") eqn:E.
  - apply String.eqb_eq in E. contradiction.
  - destruct (String.eqb ty "stuck_api"); [eauto|].
    destruct (String.eqb ty "stale_event"); eauto.
Qed.

(** The synthesizer returns on a context window whose events all carry
    both coordinates. *)
Lemma generate_fallback_present ev ctx ty :
  (forall e, In e ctx -> ev_latitude e <> None /\ ev_longitude e <> None) ->
  exists f, _generate_fallback rt ev ctx ty = Ok f.
Proof.
  intros Hall. unfold _generate_fallback.
  destruct (String.eqb ty "zero_coordinates").
  - destruct (List.filter (last_known_good (ev_state ev)) (rev ctx)) as [|e sim] eqn:Es;
      [eauto|].
    assert (Hin : In e ctx).
    { apply in_rev. eapply proj1. apply (filter_In (last_known_good (ev_state ev))).
      rewrite Es. left. reflexivity. }
    destruct (Hall e Hin) as [Hla Hlo].
    destruct (ev_latitude e); [|congruence].
    destruct (ev_longitude e); [|congruence].
    simpl. eauto.
  - destruct (String.eqb ty "stuck_api"); [eauto|].
    destruct (String.eqb ty "stale_event"); eauto.
Qed.

End DetectProperties.

(** ** Properties of [detect] *)

Section DetectClaims.

Context (rt : Runtime).

(** C1 (amended).  For every [detect] call that returns, [scores] holds the
    scores of the three methods; [score] is their maximum rounded to three
    decimals, hence within 0.0005 of it; [is_anomaly] is the disjunction of
    the three methods' flags; and [type] follows the flags, not the
    scores: it is the statistical method's type when that method
    signalled, else the pattern method's type when that one signalled,
    else [ml_detected] when the learned method signalled, else [none]. *)
Theorem detect_fusion now ev ctx (self : Detector rt) v :
  fst (detect rt now ev ctx self) = Ok v ->
  let stat := _statistical_detection rt now ev ctx in
  let pat := _pattern_detection rt self ev ctx in
  exists features learned,
    _extract_features rt ev ctx = Ok features
    /\ ml_detection rt self features = Ok learned
    /\ v_scores v = {| statistical := score_of stat; ml := snd learned;
                       pattern := score_of pat |}
    /\ (exists m,
          (m = score_of stat \/ m = snd learned \/ m = score_of pat)
          /\ (score_of stat <= m)%Q /\ (snd learned <= m)%Q /\ (score_of pat <= m)%Q
          /\ v_score v = py_round3 m
          /\ (Qabs (v_score v - m) <= 1 # 2000)%Q)
    /\ v_is_anomaly v = anomaly_of stat || fst learned || anomaly_of pat
    /\ v_type v = (if anomaly_of stat then type_of stat
                   else if anomaly_of pat then type_of pat
                   else if fst learned then "ml_detected" else "none").
Proof.
  intros H stat pat.
  destruct (detect_returns rt _ _ _ _ _ H)
    as (features & learned & Hf & Hl & _ & Han & Hty & Hsc & Hs & _).
  exists features, learned.
  split; [exact Hf|]. split; [exact Hl|]. split; [exact Hsc|].
  split; [|split; [exact Han | exact Hty]].
  exists (py_max3 (score_of stat) (snd learned) (score_of pat)).
  destruct (py_max3_spec (score_of stat) (snd learned) (score_of pat))
    as (Hone & H1 & H2 & H3).
  repeat split; try assumption.
  rewrite Hs. apply py_round3_close.
Qed.

(** C10.  For every [detect] call that returns, the fallback is present
    exactly when [is_anomaly] is true, and a present fallback carries one
    of the five source tags and a confidence between 0 and 1. *)
Theorem fallback_iff_anomaly now ev ctx (self : Detector rt) v :
  fst (detect rt now ev ctx self) = Ok v ->
  (v_fallback v <> None <-> v_is_anomaly v = true)
  /\ (forall f, v_fallback v = Some f ->
        In (fb_source f) fallback_sources
        /\ (0 <= fb_confidence f)%Q /\ (fb_confidence f <= 1)%Q).
Proof.
  intros H.
  destruct (detect_returns rt _ _ _ _ _ H)
    as (features & learned & _ & _ & Hfb & Han & _).
  rewrite Han. clear Han.
  destruct (anomaly_of (_statistical_detection rt now ev ctx) || fst learned
            || anomaly_of (_pattern_detection rt self ev ctx)).
  - destruct (_generate_fallback rt ev ctx _) as [f|] eqn:Eg; [|discriminate].
    simpl in Hfb. injection Hfb as Hfb. rewrite <- Hfb. split.
    + split; [reflexivity | discriminate].
    + intros f' [= <-]. eapply generate_fallback_shape. exact Eg.
  - injection Hfb as Hfb. rewrite <- Hfb. split.
    + split; [congruence | discriminate].
    + discriminate.
Qed.

(** C3 (the defect).  On a non-empty context window none of whose events
    has a non-zero latitude, feature extraction raises [ValueError]
    instead of using the sentinel 999, and [detect] raises with it. *)
Theorem detect_raises_without_located_context now ev c ctx (self : Detector rt) :
  (forall e, In e (c :: ctx) -> ev_latitude e = None \/ zero_coordinate (ev_latitude e)) ->
  _extract_features rt ev (c :: ctx) = Raise ValueError
  /\ fst (detect rt now ev (c :: ctx) self) = Raise ValueError.
Proof.
  intros H.
  assert (Hx : _extract_features rt ev (c :: ctx) = Raise ValueError).
  { apply extract_features_min_empty. intros e He.
    apply truthy_num_false. apply H. exact He. }
  split; [exact Hx|].
  unfold detect, bind, get, lift. simpl. rewrite Hx. reflexivity.
Qed.

(** C5 (amended).  For every event whose coordinates are not both zero and
    whose latitude is outside [24, 50] or longitude outside [-125, -65],
    on a context window that is empty or holds an event of non-zero
    latitude, and with a learned method that returns a score of at most 1,
    [detect] returns an anomaly of type [invalid_coordinates] with
    statistical score 1 and combined score 1. *)
Theorem invalid_coordinates_detected now ev ctx (self : Detector rt) :
  ~ (get_latitude ev == 0 /\ get_longitude ev == 0) ->
  (get_latitude ev < 24 \/ 50 < get_latitude ev
   \/ get_longitude ev < -125 \/ -65 < get_longitude ev)%Q ->
  (ctx = [] \/ exists e q, In e ctx /\ ev_latitude e = Some q /\ ~ q == 0) ->
  (forall features, exists learned,
      ml_detection rt self features = Ok learned /\ (snd learned <= 1)%Q) ->
  exists v,
    fst (detect rt now ev ctx self) = Ok v
    /\ v_is_anomaly v = true
    /\ v_type v = "invalid_coordinates"
    /\ statistical (v_scores v) = 1%Q
    /\ v_score v == 1.
Proof.
  intros Hnz Hout Hctx Hml.
  pose proof (statistical_invalid rt now ev ctx Hnz Hout) as Hstat.
  destruct (extract_features_ok rt ev ctx) as (features & Hf & _).
  { destruct Hctx as [->|(e & q & Hin & Hq & Hne)]; [left; reflexivity|].
    right. exists e. split; [exact Hin|]. apply truthy_num_true. eauto. }
  destruct (Hml features) as (learned & Hl & Hle).
  destruct (generate_fallback_total rt ev ctx "invalid_coordinates") as (f & Hg);
    [discriminate|].
  destruct (detect_total rt now ev ctx self features learned (Some f) Hf Hl)
    as (v & Hv).
  { rewrite Hstat. unfold anomaly_of, type_of. cbn [fst snd orb].
    rewrite Hg. reflexivity. }
  exists v. split; [exact Hv|].
  destruct (detect_returns rt _ _ _ _ _ Hv)
    as (features' & learned' & Hf' & Hl' & _ & Han & Hty & Hsc & Hs & _).
  rewrite Hf in Hf'. injection Hf' as <-.
  rewrite Hl in Hl'. injection Hl' as <-.
  rewrite Hstat in Han, Hty, Hsc, Hs.
  unfold anomaly_of, type_of, score_of in Han, Hty, Hsc, Hs.
  cbn [fst snd orb] in Han, Hty, Hsc, Hs.
  split; [exact Han|]. split; [exact Hty|].
  split; [rewrite Hsc; reflexivity|].
  rewrite Hs. rewrite py_max3_first.
  - reflexivity.
  - exact Hle.
  - apply pattern_score_range.
Qed.

(** The [try] block of the learned method yields a pair only when the
    scaler, the prediction and the scoring have all returned. *)
Lemma ml_try_returns (self : Detector rt) features r :
  ml_try rt self features = Ok r <->
  exists m X p ps raw raws,
    model self = Some m
    /\ scaler_transform rt (scaler self) [features] = Ok X
    /\ model_predict rt m X = Ok (p :: ps)
    /\ model_score_samples rt m X = Ok (raw :: raws)
    /\ r = ((p =? -1)%Z, Qabs raw).
Proof.
  unfold ml_try. split.
  - destruct (model self) as [m|]; [|discriminate].
    destruct (scaler_transform rt (scaler self) [features]) as [X|]; [|discriminate].
    cbn [rbind].
    destruct (model_predict rt m X) as [[|p ps]|] eqn:Ep; try discriminate.
    cbn [rbind index0].
    destruct (model_score_samples rt m X) as [[|raw raws]|] eqn:Es; try discriminate.
    cbn [rbind rmap index0]. intros [= <-].
    exists m, X, p, ps, raw, raws. repeat split; assumption.
  - intros (m & X & p & ps & raw & raws & -> & -> & Hp & Hs & ->).
    cbn [rbind]. rewrite Hp. cbn [rbind index0]. rewrite Hs. reflexivity.
Qed.

(** C4 (the defect).  A detector constructed with scikit-learn present and
    no model file holds a new, unfitted forest.  The availability test of
    method 2 takes the truth value of the stored forest outside the [try];
    when that truth value raises, as it does for an unfitted forest (it is
    the number of trees, an attribute that only [fit] sets), the learned
    method does not contribute 0: the test raises, and every [detect] call
    on the constructed detector raises, with the exception of the truth
    value whenever feature extraction returns. *)
Theorem untrained_detector_raises path e :
  SKLEARN_AVAILABLE rt = true ->
  os_path_exists rt path = false ->
  model_bool rt (IsolationForest rt) = Raise e ->
  exists self,
    __init__ rt path = Ok self
    /\ model_available rt self = Raise e
    /\ (forall features, ml_detection rt self features = Raise e)
    /\ forall now ev ctx,
         detect rt now ev ctx self
         = (Raise (match _extract_features rt ev ctx with
                   | Ok _ => e
                   | Raise e' => e'
                   end), self).
Proof.
  intros Hsk Hex Hbool. unfold __init__. rewrite Hsk, Hex.
  eexists. split; [reflexivity|].
  assert (Hav : model_available rt
                  {| model_path := path;
                     model := Some (IsolationForest rt);
                     scaler := StandardScaler rt;
                     event_history := [];
                     state_baselines := ∅ |} = Raise e).
  { unfold model_available. rewrite Hsk. cbn [model]. rewrite Hbool. reflexivity. }
  assert (Hml : forall features,
             ml_detection rt
               {| model_path := path;
                  model := Some (IsolationForest rt);
                  scaler := StandardScaler rt;
                  event_history := [];
                  state_baselines := ∅ |} features = Raise e).
  { intros features. unfold ml_detection. rewrite Hav. reflexivity. }
  split; [exact Hav|]. split; [exact Hml|].
  intros now ev ctx. unfold detect, bind, get, lift. cbv beta iota.
  destruct (_extract_features rt ev ctx) as [features|e']; [|reflexivity].
  cbv beta iota. rewrite Hml. reflexivity.
Qed.

(** X20.  The learned method once its availability test has returned.  Its
    entry of [scores] is the absolute value of the model's raw outlier
    score, with no saturation: it is never negative, and it is at most 1
    exactly when the raw score lies in [-1, 1].  When no model is
    available (scikit-learn missing, no stored model, a stored model that
    is false or has no [predict]), and when scaling, prediction or scoring
    raises, the method contributes 0 with a false flag, and it never
    raises. *)
Theorem learned_contribution (self : Detector rt) features :
  (forall available, model_available rt self = Ok available ->
     exists anomaly sc,
       ml_detection rt self features = Ok (anomaly, sc)
       /\ (0 <= sc)%Q
       /\ (available = false -> anomaly = false /\ sc = 0%Q)
       /\ (forall e, ml_try rt self features = Raise e -> anomaly = false /\ sc = 0%Q)
       /\ (available = true -> forall m X p ps raw raws,
             model self = Some m ->
             scaler_transform rt (scaler self) [features] = Ok X ->
             model_predict rt m X = Ok (p :: ps) ->
             model_score_samples rt m X = Ok (raw :: raws) ->
             anomaly = (p =? -1)%Z /\ sc = Qabs raw
             /\ ((sc <= 1)%Q <-> (-1 <= raw)%Q /\ (raw <= 1)%Q)))
  /\ (forall now ev ctx v,
        fst (detect rt now ev ctx self) = Ok v ->
        _extract_features rt ev ctx = Ok features ->
        exists learned,
          ml_detection rt self features = Ok learned
          /\ ml (v_scores v) = snd learned).
Proof.
  split.
  - intros available Hav. unfold ml_detection. rewrite Hav. cbn [rbind].
    destruct available.
    + destruct (ml_try rt self features) as [[anomaly sc]|e] eqn:Etry.
      * exists anomaly, sc. cbn [try_except].
        split; [reflexivity|].
        apply ml_try_returns in Etry.
        destruct Etry as (m & X & p & ps & raw & raws & Hm & HX & Hp & Hs & [= -> ->]).
        split; [apply Qabs_nonneg|]. split; [discriminate|].
        split; [discriminate|].
        intros _ m' X' p' ps' raw' raws' Hm' HX' Hp' Hs'.
        rewrite Hm in Hm'. injection Hm' as <-.
        rewrite HX in HX'. injection HX' as <-.
        rewrite Hp in Hp'. injection Hp' as <- <-.
        rewrite Hs in Hs'. injection Hs' as <- <-.
        split; [reflexivity|]. split; [reflexivity|].
        rewrite Qabs_Qle_condition. reflexivity.
      * exists false, 0%Q. cbn [try_except].
        split; [reflexivity|]. split; [apply Qle_refl|].
        split; [auto|]. split; [auto|].
        intros _ m X p ps raw raws Hm HX Hp Hs.
        assert (Hok : ml_try rt self features = Ok ((p =? -1)%Z, Qabs raw)).
        { apply ml_try_returns. exists m, X, p, ps, raw, raws. auto. }
        rewrite Hok in Etry. discriminate.
    + exists false, 0%Q.
      split; [reflexivity|]. split; [apply Qle_refl|].
      split; [auto|]. split; [auto|]. discriminate.
  - intros now ev ctx v Hv Hf.
    destruct (detect_returns rt _ _ _ _ _ Hv)
      as (features' & learned & Hf' & Hl & _ & _ & _ & Hsc & _).
    rewrite Hf in Hf'. injection Hf' as <-.
    exists learned. split; [exact Hl|]. rewrite Hsc. reflexivity.
Qed.

(** The statistical method reads the clock only at the time zone of the
    parsed timestamp. *)
Lemma statistical_clock now now' ev ctx :
  (forall ts, parse_timestamp rt ev = Some ts -> now' (dt_tzinfo ts) = now (dt_tzinfo ts)) ->
  _statistical_detection rt now' ev ctx = _statistical_detection rt now ev ctx.
Proof.
  intros H. unfold _statistical_detection.
  destruct (parse_timestamp rt ev) as [ts|]; [|reflexivity].
  rewrite (H ts eq_refl). reflexivity.
Qed.

(** C9 (amended).  [detect] never changes the detector; two successive
    calls on the same event and context at the same clock reading return
    the same result; and the result depends on the clock only through the
    reading taken at the time zone of the event's parsed timestamp, so it
    does not depend on the clock at all when the timestamp is missing or
    unparsable. *)
Theorem detect_pure_given_clock now ev ctx (self : Detector rt) :
  snd (detect rt now ev ctx self) = self
  /\ (forall r1 s1 r2 s2,
        detect rt now ev ctx self = (r1, s1) ->
        detect rt now ev ctx s1 = (r2, s2) ->
        r1 = r2 /\ s1 = self /\ s2 = self)
  /\ (forall now',
        (forall ts, parse_timestamp rt ev = Some ts ->
                    now' (dt_tzinfo ts) = now (dt_tzinfo ts)) ->
        detect rt now' ev ctx self = detect rt now ev ctx self)
  /\ (parse_timestamp rt ev = None ->
      forall now', detect rt now' ev ctx self = detect rt now ev ctx self).
Proof.
  assert (Hclock : forall now',
             (forall ts, parse_timestamp rt ev = Some ts ->
                         now' (dt_tzinfo ts) = now (dt_tzinfo ts)) ->
             detect rt now' ev ctx self = detect rt now ev ctx self).
  { intros now' H. unfold detect.
    rewrite (statistical_clock now now' ev ctx H). reflexivity. }
  split; [apply detect_keeps_self|].
  split.
  - intros r1 s1 r2 s2 H1 H2.
    pose proof (detect_keeps_self rt now ev ctx self) as K1.
    rewrite H1 in K1. simpl in K1. subst s1.
    rewrite H1 in H2. injection H2 as <- <-. auto.
  - split; [exact Hclock|].
    intros Hnone now'. apply Hclock. intros ts Hts. congruence.
Qed.

(** X1.  The first rule at work.  For every event whose latitude and longitude
    are zero (or missing), on a context window that is empty or holds an
    event of non-zero latitude, whose events all carry both coordinates,
    and with a learned method that returns a score of at most 1, [detect]
    returns an anomaly of type [zero_coordinates] with combined score 1
    and a fallback suggestion. *)
Theorem zero_coordinates_detected now ev ctx (self : Detector rt) :
  get_latitude ev == 0 -> get_longitude ev == 0 ->
  (ctx = [] \/ exists e q, In e ctx /\ ev_latitude e = Some q /\ ~ q == 0) ->
  (forall e, In e ctx -> ev_latitude e <> None /\ ev_longitude e <> None) ->
  (forall features, exists learned,
      ml_detection rt self features = Ok learned /\ (snd learned <= 1)%Q) ->
  exists v,
    fst (detect rt now ev ctx self) = Ok v
    /\ v_is_anomaly v = true
    /\ v_type v = "zero_coordinates"
    /\ v_score v == 1
    /\ exists f, v_fallback v = Some f.
Proof.
  intros Hla Hlo Hctx Hkeys Hml.
  pose proof (statistical_zero rt now ev ctx Hla Hlo) as Hstat.
  destruct (extract_features_ok rt ev ctx) as (features & Hf & _).
  { destruct Hctx as [->|(e & q & Hin & Hq & Hne)]; [left; reflexivity|].
    right. exists e. split; [exact Hin|]. apply truthy_num_true. eauto. }
  destruct (Hml features) as (learned & Hl & Hle).
  destruct (generate_fallback_present rt ev ctx "zero_coordinates" Hkeys) as (f & Hg).
  destruct (detect_total rt now ev ctx self features learned (Some f) Hf Hl)
    as (v & Hv).
  { rewrite Hstat. unfold anomaly_of, type_of. cbn [fst snd orb].
    rewrite Hg. reflexivity. }
  exists v. split; [exact Hv|].
  destruct (detect_returns rt _ _ _ _ _ Hv)
    as (features' & learned' & Hf' & Hl' & Hfb & Han & Hty & Hsc & Hs & _).
  rewrite Hf in Hf'. injection Hf' as <-.
  rewrite Hl in Hl'. injection Hl' as <-.
  rewrite Hstat in Hfb, Han, Hty, Hsc, Hs.
  unfold anomaly_of, type_of, score_of in Hfb, Han, Hty, Hsc, Hs.
  cbn [fst snd orb] in Hfb, Han, Hty, Hsc, Hs.
  split; [exact Han|]. split; [exact Hty|]. split.
  - rewrite Hs. rewrite py_max3_first.
    + reflexivity.
    + exact Hle.
    + apply pattern_score_range.
  - rewrite Hg in Hfb. injection Hfb as Hfb. eauto.
Qed.

(** X3.  Feature extraction returns a vector of eleven numbers on every event,
    on an empty context window and on one that holds an event of non-zero
    latitude. *)
Theorem extract_features_fixed_length ev ctx :
  ctx = [] \/ (exists e q, In e ctx /\ ev_latitude e = Some q /\ ~ q == 0) ->
  exists features, _extract_features rt ev ctx = Ok features /\ length features = 11%nat.
Proof.
  intros [->|(e & q & Hin & Hq & Hne)]; apply extract_features_ok.
  - left. reflexivity.
  - right. exists e. split; [exact Hin|]. apply truthy_num_true. eauto.
Qed.

End DetectClaims.

(** ** Properties of [_generate_fallback] *)

Section FallbackClaims.

Context (rt : Runtime).

Lemma ne_zero_false (x : option Q) : ne_zero x = false <-> zero_coordinate x.
Proof.
  unfold ne_zero, zero_coordinate. split.
  - destruct x as [q|]; [|discriminate]. rewrite negb_false_iff. intros H.
    exists q. split; [reflexivity|]. apply Qeq_bool_iff. exact H.
  - intros [q [-> Hq]]. apply Qeq_bool_iff in Hq. rewrite Hq. reflexivity.
Qed.

Lemma ne_zero_some (q : Q) : ~ q == 0 -> ne_zero (Some q) = true.
Proof.
  intros H. unfold ne_zero. destruct (Qeq_bool q 0) eqn:E; [|reflexivity].
  apply Qeq_bool_iff in E. contradiction.
Qed.

(** An event is passed over by the scan exactly when it is from another
    state or has a coordinate that is present and zero. *)
Lemma last_known_good_false state e :
  last_known_good state e = false <->
  ev_state e <> state
  \/ zero_coordinate (ev_latitude e) \/ zero_coordinate (ev_longitude e).
Proof.
  unfold last_known_good. rewrite !andb_false_iff, !ne_zero_false. split.
  - intros [[H|H]|H]; auto. left. intros Heq.
    apply opt_str_eqb_spec in Heq. congruence.
  - intros [H|[H|H]]; auto. left. left.
    destruct (opt_str_eqb (ev_state e) state) eqn:E; [|reflexivity].
    apply opt_str_eqb_spec in E. contradiction.
Qed.

(** The events the default branch interpolates from are the context events
    of the same state less than 50 km away. *)
Lemma nearby_events_spec ev ctx e :
  In e (nearby_events rt ev ctx) <->
  In e ctx /\ ev_state e = ev_state ev /\ (_distance rt e ev < 50)%Q.
Proof.
  unfold nearby_events. rewrite filter_In, andb_true_iff, opt_str_eqb_spec, Qlt_bool_iff.
  reflexivity.
Qed.

(** The values averaged for a coordinate are those that are present and
    non-zero. *)
Lemma truthy_values_spec (field : Event -> option Q) events q :
  In q (truthy_values field events) <->
  exists e, In e events /\ field e = Some q /\ ~ q == 0.
Proof.
  unfold truthy_values. rewrite <- list_elem_of_In, list_elem_of_omap. split.
  - intros (e & He & Hq). exists e. rewrite <- list_elem_of_In. split; [exact He|].
    destruct (truthy_num (field e)) eqn:E; [|discriminate].
    apply truthy_num_true in E. destruct E as (q' & Hq' & Hne).
    rewrite Hq' in Hq. injection Hq as <-. auto.
  - intros (e & He & Hq & Hne). exists e. rewrite list_elem_of_In. split; [exact He|].
    assert (E : truthy_num (field e) = true) by (apply truthy_num_true; eauto).
    rewrite E. exact Hq.
Qed.

(** C7 (amended).  For an anomaly of type [zero_coordinates]:
    - if the context window holds an event of the same state whose
      latitude and longitude are both non-zero, and every later event of
      that state has a zero latitude or a zero longitude, the synthesizer
      returns exactly that event's coordinates with confidence 0.6;
    - if every context event of the same state has a zero latitude or a
      zero longitude, the synthesizer takes the default branch: with no
      event of the same state within 50 km it returns
      [manual_review_required] with confidence 0; otherwise it returns
      source [interpolated] with confidence 0.5, whose latitude is the mean
      of the non-zero latitudes of those events and whose longitude is the
      mean of their non-zero longitudes, taken separately. *)
Theorem zero_coordinates_fallback ev ctx :
  (forall pre e post la lo,
      ctx = (pre ++ e :: post)%list ->
      ev_state e = ev_state ev ->
      ev_latitude e = Some la -> ~ la == 0 ->
      ev_longitude e = Some lo -> ~ lo == 0 ->
      (forall x, In x post -> ev_state x = ev_state ev ->
                 zero_coordinate (ev_latitude x) \/ zero_coordinate (ev_longitude x)) ->
      _generate_fallback rt ev ctx "zero_coordinates"
      = Ok {| fb_source := "cached_coordinates";
              fb_latitude := Some (Num la);
              fb_longitude := Some (Num lo);
              fb_action := None;
              fb_confidence := (6 # 10)%Q |})
  /\ ((forall x, In x ctx -> ev_state x = ev_state ev ->
                 zero_coordinate (ev_latitude x) \/ zero_coordinate (ev_longitude x)) ->
      let nearby := nearby_events rt ev ctx in
      exists f,
        _generate_fallback rt ev ctx "zero_coordinates" = Ok f
        /\ (nearby = [] ->
            f = {| fb_source := "none_available";
                   fb_latitude := None;
                   fb_longitude := None;
                   fb_action := Some "manual_review_required";
                   fb_confidence := 0%Q |})
        /\ (nearby <> [] ->
            fb_source f = "interpolated"
            /\ fb_confidence f = (5 # 10)%Q
            /\ fb_action f = None
            /\ (forall la las,
                  truthy_values ev_latitude nearby = la :: las ->
                  fb_latitude f
                  = Some (Num (Qsum (la :: las) / inject_Z (Z.of_nat (length (la :: las))))))
            /\ (forall lo los,
                  truthy_values ev_longitude nearby = lo :: los ->
                  fb_longitude f
                  = Some (Num (Qsum (lo :: los) / inject_Z (Z.of_nat (length (lo :: los)))))))).
Proof.
  split.
  - intros pre e post la lo -> Hst Hla Hnla Hlo Hnlo Hpost.
    unfold _generate_fallback. cbn [String.eqb Ascii.eqb Bool.eqb].
    rewrite rev_app_distr. cbn [rev]. rewrite <- app_assoc. cbn [app].
    rewrite List.filter_app.
    rewrite (filter_all_false (last_known_good (ev_state ev)) (rev post)).
    + cbn [app List.filter].
      assert (Hgood : last_known_good (ev_state ev) e = true).
      { unfold last_known_good. rewrite Hla, Hlo, !ne_zero_some by assumption.
        rewrite (proj2 (opt_str_eqb_spec _ _) Hst). reflexivity. }
      rewrite Hgood. rewrite Hla, Hlo. reflexivity.
    + intros x Hx. apply in_rev in Hx. apply last_known_good_false.
      destruct (option_eq_dec (ev_state x) (ev_state ev)) as [Heq|Hneq]; [|auto].
      right. apply Hpost; assumption.
  - intros Hall nearby.
    exists (fallback_default rt ev ctx). split.
    + unfold _generate_fallback. cbn [String.eqb Ascii.eqb Bool.eqb].
      rewrite (filter_all_false (last_known_good (ev_state ev)) (rev ctx)); [reflexivity|].
      intros x Hx. apply in_rev in Hx. apply last_known_good_false.
      destruct (option_eq_dec (ev_state x) (ev_state ev)) as [Heq|Hneq]; [|auto].
      right. apply Hall; assumption.
    + unfold fallback_default. fold (nearby_events rt ev ctx). fold nearby.
      destruct nearby as [|n ns] eqn:En.
      * split; [reflexivity | congruence].
      * split; [discriminate|]. intros _. cbn [fb_source fb_confidence fb_action
                                                 fb_latitude fb_longitude].
        repeat split.
        -- intros la las ->. reflexivity.
        -- intros lo los ->. reflexivity.
Qed.

End FallbackClaims.

(** ** Properties of [train] *)

Section TrainClaims.

Context (rt : Runtime).

(** C8.  [train] on an empty event list returns the error dictionary and
    leaves the detector (model, scaler and every state baseline) as it
    was. *)
Theorem train_empty (self : Detector rt) :
  train rt [] self = (Ok (TrainError "Training requires sklearn and training data"), self).
Proof.
  unfold train. cbn [is_empty]. rewrite orb_true_r. reflexivity.
Qed.

(** A [train] call that returns metrics was given events, and has passed
    the baselines it found, together with the new events, through the two
    loops. *)
Lemma train_metrics events (self self' : Detector rt) n k ty :
  train rt events self = (Ok (TrainMetrics n k ty), self') ->
  events <> []
  /\ state_baselines self' = build_baselines (state_baselines self) events
  /\ n = length events
  /\ k = size (state_baselines self').
Proof.
  unfold train.
  destruct (negb (SKLEARN_AVAILABLE rt) || is_empty events) eqn:Eg.
  { unfold ret. discriminate. }
  apply orb_false_iff in Eg. destruct Eg as [Esk Eev].
  apply negb_false_iff in Esk.
  unfold _save_model, fit_scaler, fit_model, bind, get, put, lift, ret. rewrite Esk.
  destruct (traverse _ events) as [features|]; [|discriminate].
  destruct (scaler_fit rt (scaler self) features) as [[[]|] fitted]; [|discriminate].
  cbn [fst snd set_scaler model scaler].
  destruct (scaler_transform rt fitted features) as [scaled|]; [|discriminate].
  destruct (model self) as [m|]; [|discriminate].
  destruct (model_fit rt m scaled) as [[[]|] forest]; [|discriminate].
  cbn [fst snd set_model set_state_baselines state_baselines model_path model scaler].
  destruct (joblib_dump rt _ _ _ _); [|discriminate].
  intros [= <- <- <- <-]. cbn [state_baselines].
  split; [|auto]. destruct events; [discriminate | discriminate].
Qed.

(** *** The baseline loops *)

Lemma range_of_nil old : range_of [] old = old.
Proof. reflexivity. Qed.

Lemma range_of_cons x xs old old' : range_of (x :: xs) old = range_of (x :: xs) old'.
Proof. reflexivity. Qed.

Lemma append_truthy_values xs (field : Event -> option Q) e :
  append_truthy xs (field e) = (xs ++ truthy_values field [e])%list.
Proof.
  unfold append_truthy, truthy_values. simpl.
  destruct (field e) as [q|].
  - destruct (truthy_num (Some q)); simpl; [reflexivity | rewrite app_nil_r; reflexivity].
  - simpl. rewrite app_nil_r. reflexivity.
Qed.

Lemma truthy_values_cons (field : Event -> option Q) e es :
  truthy_values field (e :: es)
  = (truthy_values field [e] ++ truthy_values field es)%list.
Proof.
  unfold truthy_values. simpl.
  destruct (if truthy_num (field e) then field e else None); reflexivity.
Qed.

(** One more event of its state, in terms of [extend_baseline]. *)
Lemma add_event_lookup_same baselines e st :
  ev_state e = Some st -> st <> "" ->
  add_event baselines e !! st
  = Some (extend_baseline (default new_baseline (baselines !! st)) [e]).
Proof.
  intros Hst Hne. unfold add_event. rewrite Hst.
  destruct st as [|c st]; [congruence|]. cbn [truthy_str].
  rewrite lookup_insert_eq. f_equal. unfold extend_baseline.
  rewrite !append_truthy_values. reflexivity.
Qed.

Lemma add_event_lookup_other baselines e st :
  ev_state e <> Some st -> add_event baselines e !! st = baselines !! st.
Proof.
  intros Hst. unfold add_event.
  destruct (ev_state e) as [s|]; [|reflexivity].
  destruct (truthy_str (Some s)); [|reflexivity].
  apply lookup_insert_ne. congruence.
Qed.

Lemma extend_baseline_cons data e es :
  extend_baseline (extend_baseline data [e]) es = extend_baseline data (e :: es).
Proof.
  unfold extend_baseline. cbn [bl_events bl_lats bl_lons bl_avg_count bl_lat_range
                                 bl_lon_range].
  rewrite (truthy_values_cons ev_latitude e es), (truthy_values_cons ev_longitude e es).
  rewrite <- !app_assoc. reflexivity.
Qed.

(** The first loop, state by state: a state without events in the corpus
    keeps its entry, a state with events gets them appended to the entry
    it had (or to a new one). *)
Lemma fold_add_event_lookup events : forall baselines st,
  st <> "" ->
  fold_left add_event events baselines !! st
  = if is_empty (events_of_state st events) then baselines !! st
    else Some (extend_baseline (default new_baseline (baselines !! st))
                 (events_of_state st events)).
Proof.
  induction events as [|e events IH]; intros baselines st Hne; [reflexivity|].
  cbn [fold_left]. rewrite (IH _ st Hne). unfold events_of_state. cbn [List.filter].
  destruct (opt_str_eqb (ev_state e) (Some st)) eqn:E.
  - apply opt_str_eqb_spec in E.
    rewrite (add_event_lookup_same _ _ _ E Hne). cbn [is_empty from_option]. unfold id.
    fold (events_of_state st events).
    destruct (events_of_state st events) as [|x xs]; [reflexivity|].
    cbn [is_empty]. rewrite extend_baseline_cons. reflexivity.
  - rewrite add_event_lookup_other; [reflexivity|].
    intros Hst. rewrite Hst in E. simpl in E. rewrite String.eqb_refl in E. discriminate.
Qed.

Lemma calc_statistics_idem data :
  calc_statistics (calc_statistics data) = calc_statistics data.
Proof.
  unfold calc_statistics. cbn [bl_events bl_lats bl_lons bl_lat_range bl_lon_range].
  f_equal.
  - destruct (bl_lats data); reflexivity.
  - destruct (bl_lons data); reflexivity.
Qed.

Lemma append_truthy_nil xs x : append_truthy xs x = [] -> xs = [].
Proof.
  unfold append_truthy. destruct x as [q|]; [|auto].
  destruct (truthy_num (Some q)); [|auto].
  destruct xs; discriminate.
Qed.

Lemma range_of_append xs x old old' :
  range_of xs old = range_of xs old' ->
  range_of (append_truthy xs x) old = range_of (append_truthy xs x) old'.
Proof.
  intros H. destruct (append_truthy xs x) as [|y ys] eqn:E.
  - apply append_truthy_nil in E. subst xs. exact H.
  - apply range_of_cons.
Qed.

(** The statistics of an entry after one more event depend only on the
    statistics of the entry before it. *)
Lemma add_event_calc m1 m2 e :
  calc_statistics <$> m1 = calc_statistics <$> m2 ->
  calc_statistics <$> add_event m1 e = calc_statistics <$> add_event m2 e.
Proof.
  intros H. unfold add_event.
  destruct (ev_state e) as [st|]; [|exact H].
  destruct (truthy_str (Some st)); [|exact H].
  rewrite !fmap_insert. rewrite H. f_equal.
  assert (Hst : calc_statistics <$> (m1 !! st) = calc_statistics <$> (m2 !! st)).
  { rewrite <- !lookup_fmap. rewrite H. reflexivity. }
  destruct (m1 !! st) as [b1|], (m2 !! st) as [b2|]; try discriminate; [|reflexivity].
  injection Hst as He Hla Hlo _ Hra Hro. cbn [from_option]. unfold id.
  unfold calc_statistics.
  cbn [bl_events bl_lats bl_lons bl_avg_count bl_lat_range bl_lon_range].
  rewrite Hla in Hra. rewrite Hlo in Hro.
  rewrite He, Hla, Hlo. f_equal.
  - apply range_of_append. exact Hra.
  - apply range_of_append. exact Hro.
Qed.

Lemma fold_add_event_calc events : forall m1 m2,
  calc_statistics <$> m1 = calc_statistics <$> m2 ->
  calc_statistics <$> fold_left add_event events m1
  = calc_statistics <$> fold_left add_event events m2.
Proof.
  induction events as [|e events IH]; intros m1 m2 H; [exact H|].
  cbn [fold_left]. apply IH. apply add_event_calc. exact H.
Qed.

(** Training twice is training once on the two corpora in a row. *)
Lemma build_baselines_app baselines events1 events2 :
  build_baselines (build_baselines baselines events1) events2
  = build_baselines baselines (events1 ++ events2).
Proof.
  unfold build_baselines. rewrite fold_left_app.
  apply fold_add_event_calc.
  rewrite <- map_fmap_compose. apply map_fmap_ext.
  intros k b _. apply calc_statistics_idem.
Qed.

Lemma train_all_baselines corpora : forall corpus (self self' : Detector rt),
  train_all rt (corpus :: corpora) self = Some self' ->
  state_baselines self'
  = build_baselines (state_baselines self) (concat (corpus :: corpora)).
Proof.
  induction corpora as [|next corpora IH]; intros corpus self self' H.
  - cbn [train_all] in H.
    destruct (train rt corpus self) as [[[msg|n k ty]|e] s1] eqn:Et; try discriminate.
    injection H as <-. apply train_metrics in Et.
    cbn [concat]. rewrite app_nil_r. apply Et.
  - cbn [train_all] in H. cbn [train_all] in IH.
    destruct (train rt corpus self) as [[[msg|n k ty]|e] s1] eqn:Et; try discriminate.
    apply train_metrics in Et. destruct Et as (_ & Hb & _).
    specialize (IH next s1 self' H). rewrite IH, Hb.
    rewrite build_baselines_app. reflexivity.
Qed.

(** C2 (amended).  After a sequence of [train] calls that all return
    metrics, the state baselines are those the two loops compute from the
    baselines present before the first call and from the events of all the
    corpora, in call order: every state keeps the events, latitudes and
    longitudes it had and gains those of its events in every corpus, and
    its [avg_count] is the number of all these events.  Nothing is reset
    between calls. *)
Theorem train_accumulates corpus corpora (self self' : Detector rt) :
  train_all rt (corpus :: corpora) self = Some self' ->
  let events := concat (corpus :: corpora) in
  state_baselines self' = build_baselines (state_baselines self) events
  /\ forall st, st <> "" ->
       let before := state_baselines self !! st in
       let added := events_of_state st events in
       (added = [] -> state_baselines self' !! st = calc_statistics <$> before)
       /\ (added <> [] ->
           exists data,
             state_baselines self' !! st = Some data
             /\ bl_events data = (bl_events (default new_baseline before) ++ added)%list
             /\ bl_lats data = (bl_lats (default new_baseline before)
                                ++ truthy_values ev_latitude added)%list
             /\ bl_lons data = (bl_lons (default new_baseline before)
                                ++ truthy_values ev_longitude added)%list
             /\ bl_avg_count data
                = Some (Z.of_nat (length (bl_events (default new_baseline before))
                                  + length added))
             /\ bl_lat_range data
                = range_of (bl_lats data) (bl_lat_range (default new_baseline before))
             /\ bl_lon_range data
                = range_of (bl_lons data) (bl_lon_range (default new_baseline before))).
Proof.
  intros H events.
  pose proof (train_all_baselines corpora corpus self self' H) as Hb.
  fold events in Hb. split; [exact Hb|].
  intros st Hne before added. rewrite Hb. unfold build_baselines.
  rewrite lookup_fmap, (fold_add_event_lookup events _ st Hne).
  fold before. fold added. split.
  - intros ->. reflexivity.
  - intros Hadd. destruct added as [|a added']; [congruence|]. cbn [is_empty].
    eexists. split; [reflexivity|].
    unfold calc_statistics, extend_baseline.
    cbn [bl_events bl_lats bl_lons bl_avg_count bl_lat_range bl_lon_range].
    repeat split. rewrite length_app. reflexivity.
Qed.

End TrainClaims.

(** ** The verdict of a [detect] call *)

Section VerdictProperties.

Context (rt : Runtime).

Lemma statistical_cases now ev ctx :
  In (_statistical_detection rt now ev ctx) statistical_verdicts.
Proof.
  unfold _statistical_detection, statistical_verdicts.
  repeat match goal with
         | |- context [match ?x with _ => _ end] => destruct x
         end; simpl; auto 10.
Qed.

Lemma pattern_cases (self : Detector rt) ev ctx :
  In (_pattern_detection rt self ev ctx) pattern_verdicts.
Proof.
  unfold _pattern_detection, pattern_verdicts.
  repeat match goal with
         | |- context [match ?x with _ => _ end] => destruct x
         end; simpl; auto 10.
Qed.

(** The explanation a returning [detect] call has chosen. *)
Lemma detect_explanation now ev ctx (self : Detector rt) v :
  fst (detect rt now ev ctx self) = Ok v ->
  exists features learned,
    _extract_features rt ev ctx = Ok features
    /\ ml_detection rt self features = Ok learned
    /\ let stat := _statistical_detection rt now ev ctx in
       let pat := _pattern_detection rt self ev ctx in
       v_explanation v
       = (if anomaly_of stat then _explain_anomaly rt (type_of stat) ev
          else if anomaly_of pat then _explain_anomaly rt (type_of pat) ev
          else if fst learned then "Event deviates from learned normal patterns"
          else "").
Proof.
  run_method.
  destruct (_extract_features rt ev ctx) as [features|] eqn:Ef; [|discriminate].
  destruct (ml_detection rt self features) as [learned|] eqn:El; [|discriminate].
  match goal with
  | |- context [match ?r with Ok _ => _ | Raise _ => _ end] =>
      destruct r as [fb|] eqn:Efb
  end; [|discriminate].
  simpl. intros [= <-]. exists features, learned. simpl.
  split; [reflexivity|]. split; [exact El|]. reflexivity.
Qed.

(** Case analysis on the triples of the two rule-based methods. *)
Ltac method_cases now ev ctx self :=
  let Hs := fresh "Hs" in
  let Hp := fresh "Hp" in
  pose proof (statistical_cases now ev ctx) as Hs;
  pose proof (pattern_cases self ev ctx) as Hp;
  unfold statistical_verdicts, pattern_verdicts in Hs, Hp;
  cbn [In] in Hs, Hp;
  repeat (destruct Hs as [Hs|Hs]); try contradiction;
  repeat (destruct Hp as [Hp|Hp]); try contradiction;
  rewrite <- Hs, <- Hp in *;
  unfold anomaly_of, type_of, score_of in *; cbn [fst snd orb] in *.

(** X2.  The verdict of every returning [detect] call carries one of the
    ten anomaly types, and it is an anomaly exactly when its type is not
    [none]. *)
Theorem verdict_type_closed now ev ctx (self : Detector rt) v :
  fst (detect rt now ev ctx self) = Ok v ->
  In (v_type v) anomaly_types
  /\ (v_is_anomaly v = true <-> v_type v <> "none").
Proof.
  intros H.
  destruct (detect_returns rt _ _ _ _ _ H)
    as (features & learned & _ & _ & _ & Han & Hty & _).
  rewrite Han, Hty. clear Han Hty H.
  unfold anomaly_types.
  method_cases now ev ctx self; destruct (fst learned); cbn [orb];
    (split; [simpl; auto 12 | split; [discriminate | congruence]]).
Qed.

Lemma round_half_even_bounds (x : Q) (lo hi : Z) :
  (inject_Z lo <= x)%Q -> (x <= inject_Z hi)%Q ->
  (lo <= round_half_even x <= hi)%Z.
Proof.
  intros Hlo Hhi.
  pose proof (round_half_even_close x) as Hc.
  apply Qabs_Qle_condition in Hc. destruct Hc as [Hc1 Hc2].
  set (r := round_half_even x) in *.
  assert (H1 : (inject_Z lo < inject_Z (r + 1))%Q).
  { rewrite inject_Z_plus. change (inject_Z 1) with 1%Q. lra. }
  assert (H2 : (inject_Z r < inject_Z (hi + 1))%Q).
  { rewrite inject_Z_plus. change (inject_Z 1) with 1%Q. lra. }
  rewrite <- Zlt_Qlt in H1, H2. lia.
Qed.

(** [round(x, 3)] keeps a number of [0, 1] in [0, 1]. *)
Lemma py_round3_unit (x : Q) :
  ((0 <= x)%Q -> (0 <= py_round3 x)%Q)
  /\ ((x <= 1)%Q -> (py_round3 x <= 1)%Q).
Proof.
  unfold py_round3. split; intros Hx.
  - assert (H : (0 <= round_half_even (x * 1000))%Z).
    { pose proof (Qfloor_le (x * 1000)) as Hf.
      pose proof (Qlt_floor (x * 1000)) as Hc.
      assert (Hhi : (x * 1000 <= inject_Z (Qfloor (x * 1000) + 1))%Q)
        by (apply Qlt_le_weak; exact Hc).
      refine (proj1 (round_half_even_bounds (x * 1000) 0 _ _ Hhi)).
      change (inject_Z 0) with 0%Q. lra. }
    unfold Qle. simpl. lia.
  - assert (H : (round_half_even (x * 1000) <= 1000)%Z).
    { pose proof (Qfloor_le (x * 1000)) as Hf.
      refine (proj2 (round_half_even_bounds (x * 1000) _ 1000 Hf _)).
      change (inject_Z 1000) with 1000%Q. lra. }
    unfold Qle. simpl. lia.
Qed.

(** X4.  The combined score of every returning [detect] call is never
    negative, it is at most 1 as soon as the learned method's score is,
    and the verdict's confidence repeats it. *)
Theorem verdict_score_range now ev ctx (self : Detector rt) v :
  fst (detect rt now ev ctx self) = Ok v ->
  (0 <= v_score v)%Q
  /\ ((ml (v_scores v) <= 1)%Q -> (v_score v <= 1)%Q)
  /\ v_confidence v = v_score v.
Proof.
  intros H.
  destruct (detect_returns rt _ _ _ _ _ H)
    as (features & learned & _ & _ & _ & _ & _ & Hsc & Hs & Hc).
  rewrite Hsc. cbn [ml]. rewrite Hs.
  set (s := score_of (_statistical_detection rt now ev ctx)).
  set (p := score_of (_pattern_detection rt self ev ctx)).
  destruct (py_max3_spec s (snd learned) p) as (Hone & H1 & _ & _).
  pose proof (statistical_score_range rt now ev ctx) as [Hs0 Hs1].
  pose proof (pattern_score_range rt self ev ctx) as [Hp0 Hp1].
  fold s in Hs0, Hs1. fold p in Hp0, Hp1.
  split; [|split].
  - apply py_round3_unit. apply (Qle_trans _ s); assumption.
  - intros Hml. apply py_round3_unit.
    destruct Hone as [->|[->| ->]]; assumption.
  - rewrite Hc, Hs. reflexivity.
Qed.

Lemma explain_anomaly_nonempty ty ev : _explain_anomaly rt ty ev <> "".
Proof.
  unfold _explain_anomaly. cbn [dict_get].
  repeat match goal with
         | |- context [if String.eqb ?a ?b then _ else _] => destruct (String.eqb a b)
         end; cbn [from_option id String.append]; discriminate.
Qed.

(** X5.  The verdict of every returning [detect] call has an empty
    explanation exactly when it is not an anomaly. *)
Theorem explanation_iff_anomaly now ev ctx (self : Detector rt) v :
  fst (detect rt now ev ctx self) = Ok v ->
  (v_explanation v = "" <-> v_is_anomaly v = false).
Proof.
  intros H.
  destruct (detect_returns rt _ _ _ _ _ H)
    as (features & learned & Hf & Hl & _ & Han & _).
  destruct (detect_explanation now ev ctx self v H)
    as (features' & learned' & Hf' & Hl' & Hex).
  rewrite Hf in Hf'. injection Hf' as <-.
  rewrite Hl in Hl'. injection Hl' as <-.
  rewrite Han. cbv zeta in Hex. rewrite Hex. clear Han Hex.
  destruct (anomaly_of (_statistical_detection rt now ev ctx)).
  { cbn [orb]. split; [intros E; apply explain_anomaly_nonempty in E; contradiction
                      | discriminate]. }
  destruct (anomaly_of (_pattern_detection rt self ev ctx)).
  { rewrite orb_true_r. split; [intros E; apply explain_anomaly_nonempty in E; contradiction
                               | discriminate]. }
  destruct (fst learned); cbn [orb]; split; (discriminate || reflexivity).
Qed.

(** X6.  The fallback of every returning [detect] call is fixed by the
    verdict's type: [stuck_api] carries [skip_update] with confidence 0.8,
    [stale_event] carries [filtered_out] with confidence 0.9, [none]
    carries no fallback, and every type but these and [zero_coordinates]
    carries the default branch's suggestion. *)
Theorem fallback_by_type now ev ctx (self : Detector rt) v :
  fst (detect rt now ev ctx self) = Ok v ->
  (v_type v = "stuck_api" ->
   v_fallback v = Some {| fb_source := "skip_update";
                          fb_latitude := None;
                          fb_longitude := None;
                          fb_action := Some "retain_previous_data";
                          fb_confidence := (8 # 10)%Q |})
  /\ (v_type v = "stale_event" ->
      v_fallback v = Some {| fb_source := "filtered_out";
                             fb_latitude := None;
                             fb_longitude := None;
                             fb_action := Some "remove_from_active_events";
                             fb_confidence := (9 # 10)%Q |})
  /\ (v_type v = "none" -> v_fallback v = None)
  /\ (In (v_type v) ["invalid_coordinates"; "future_timestamp"; "event_spike";
                     "out_of_state_bounds"; "duplicate_id_mismatch"; "ml_detected"] ->
      v_fallback v = Some (fallback_default rt ev ctx)).
Proof.
  intros H.
  destruct (detect_returns rt _ _ _ _ _ H)
    as (features & learned & _ & _ & Hfb & _ & Hty & _).
  cbv zeta in Hfb. rewrite Hty. clear Hty H.
  method_cases now ev ctx self; destruct (fst learned); cbn [orb] in Hfb;
    unfold _generate_fallback in Hfb;
    cbn [String.eqb Ascii.eqb Bool.eqb rmap rbind] in Hfb;
    (split; [intros E; first [discriminate E | injection Hfb as <-; reflexivity]|]);
    (split; [intros E; first [discriminate E | injection Hfb as <-; reflexivity]|]);
    (split; [intros E; first [discriminate E | injection Hfb as <-; reflexivity]|]);
    intros E; cbn [In] in E;
    first [injection Hfb as <-; reflexivity
          | exfalso; repeat (destruct E as [E|E]; [discriminate E|]); exact E].
Qed.

End VerdictProperties.

(** ** The rules of the statistical and the pattern method *)

Section RuleProperties.

Context (rt : Runtime).

Lemma opt_num_eqb_refl x : opt_num_eqb x x = true.
Proof. destruct x as [q|]; [apply Qeq_bool_refl | reflexivity]. Qed.

Lemma opt_num_eqb_sym x y : opt_num_eqb x y = true -> opt_num_eqb y x = true.
Proof.
  destruct x as [a|], y as [b|]; simpl; try discriminate; [|reflexivity].
  intros H. apply Qeq_bool_iff. symmetry. apply Qeq_bool_iff. exact H.
Qed.

Lemma opt_num_eqb_trans x y z :
  opt_num_eqb x y = true -> opt_num_eqb y z = true -> opt_num_eqb x z = true.
Proof.
  destruct x as [a|], y as [b|], z as [c|]; simpl; try discriminate; [|reflexivity].
  intros H1 H2. apply Qeq_bool_iff.
  apply Qeq_bool_iff in H1. apply Qeq_bool_iff in H2. rewrite H1. exact H2.
Qed.

Lemma coord_eqb_refl c : coord_eqb c c = true.
Proof. unfold coord_eqb. rewrite !opt_num_eqb_refl. reflexivity. Qed.

Lemma coord_eqb_sym a b : coord_eqb a b = true -> coord_eqb b a = true.
Proof.
  unfold coord_eqb. rewrite !andb_true_iff. intros [H1 H2].
  split; apply opt_num_eqb_sym; assumption.
Qed.

Lemma coord_eqb_trans a b c :
  coord_eqb a b = true -> coord_eqb b c = true -> coord_eqb a c = true.
Proof.
  unfold coord_eqb. rewrite !andb_true_iff. intros [H1 H2] [H3 H4].
  split; eapply opt_num_eqb_trans; eassumption.
Qed.

Lemma set_len_zero coords : set_len coords = 0%nat -> coords = [].
Proof.
  induction coords as [|c rest IH]; [reflexivity|]. cbn [set_len].
  destruct (existsb (coord_eqb c) rest) eqn:E; [|discriminate].
  intros H. rewrite (IH H) in E. discriminate.
Qed.

(** A non-empty list of coordinate pairs makes a one-element set exactly
    when its pairs are all equal. *)
Lemma set_len_one coords :
  coords <> [] ->
  (set_len coords = 1%nat <->
   forall a b, In a coords -> In b coords -> coord_eqb a b = true).
Proof.
  induction coords as [|c rest IH]; [congruence|]. intros _. cbn [set_len].
  destruct (existsb (coord_eqb c) rest) eqn:E.
  - apply existsb_exists in E. destruct E as (d & Hd & Hcd).
    assert (Hrest : rest <> []) by (destruct rest; [contradiction | discriminate]).
    rewrite (IH Hrest). split.
    + intros Hall a b [<-|Ha] [<-|Hb].
      * apply coord_eqb_refl.
      * apply (coord_eqb_trans _ d); auto.
      * apply coord_eqb_sym. apply (coord_eqb_trans _ d); auto.
      * auto.
    + intros Hall a b Ha Hb. apply Hall; right; assumption.
  - split.
    + intros [= H]. apply set_len_zero in H. subst rest.
      intros a b [<-|[]] [<-|[]]. apply coord_eqb_refl.
    + intros Hall. destruct rest as [|d rest]; [reflexivity|]. exfalso.
      assert (Hcd : coord_eqb c d = true) by (apply Hall; simpl; auto).
      cbn [existsb] in E. rewrite Hcd in E. discriminate.
Qed.

Lemma last5_app {A} (pre five : list A) :
  length five = 5%nat -> last5 (pre ++ five)%list = five.
Proof.
  intros H. unfold last5. rewrite length_app, H.
  replace (length pre + 5 - 5)%nat with (length pre) by lia.
  rewrite skipn_app, skipn_all, Nat.sub_diag. reflexivity.
Qed.

(** X7.  For an event that is not at (0, 0) and lies inside the bounds, on
    a window of at least five events, the statistical method answers
    [stuck_api] (with score 0.9) exactly when the five most recent events
    of the window share one pair of coordinates; the event's own
    coordinates, its timestamp and the clock play no part. *)
Theorem stuck_api_rule now ev pre five :
  ~ (get_latitude ev == 0 /\ get_longitude ev == 0) ->
  (24 <= get_latitude ev)%Q -> (get_latitude ev <= 50)%Q ->
  (-125 <= get_longitude ev)%Q -> (get_longitude ev <= -65)%Q ->
  length five = 5%nat ->
  let stat := _statistical_detection rt now ev (pre ++ five)%list in
  (type_of stat = "stuck_api" <->
   forall a b, In a five -> In b five -> same_coordinates a b)
  /\ (type_of stat = "stuck_api" -> stat = (true, (9 # 10)%Q, "stuck_api")).
Proof.
  intros Hnz H1 H2 H3 H4 Hlen stat. subst stat. unfold _statistical_detection.
  destruct (Qeq_bool (get_latitude ev) 0 && Qeq_bool (get_longitude ev) 0) eqn:Ez.
  { apply andb_true_iff in Ez. destruct Ez as [E1 E2].
    apply Qeq_bool_iff in E1. apply Qeq_bool_iff in E2. tauto. }
  apply Qle_bool_iff in H1, H2, H3, H4. rewrite H1, H2, H3, H4. cbn [andb negb].
  rewrite (last5_app pre five Hlen).
  assert (Hge : (5 <=? length (pre ++ five)%list)%nat = true).
  { apply Nat.leb_le. rewrite length_app. lia. }
  rewrite Hge. cbn [andb].
  set (coords := map (fun e => (ev_latitude e, ev_longitude e)) five).
  assert (Hne : coords <> []).
  { subst coords. destruct five; [discriminate | discriminate]. }
  pose proof (set_len_one coords Hne) as Hone.
  assert (Hsame : (forall a b, In a coords -> In b coords -> coord_eqb a b = true)
                  <-> (forall a b, In a five -> In b five -> same_coordinates a b)).
  { subst coords. unfold same_coordinates. split.
    - intros Hall a b Ha Hb.
      apply Hall; apply (in_map (fun e => (ev_latitude e, ev_longitude e))); assumption.
    - intros Hall a b Ha Hb. apply in_map_iff in Ha, Hb.
      destruct Ha as (ea & <- & Ha). destruct Hb as (eb & <- & Hb). auto. }
  destruct (set_len coords =? 1)%nat eqn:El.
  - apply Nat.eqb_eq in El. cbn [type_of snd]. split; [|reflexivity].
    split; [intros _; apply Hsame, Hone, El | reflexivity].
  - apply Nat.eqb_neq in El.
    assert (Hty : forall t : bool * Q * string,
               In t [(true, (95 # 100)%Q, "future_timestamp");
                     (true, (8 # 10)%Q, "stale_event"); (false, 0%Q, "none")] ->
               type_of t <> "stuck_api").
    { intros t [<-|[<-|[<-|[]]]]; discriminate. }
    match goal with
    | |- (type_of ?t = _ <-> _) /\ _ =>
        assert (Ht : type_of t <> "stuck_api")
    end.
    { apply Hty. destruct (parse_timestamp rt ev) as [ts|]; [|simpl; auto].
      destruct (Qlt_bool _ _); [simpl; auto|].
      destruct (Qlt_bool _ _); simpl; auto. }
    split; [|intros E; contradiction].
    split; [intros E; contradiction|].
    intros Hall. exfalso. apply El. apply Hone, Hsame, Hall.
Qed.

Lemma event_eqb_refl e : event_eqb e e = true.
Proof.
  unfold event_eqb.
  assert (Hs : forall x, opt_str_eqb x x = true).
  { intros [x|]; [apply String.eqb_refl | reflexivity]. }
  rewrite !Hs, !opt_num_eqb_refl. cbn [andb].
  apply bool_decide_eq_true. reflexivity.
Qed.

Lemma filter_first {A} (p : A -> bool) (pre : list A) d post :
  (forall x, In x pre -> p x = false) -> p d = true ->
  List.filter p (pre ++ d :: post)%list = d :: List.filter p post.
Proof.
  intros Hpre Hd. rewrite List.filter_app, (filter_all_false p pre Hpre).
  cbn [List.filter app]. rewrite Hd. reflexivity.
Qed.

(** X8.  For an event whose state has no baseline, the pattern method
    signals exactly a duplicate-id mismatch: it answers [none] when the
    event's id is missing or empty or no window event carries it, and
    otherwise compares the event with the oldest window event of the same
    id alone, answering [duplicate_id_mismatch] (with score 0.85) when the
    two dictionaries differ and [none] when they are equal, whatever
    younger events of that id hold.  An event is equal to itself. *)
Theorem pattern_without_baseline (self : Detector rt) ev recent :
  (forall st, ev_state ev = Some st -> state_baselines self !! st = None) ->
  ((truthy_str (ev_id ev) = false \/ (forall e, In e recent -> ev_id e <> ev_id ev)) ->
   _pattern_detection rt self ev recent = (false, 0%Q, "none"))
  /\ (forall pre d post,
        recent = (pre ++ d :: post)%list ->
        truthy_str (ev_id ev) = true ->
        ev_id d = ev_id ev ->
        (forall e, In e pre -> ev_id e <> ev_id ev) ->
        _pattern_detection rt self ev recent
        = if event_eqb d ev then (false, 0%Q, "none")
          else (true, (85 # 100)%Q, "duplicate_id_mismatch"))
  /\ event_eqb ev ev = true.
Proof.
  intros Hnone.
  assert (Hb : (ev_state ev ≫= (fun st => state_baselines self !! st)) = None).
  { destruct (ev_state ev) as [st|]; [|reflexivity]. simpl. apply Hnone. reflexivity. }
  split; [|split; [|apply event_eqb_refl]].
  - intros Hid. unfold _pattern_detection. rewrite Hb.
    destruct Hid as [Hid|Hid]; [rewrite Hid; reflexivity|].
    destruct (truthy_str (ev_id ev)); [|reflexivity].
    rewrite (filter_all_false (fun e => opt_str_eqb (ev_id e) (ev_id ev)) recent);
      [reflexivity|].
    intros e He. destruct (opt_str_eqb (ev_id e) (ev_id ev)) eqn:E; [|reflexivity].
    apply opt_str_eqb_spec in E. exfalso. exact (Hid e He E).
  - intros pre d post -> Hid Hd Hpre. unfold _pattern_detection. rewrite Hb, Hid.
    rewrite (filter_first (fun e => opt_str_eqb (ev_id e) (ev_id ev)) pre d post).
    + destruct (event_eqb d ev); reflexivity.
    + intros e He. destruct (opt_str_eqb (ev_id e) (ev_id ev)) eqn:E; [|reflexivity].
      apply opt_str_eqb_spec in E. exfalso. exact (Hpre e He E).
    + apply opt_str_eqb_spec. exact Hd.
Qed.

(** X9.  A fallback with source [cached_coordinates] is only ever given for
    type [zero_coordinates]; its coordinates are those of a context event
    of the anomalous event's state, both non-zero, and its confidence is
    0.6. *)
Theorem cached_coordinates_origin ev ctx ty f :
  _generate_fallback rt ev ctx ty = Ok f ->
  fb_source f = "cached_coordinates" ->
  ty = "zero_coordinates"
  /\ fb_confidence f = (6 # 10)%Q
  /\ exists e la lo,
       In e ctx /\ ev_state e = ev_state ev
       /\ ev_latitude e = Some la /\ ev_longitude e = Some lo
       /\ ~ la == 0 /\ ~ lo == 0
       /\ fb_latitude f = Some (Num la) /\ fb_longitude f = Some (Num lo).
Proof.
  unfold _generate_fallback.
  assert (Hdef : fb_source (fallback_default rt ev ctx) <> "cached_coordinates").
  { unfold fallback_default.
    match goal with
    | |- context [match ?x with _ => _ end] => destruct x
    end; discriminate. }
  destruct (String.eqb ty "zero_coordinates") eqn:Ety.
  - apply String.eqb_eq in Ety.
    destruct (List.filter (last_known_good (ev_state ev)) (rev ctx)) as [|e sim] eqn:Es.
    { intros [= <-] Hsrc. contradiction. }
    assert (He : In e (List.filter (last_known_good (ev_state ev)) (rev ctx)))
      by (rewrite Es; left; reflexivity).
    apply filter_In in He. destruct He as [Hin Hgood].
    apply in_rev in Hin. unfold last_known_good in Hgood.
    rewrite !andb_true_iff in Hgood. destruct Hgood as [[Hst Hla] Hlo].
    apply opt_str_eqb_spec in Hst.
    destruct (ev_latitude e) as [la|] eqn:Ela; [|discriminate].
    destruct (ev_longitude e) as [lo|] eqn:Elo; [|discriminate].
    cbn [index_key rbind]. intros [= <-] _. cbn [fb_confidence fb_latitude fb_longitude].
    split; [exact Ety|]. split; [reflexivity|].
    exists e, la, lo. repeat split; try assumption.
    + intros Hz. apply Qeq_bool_iff in Hz. simpl in Hla. rewrite Hz in Hla. discriminate.
    + intros Hz. apply Qeq_bool_iff in Hz. simpl in Hlo. rewrite Hz in Hlo. discriminate.
  - destruct (String.eqb ty "stuck_api"); [intros [= <-]; discriminate|].
    destruct (String.eqb ty "stale_event"); [intros [= <-]; discriminate|].
    intros [= <-] Hsrc. contradiction.
Qed.

End RuleProperties.

(** ** The feature vector *)

Section FeatureProperties.

Context (rt : Runtime).

Lemma fold_min_spec xs : forall x,
  let m := fold_left (fun m y => if Qlt_bool y m then y else m) xs x in
  (m = x \/ In m xs) /\ (m <= x)%Q /\ (forall y, In y xs -> (m <= y)%Q).
Proof.
  induction xs as [|a xs IH]; intros x; cbn [fold_left].
  - split; [auto|]. split; [apply Qle_refl | intros y []].
  - destruct (IH (if Qlt_bool a x then a else x)) as (Hin & Hle & Hall).
    destruct (Qlt_bool a x) eqn:E;
      [apply Qlt_bool_iff in E | apply Qlt_bool_false_iff in E].
    + split; [destruct Hin as [->|Hin]; simpl; auto|].
      split; [eapply Qle_trans; [exact Hle | apply Qlt_le_weak; exact E]|].
      intros y [<-|Hy]; auto.
    + split; [destruct Hin as [->|Hin]; simpl; auto|].
      split; [exact Hle|].
      intros y [<-|Hy]; [eapply Qle_trans; eassumption | auto].
Qed.

Lemma fold_max_spec xs : forall x,
  let m := fold_left (fun m y => if Qlt_bool m y then y else m) xs x in
  (m = x \/ In m xs) /\ (x <= m)%Q /\ (forall y, In y xs -> (y <= m)%Q).
Proof.
  induction xs as [|a xs IH]; intros x; cbn [fold_left].
  - split; [auto|]. split; [apply Qle_refl | intros y []].
  - destruct (IH (if Qlt_bool x a then a else x)) as (Hin & Hle & Hall).
    destruct (Qlt_bool x a) eqn:E;
      [apply Qlt_bool_iff in E | apply Qlt_bool_false_iff in E].
    + split; [destruct Hin as [->|Hin]; simpl; auto|].
      split; [eapply Qle_trans; [apply Qlt_le_weak; exact E | exact Hle]|].
      intros y [<-|Hy]; auto.
    + split; [destruct Hin as [->|Hin]; simpl; auto|].
      split; [exact Hle|].
      intros y [<-|Hy]; [eapply Qle_trans; eassumption | auto].
Qed.

(** [min(xs)] is an element of [xs] that none of them undercuts. *)
Lemma py_min_spec xs m :
  py_min xs = Ok m -> In m xs /\ (forall y, In y xs -> (m <= y)%Q).
Proof.
  destruct xs as [|x xs]; [discriminate|]. cbn [py_min]. intros [= <-].
  destruct (fold_min_spec xs x) as (Hin & Hle & Hall).
  split; [destruct Hin as [->|Hin]; simpl; auto|].
  intros y [<-|Hy]; auto.
Qed.

(** [max(xs)] is an element of [xs] that none of them exceeds. *)
Lemma py_max_spec xs m :
  py_max xs = Ok m -> In m xs /\ (forall y, In y xs -> (y <= m)%Q).
Proof.
  destruct xs as [|x xs]; [discriminate|]. cbn [py_max]. intros [= <-].
  destruct (fold_max_spec xs x) as (Hin & Hle & Hall).
  split; [destruct Hin as [->|Hin]; simpl; auto|].
  intros y [<-|Hy]; auto.
Qed.

(** The eleven entries of a feature vector. *)
Lemma extract_features_layout ev ctx features :
  _extract_features rt ev ctx = Ok features ->
  exists hour weekday minute min_dist,
    features
    = ([get_latitude ev; get_longitude ev; hour; weekday; minute]
       ++ map (fun et => if String.eqb et (str_lower (default "" (ev_event_type ev)))
                         then 1%Q else 0%Q) event_types
       ++ [min_dist;
           inject_Z (Z.of_nat (length (List.filter
                                         (fun e => Qlt_bool (_distance rt ev e) 10) ctx)))])%list
    /\ (parse_timestamp rt ev = None -> hour = 0%Q /\ weekday = 0%Q /\ minute = 0%Q)
    /\ (ctx = [] -> min_dist = 999%Q)
    /\ (ctx <> [] ->
        py_min (map (_distance rt ev)
                  (List.filter (fun e => truthy_num (ev_latitude e)) ctx)) = Ok min_dist).
Proof.
  unfold _extract_features. intros H.
  destruct (parse_timestamp rt ev) as [ts|].
  - destruct ctx as [|c ctx].
    + cbn [rbind] in H. injection H as <-.
      exists (inject_Z (dt_hour ts)), (inject_Z (dt_weekday ts)), (inject_Z (dt_minute ts)),
        999%Q.
      split; [reflexivity|]. split; [discriminate|]. split; [reflexivity | congruence].
    + destruct (py_min _) as [d|] eqn:Ed; [|discriminate].
      cbn [rbind] in H. injection H as <-.
      exists (inject_Z (dt_hour ts)), (inject_Z (dt_weekday ts)), (inject_Z (dt_minute ts)), d.
      split; [reflexivity|]. split; [discriminate|]. split; [discriminate | auto].
  - destruct ctx as [|c ctx].
    + cbn [rbind] in H. injection H as <-.
      exists 0%Q, 0%Q, 0%Q, 999%Q.
      split; [reflexivity|]. split; [auto|]. split; [reflexivity | congruence].
    + destruct (py_min _) as [d|] eqn:Ed; [|discriminate].
      cbn [rbind] in H. injection H as <-.
      exists 0%Q, 0%Q, 0%Q, d.
      split; [reflexivity|]. split; [auto|]. split; [discriminate | auto].
Qed.

(** X10.  On a non-empty context window, the tenth feature is the distance
    from the event to one of the context events of non-zero latitude, and
    no context event of non-zero latitude is closer; the last feature
    counts the context events less than 10 km away, whatever their
    latitude. *)
Theorem nearest_distance_feature ev ctx features :
  _extract_features rt ev ctx = Ok features ->
  ctx <> [] ->
  exists min_dist,
    features !! 9%nat = Some min_dist
    /\ (exists e q, In e ctx /\ ev_latitude e = Some q /\ ~ q == 0
                    /\ min_dist = _distance rt ev e)
    /\ (forall e q, In e ctx -> ev_latitude e = Some q -> ~ q == 0 ->
                    (min_dist <= _distance rt ev e)%Q)
    /\ features !! 10%nat
       = Some (inject_Z (Z.of_nat (length (List.filter
                                             (fun e => Qlt_bool (_distance rt ev e) 10) ctx)))).
Proof.
  intros H Hne.
  destruct (extract_features_layout ev ctx features H)
    as (hour & weekday & minute & d & -> & _ & _ & Hmin).
  specialize (Hmin Hne). apply py_min_spec in Hmin. destruct Hmin as [Hin Hall].
  exists d. split; [reflexivity|]. split; [|split; [|reflexivity]].
  - apply in_map_iff in Hin. destruct Hin as (e & <- & He).
    apply filter_In in He. destruct He as [He Ht].
    apply truthy_num_true in Ht. destruct Ht as (q & Hq & Hnz).
    exists e, q. auto.
  - intros e q He Hq Hnz. apply Hall. apply in_map. apply filter_In.
    split; [exact He|]. apply truthy_num_true. eauto.
Qed.

(** X11.  Features six to nine encode the event type, lower-cased, against
    [construction], [incident], [weather] and [special_event]: each is 0
    or 1, each is 1 exactly when the lower-cased type is its word, and at
    most one of them is 1 (none for a missing or unknown type). *)
Theorem event_type_one_hot ev ctx features :
  _extract_features rt ev ctx = Ok features ->
  let ty := str_lower (default "" (ev_event_type ev)) in
  exists c i w s,
    features !! 5%nat = Some c /\ features !! 6%nat = Some i
    /\ features !! 7%nat = Some w /\ features !! 8%nat = Some s
    /\ (c = 1%Q <-> ty = "construction") /\ (i = 1%Q <-> ty = "incident")
    /\ (w = 1%Q <-> ty = "weather") /\ (s = 1%Q <-> ty = "special_event")
    /\ Forall (fun x => x = 0%Q \/ x = 1%Q) [c; i; w; s]
    /\ (c + i + w + s <= 1)%Q.
Proof.
  intros H ty.
  destruct (extract_features_layout ev ctx features H)
    as (hour & weekday & minute & d & -> & _).
  fold ty. unfold event_types. cbn [map app].
  do 4 eexists. do 4 (split; [reflexivity|]).
  destruct (String.eqb_spec "construction" ty) as [E1|E1];
    destruct (String.eqb_spec "incident" ty) as [E2|E2];
    destruct (String.eqb_spec "weather" ty) as [E3|E3];
    destruct (String.eqb_spec "special_event" ty) as [E4|E4];
    try (rewrite <- E1 in *); try (rewrite <- E2 in *); try (rewrite <- E3 in *);
    try discriminate;
    (repeat split; try discriminate; try congruence;
     try (repeat constructor; auto; fail); try lra).
Qed.

End FeatureProperties.

(** ** Failures and successes of [train] *)

Section TrainingProperties.

Context (rt : Runtime).

(** What a [train] call that returns metrics has done, step by step. *)
Lemma train_returns events (self self' : Detector rt) n k ty :
  train rt events self = (Ok (TrainMetrics n k ty), self') ->
  exists features fitted scaled m forest,
    traverse (fun e => _extract_features rt e events) events = Ok features
    /\ scaler_fit rt (scaler self) features = (Ok tt, fitted)
    /\ scaler_transform rt fitted features = Ok scaled
    /\ model self = Some m
    /\ model_fit rt m scaled = (Ok tt, forest)
    /\ self' = set_state_baselines rt (build_baselines (state_baselines self) events)
                 (set_model rt forest (set_scaler rt fitted self))
    /\ n = length events /\ k = size (state_baselines self')
    /\ ty = "IsolationForest".
Proof.
  unfold train.
  destruct (negb (SKLEARN_AVAILABLE rt) || is_empty events) eqn:Eg.
  { unfold ret. discriminate. }
  apply orb_false_iff in Eg. destruct Eg as [Esk Eev].
  apply negb_false_iff in Esk.
  unfold _save_model, fit_scaler, fit_model, bind, get, put, lift, ret. rewrite Esk.
  destruct (traverse _ events) as [features|] eqn:Ef; [|discriminate].
  destruct (scaler_fit rt (scaler self) features) as [[[]|] fitted] eqn:Es; [|discriminate].
  cbn [fst snd set_scaler model scaler].
  destruct (scaler_transform rt fitted features) as [scaled|] eqn:Et; [|discriminate].
  destruct (model self) as [m|] eqn:Em; [|discriminate].
  destruct (model_fit rt m scaled) as [[[]|] forest] eqn:Emf; [|discriminate].
  cbn [fst snd set_model set_state_baselines state_baselines model_path model scaler].
  destruct (joblib_dump rt _ _ _ _); [|discriminate].
  intros [= <- <- <- <-].
  exists features, fitted, scaled, m, forest.
  unfold set_state_baselines, set_model, set_scaler.
  cbn [state_baselines model_path model scaler event_history].
  repeat split; assumption.
Qed.

(** X12.  With scikit-learn present, [train] on a non-empty corpus none of
    whose events has a non-zero latitude raises [ValueError] (from the
    feature extraction of its first event) and leaves the detector as it
    was. *)
Theorem train_unlocated_corpus c rest (self : Detector rt) :
  SKLEARN_AVAILABLE rt = true ->
  (forall e, In e (c :: rest) -> ev_latitude e = None \/ zero_coordinate (ev_latitude e)) ->
  train rt (c :: rest) self = (Raise ValueError, self).
Proof.
  intros Hsk Hall. unfold train. rewrite Hsk. cbn [negb is_empty orb].
  unfold bind, lift. cbn [traverse].
  rewrite (extract_features_min_empty rt c c rest); [reflexivity|].
  intros e He. apply truthy_num_false. apply Hall. exact He.
Qed.

(** X13.  [train] is not atomic, and a [fit] that raises is not undone.
    Once the features are extracted: if the scaler's [fit] raises, [train]
    raises and the detector holds the scaler in the state in which the
    failed call left it; if the scaler's [transform] raises after it, the
    detector holds the newly fitted scaler; if the forest's [fit] raises,
    the detector holds the newly fitted scaler and the forest in the state
    in which the failed call left it.  In each case the model path, the
    event history and the baselines are the old ones. *)
Theorem train_fit_failure events features (self : Detector rt) :
  SKLEARN_AVAILABLE rt = true ->
  events <> [] ->
  traverse (fun e => _extract_features rt e events) events = Ok features ->
  (forall e left,
     scaler_fit rt (scaler self) features = (Raise e, left) ->
     train rt events self
     = (Raise e, {| model_path := model_path self;
                    model := model self;
                    scaler := left;
                    event_history := event_history self;
                    state_baselines := state_baselines self |}))
  /\ (forall fitted e,
        scaler_fit rt (scaler self) features = (Ok tt, fitted) ->
        scaler_transform rt fitted features = Raise e ->
        train rt events self
        = (Raise e, {| model_path := model_path self;
                       model := model self;
                       scaler := fitted;
                       event_history := event_history self;
                       state_baselines := state_baselines self |}))
  /\ (forall fitted scaled m e left,
        scaler_fit rt (scaler self) features = (Ok tt, fitted) ->
        scaler_transform rt fitted features = Ok scaled ->
        model self = Some m ->
        model_fit rt m scaled = (Raise e, left) ->
        train rt events self
        = (Raise e, {| model_path := model_path self;
                       model := Some left;
                       scaler := fitted;
                       event_history := event_history self;
                       state_baselines := state_baselines self |})).
Proof.
  intros Hsk Hne Hf.
  assert (Hg : negb (SKLEARN_AVAILABLE rt) || is_empty events = false).
  { rewrite Hsk. destruct events; [congruence | reflexivity]. }
  split; [|split].
  - intros e left He. unfold train. rewrite Hg.
    unfold fit_scaler, bind, get, lift.
    rewrite Hf, He. reflexivity.
  - intros fitted e Hs He. unfold train. rewrite Hg.
    unfold fit_scaler, bind, get, put, lift.
    rewrite Hf, Hs. cbn [fst snd set_scaler scaler]. rewrite He. reflexivity.
  - intros fitted scaled m e left Hs Ht Hm He.
    unfold train. rewrite Hg. unfold fit_scaler, fit_model, bind, get, put, lift.
    rewrite Hf, Hs. cbn [fst snd set_scaler scaler model]. rewrite Ht, Hm, He.
    reflexivity.
Qed.

(** X14.  When fitting succeeds and saving the model raises, [train] raises
    with the exception of the save, and the detector in memory already
    holds the fitted scaler, the fitted forest and the rebuilt
    baselines. *)
Theorem train_save_failure events features fitted scaled m forest e (self : Detector rt) :
  SKLEARN_AVAILABLE rt = true ->
  events <> [] ->
  traverse (fun e => _extract_features rt e events) events = Ok features ->
  scaler_fit rt (scaler self) features = (Ok tt, fitted) ->
  scaler_transform rt fitted features = Ok scaled ->
  model self = Some m ->
  model_fit rt m scaled = (Ok tt, forest) ->
  joblib_dump rt (model_path self) (Some forest) fitted
    (build_baselines (state_baselines self) events) = Raise e ->
  exists self',
    train rt events self = (Raise e, self')
    /\ scaler self' = fitted
    /\ model self' = Some forest
    /\ state_baselines self' = build_baselines (state_baselines self) events.
Proof.
  intros Hsk Hne Hf Hs Ht Hm Hmf Hd.
  assert (Hg : negb (SKLEARN_AVAILABLE rt) || is_empty events = false).
  { rewrite Hsk. destruct events; [congruence | reflexivity]. }
  eexists. split.
  - unfold train. rewrite Hg. unfold _save_model, fit_scaler, fit_model, bind, get, put, lift.
    rewrite Hsk, Hf, Hs. cbn [fst snd set_scaler model scaler]. rewrite Ht, Hm, Hmf.
    unfold set_state_baselines, set_model, set_scaler.
    cbn [fst snd state_baselines model_path model scaler event_history].
    rewrite Hd. reflexivity.
  - cbn [scaler model state_baselines]. auto.
Qed.

Lemma add_event_lookup_empty baselines e : add_event baselines e !! "" = baselines !! "".
Proof.
  unfold add_event. destruct (ev_state e) as [[|c st]|]; try reflexivity.
  cbn [truthy_str]. apply lookup_insert_ne. discriminate.
Qed.

Lemma fold_add_event_lookup_empty events : forall baselines,
  fold_left add_event events baselines !! "" = baselines !! "".
Proof.
  induction events as [|e events IH]; intros baselines; [reflexivity|].
  cbn [fold_left]. rewrite IH. apply add_event_lookup_empty.
Qed.

Lemma events_of_state_nonempty st events :
  events_of_state st events <> [] <-> exists e, In e events /\ ev_state e = Some st.
Proof.
  unfold events_of_state. split.
  - destruct (List.filter _ events) as [|e es] eqn:E; [congruence|]. intros _.
    assert (He : In e (List.filter (fun e => opt_str_eqb (ev_state e) (Some st)) events))
      by (rewrite E; left; reflexivity).
    apply filter_In in He. destruct He as [He Hst]. apply opt_str_eqb_spec in Hst. eauto.
  - intros (e & He & Hst).
    apply (filter_nonempty (fun e => opt_str_eqb (ev_state e) (Some st)) events e He).
    apply opt_str_eqb_spec. exact Hst.
Qed.

(** The states profiled by the two loops: those profiled before, and the
    non-empty state codes of the corpus. *)
Lemma build_baselines_states baselines events st :
  is_Some (build_baselines baselines events !! st) <->
  is_Some (baselines !! st)
  \/ (st <> "" /\ exists e, In e events /\ ev_state e = Some st).
Proof.
  unfold build_baselines. rewrite lookup_fmap, fmap_is_Some.
  destruct (String.eqb_spec st "") as [->|Hne].
  - rewrite fold_add_event_lookup_empty. split; [auto|].
    intros [H|[H _]]; [exact H | congruence].
  - rewrite (fold_add_event_lookup events _ st Hne).
    destruct (events_of_state st events) as [|x xs] eqn:E; cbn [is_empty].
    + split; [auto|]. intros [H|[_ H]]; [exact H|].
      apply events_of_state_nonempty in H. rewrite E in H. congruence.
    + split; [|intros _; eauto]. intros _. right. split; [exact Hne|].
      apply events_of_state_nonempty. rewrite E. discriminate.
Qed.

(** X15.  A [train] call that returns metrics reports the number of events
    it was given and the number of states profiled after it, under the
    model type [IsolationForest]; the profiled states are those profiled
    before the call and the non-empty state codes of the corpus, so that
    no state is ever dropped and [states_profiled] never decreases from
    one call to the next. *)
Theorem train_profiled_states events (self self' : Detector rt) n k ty :
  train rt events self = (Ok (TrainMetrics n k ty), self') ->
  n = length events
  /\ ty = "IsolationForest"
  /\ k = size (state_baselines self')
  /\ (forall st,
        is_Some (state_baselines self' !! st) <->
        is_Some (state_baselines self !! st)
        \/ (st <> "" /\ exists e, In e events /\ ev_state e = Some st))
  /\ (size (state_baselines self) <= k)%nat.
Proof.
  intros H. destruct (train_returns events self self' n k ty H)
    as (features & fitted & scaled & m & forest & _ & _ & _ & _ & _ & Hs & Hn & Hk & Hty).
  assert (Hb : state_baselines self' = build_baselines (state_baselines self) events).
  { rewrite Hs. reflexivity. }
  assert (Hst : forall st,
             is_Some (state_baselines self' !! st) <->
             is_Some (state_baselines self !! st)
             \/ (st <> "" /\ exists e, In e events /\ ev_state e = Some st)).
  { intros st. rewrite Hb. apply build_baselines_states. }
  split; [exact Hn|]. split; [exact Hty|]. split; [exact Hk|]. split; [exact Hst|].
  rewrite Hk. rewrite <- !size_dom. apply subseteq_size.
  intros st. rewrite !elem_of_dom. intros Hin. apply Hst. left. exact Hin.
Qed.

Lemma range_of_bounds xs old lo hi :
  xs <> [] -> range_of xs old = Some (lo, hi) ->
  forall x, In x xs -> (lo <= x)%Q /\ (x <= hi)%Q.
Proof.
  intros Hne. unfold range_of.
  destruct (py_min xs) as [a|] eqn:Ea; [|destruct xs; [congruence | discriminate]].
  destruct (py_max xs) as [b|] eqn:Eb; [|destruct xs; [congruence | discriminate]].
  intros [= <- <-] x Hx.
  apply py_min_spec in Ea. apply py_max_spec in Eb.
  split; [apply Ea | apply Eb]; exact Hx.
Qed.

Lemma range_of_some xs old : xs <> [] -> exists lo hi, range_of xs old = Some (lo, hi).
Proof.
  destruct xs as [|x xs]; [congruence|]. intros _. unfold range_of. cbn [py_min py_max].
  eauto.
Qed.

(** X16.  After a [train] call that returns metrics, every event of the
    corpus that carries a non-empty state code and non-zero coordinates
    lies inside the latitude and longitude ranges learned for its state,
    so that [detect] never reports it as [out_of_state_bounds]. *)
Theorem trained_events_within_bounds events (self self' : Detector rt) n k ty e st la lo :
  train rt events self = (Ok (TrainMetrics n k ty), self') ->
  In e events ->
  ev_state e = Some st -> st <> "" ->
  ev_latitude e = Some la -> ~ la == 0 ->
  ev_longitude e = Some lo -> ~ lo == 0 ->
  (exists data lat_lo lat_hi lon_lo lon_hi,
     state_baselines self' !! st = Some data
     /\ bl_lat_range data = Some (lat_lo, lat_hi)
     /\ bl_lon_range data = Some (lon_lo, lon_hi)
     /\ (lat_lo <= la)%Q /\ (la <= lat_hi)%Q
     /\ (lon_lo <= lo)%Q /\ (lo <= lon_hi)%Q)
  /\ forall recent,
       type_of (_pattern_detection rt self' e recent) <> "out_of_state_bounds".
Proof.
  intros H He Hst Hne Hla Hnla Hlo Hnlo.
  destruct (train_returns events self self' n k ty H)
    as (features & fitted & scaled & m & forest & _ & _ & _ & _ & _ & Hs & _).
  assert (Hb : state_baselines self' = build_baselines (state_baselines self) events).
  { rewrite Hs. reflexivity. }
  assert (Hadded : In e (events_of_state st events)).
  { unfold events_of_state. apply filter_In. split; [exact He|].
    apply opt_str_eqb_spec. exact Hst. }
  set (before := default new_baseline (state_baselines self !! st)).
  set (added := events_of_state st events) in *.
  set (data := calc_statistics (extend_baseline before added)).
  assert (Hdata : state_baselines self' !! st = Some data).
  { rewrite Hb. unfold build_baselines.
    rewrite lookup_fmap, (fold_add_event_lookup events _ st Hne). fold added.
    destruct added as [|x xs]; [contradiction|]. reflexivity. }
  assert (Hlat : In la (bl_lats data)).
  { subst data. cbn [calc_statistics extend_baseline bl_lats].
    apply in_or_app. right. apply truthy_values_spec. eauto. }
  assert (Hlon : In lo (bl_lons data)).
  { subst data. cbn [calc_statistics extend_baseline bl_lons].
    apply in_or_app. right. apply truthy_values_spec. eauto. }
  assert (Hlat_ne : bl_lats data <> []) by (intros E; rewrite E in Hlat; exact Hlat).
  assert (Hlon_ne : bl_lons data <> []) by (intros E; rewrite E in Hlon; exact Hlon).
  assert (Hrlat : bl_lat_range data
                  = range_of (bl_lats data) (bl_lat_range (extend_baseline before added)))
    by reflexivity.
  assert (Hrlon : bl_lon_range data
                  = range_of (bl_lons data) (bl_lon_range (extend_baseline before added)))
    by reflexivity.
  destruct (range_of_some (bl_lats data) (bl_lat_range (extend_baseline before added))
              Hlat_ne) as (lat_lo & lat_hi & Elat).
  destruct (range_of_some (bl_lons data) (bl_lon_range (extend_baseline before added))
              Hlon_ne) as (lon_lo & lon_hi & Elon).
  destruct (range_of_bounds _ _ _ _ Hlat_ne Elat la Hlat) as [Hla1 Hla2].
  destruct (range_of_bounds _ _ _ _ Hlon_ne Elon lo Hlon) as [Hlo1 Hlo2].
  rewrite Elat in Hrlat. rewrite Elon in Hrlon.
  split.
  - exists data, lat_lo, lat_hi, lon_lo, lon_hi. repeat split; assumption.
  - intros recent. unfold _pattern_detection. rewrite Hst. cbn [mbind option_bind].
    rewrite Hdata.
    destruct (_ <? _)%Z; [discriminate|].
    rewrite Hrlat, Hrlon. cbn [from_option id fst snd].
    unfold id, get_latitude, get_longitude. rewrite Hla, Hlo. cbn [from_option].
    unfold id.
    apply Qle_bool_iff in Hla1, Hla2, Hlo1, Hlo2.
    rewrite Hla1, Hla2, Hlo1, Hlo2. cbn [andb negb].
    destruct (truthy_str (ev_id e)); [|discriminate].
    destruct (List.filter _ recent) as [|d ds]; [discriminate|].
    destruct (negb (event_eqb d e)); discriminate.
Qed.

(** With scikit-learn present, [train] returns the error dictionary for
    the empty list alone. *)
Lemma train_error_iff_empty events (self : Detector rt) :
  SKLEARN_AVAILABLE rt = true ->
  ((exists msg, fst (train rt events self) = Ok (TrainError msg)) <-> events = []).
Proof.
  intros Hsk. split.
  - intros (msg & H). destruct events as [|c rest]; [reflexivity|]. exfalso.
    revert H. unfold train. rewrite Hsk. cbn [negb is_empty orb].
    unfold _save_model, fit_scaler, fit_model, bind, get, put, lift, ret. rewrite Hsk.
    destruct (traverse _ (c :: rest)) as [features|]; [|discriminate].
    destruct (scaler_fit rt (scaler self) features) as [[[]|] fitted]; [|discriminate].
    cbn [fst snd set_scaler model scaler].
    destruct (scaler_transform rt fitted features) as [scaled|]; [|discriminate].
    destruct (model self) as [m|]; [|discriminate].
    destruct (model_fit rt m scaled) as [[[]|] forest]; [|discriminate].
    cbn [fst snd].
    destruct (joblib_dump rt _ _ _ _); discriminate.
  - intros ->. unfold train. cbn [is_empty]. rewrite orb_true_r. eauto.
Qed.

(** X19.  A detector is only ever constructed with scikit-learn present
    (without it the constructor raises).  A constructed detector carries
    the given model path and an empty event history; when no model file
    exists it holds a new forest and no baseline.  Hence, on a constructed
    detector and on every later state of it, [train] returns the error
    dictionary for the empty list alone. *)
Theorem constructed_detector path (self : Detector rt) :
  __init__ rt path = Ok self ->
  SKLEARN_AVAILABLE rt = true
  /\ model_path self = path
  /\ event_history self = []
  /\ (os_path_exists rt path = false ->
      model self = Some (IsolationForest rt)
      /\ scaler self = StandardScaler rt
      /\ state_baselines self = ∅)
  /\ forall events (later : Detector rt),
       (exists msg, fst (train rt events later) = Ok (TrainError msg)) <-> events = [].
Proof.
  unfold __init__.
  destruct (SKLEARN_AVAILABLE rt) eqn:Hsk; [|discriminate].
  intros H. split; [reflexivity|].
  assert (Hshape : model_path self = path /\ event_history self = []
                   /\ (os_path_exists rt path = false ->
                       model self = Some (IsolationForest rt)
                       /\ scaler self = StandardScaler rt
                       /\ state_baselines self = ∅)).
  { destruct (os_path_exists rt path) eqn:Hex.
    - unfold _load_model, bind, get, put, lift in H. rewrite Hsk in H.
      cbn [model_path andb] in H. rewrite Hex in H.
      destruct (joblib_load rt path) as [data|]; [|discriminate].
      injection H as <-. cbn [model_path event_history].
      split; [reflexivity|]. split; [reflexivity | discriminate].
    - injection H as <-. cbn [model_path event_history model scaler state_baselines].
      auto. }
  destruct Hshape as (Hp & He & Hfresh).
  split; [exact Hp|]. split; [exact He|]. split; [exact Hfresh|].
  intros events later. apply train_error_iff_empty. exact Hsk.
Qed.

End TrainingProperties.

(** ** The two endpoints *)

Section ServingProperties.

Context (rt : Runtime).

Lemma ml_detection_total (self : Detector rt) available features :
  model_available rt self = Ok available ->
  exists learned, ml_detection rt self features = Ok learned.
Proof.
  intros H. unfold ml_detection. rewrite H. cbn [rbind]. eauto.
Qed.

Lemma dict_coordinates events e :
  In e (map dict events) -> ev_latitude e <> None /\ ev_longitude e <> None.
Proof.
  intros H. apply in_map_iff in H. destruct H as (a & <- & _).
  split; discriminate.
Qed.

Lemma json_float_spec x : json_float x = false <-> x = Some NaN.
Proof.
  destruct x as [[q|]|]; cbn [json_float]; split; congruence.
Qed.

(** X17.  The detect endpoint, on a detector whose model availability test
    returns.  It never changes the module's detector.  It answers status
    500 with the [ValueError] of feature extraction when the request
    carries context events and all of them have latitude 0.  On every
    other request [detect] returns a verdict, and the client gets a bare
    status 500 when the verdict cannot be written as JSON: when the
    learned method signals and the statistical method does not (the
    object under [is_anomaly] is then a [numpy.bool_]), and when a
    coordinate of the suggested fallback is not a number.  In every other
    case the client gets [success: true] with the verdict's [is_anomaly],
    [score], [type], [fallback] and [explanation], without its [scores]
    and [confidence].  Hence no answer of status 200 carries the type
    [ml_detected]. *)
Theorem detect_endpoint_answers now request (anomaly_detector : Detector rt) available :
  model_available rt anomaly_detector = Ok available ->
  let events := req_events request in
  let current := dict (req_current_event request) in
  let answer := detect_anomalies rt now request anomaly_detector in
  snd answer = anomaly_detector
  /\ ((events <> [] /\ forall e, In e events -> api_latitude e == 0) ->
      fst answer = Http500 ValueError)
  /\ ((events = [] \/ exists e, In e events /\ ~ api_latitude e == 0) ->
      exists v features learned,
        fst (detect rt now current (map dict events) anomaly_detector) = Ok v
        /\ _extract_features rt current (map dict events) = Ok features
        /\ ml_detection rt anomaly_detector features = Ok learned
        /\ let stat := _statistical_detection rt now current (map dict events) in
           (anomaly_of stat = false -> fst learned = true ->
            fst answer = InternalServerError)
           /\ (forall f, v_fallback v = Some f ->
                 fb_latitude f = Some NaN \/ fb_longitude f = Some NaN ->
                 fst answer = InternalServerError)
           /\ (anomaly_of stat = true \/ fst learned = false ->
               (forall f, v_fallback v = Some f ->
                  fb_latitude f <> Some NaN /\ fb_longitude f <> Some NaN) ->
               fst answer = Http200 {| resp_success := true;
                                       resp_is_anomaly := v_is_anomaly v;
                                       resp_is_anomaly_class := builtin_bool;
                                       resp_anomaly_score := v_score v;
                                       resp_anomaly_type := v_type v;
                                       resp_fallback_data := v_fallback v;
                                       resp_explanation := v_explanation v |}))
  /\ (forall body, fst answer = Http200 body -> resp_anomaly_type body <> "ml_detected").
Proof.
  intros Hav events current answer. subst answer. unfold detect_anomalies.
  fold events. fold current.
  pose proof (detect_keeps_self rt now current (map dict events) anomaly_detector) as Hkeep.
  destruct (detect rt now current (map dict events) anomaly_detector) as [r d] eqn:Ed.
  cbn [snd] in Hkeep. subst d.
  split; [destruct r; reflexivity|]. split; [|split].
  - intros [Hne Hall].
    destruct events as [|c rest] eqn:Eev; [congruence|].
    assert (Hx : fst (detect rt now current (map dict (c :: rest)) anomaly_detector)
                 = Raise ValueError).
    { cbn [map]. unfold detect, bind, get, lift. cbv beta iota.
      rewrite (extract_features_min_empty rt _ (dict c) (map dict rest)); [reflexivity|].
      intros e He. change (dict c :: map dict rest) with (map dict (c :: rest)) in He.
      apply in_map_iff in He. destruct He as (a & <- & Ha).
      cbn [dict ev_latitude truthy_num]. rewrite negb_false_iff.
      apply Qeq_bool_iff. apply Hall. exact Ha. }
    rewrite Ed in Hx. cbn [fst] in Hx. subst r. reflexivity.
  - intros Hloc.
    destruct (extract_features_ok rt current (map dict events)) as (features & Hf & _).
    { destruct Hloc as [->|(e & He & Hnz)]; [left; reflexivity|].
      right. exists (dict e). split; [apply in_map; exact He|].
      apply truthy_num_true. exists (api_latitude e). auto. }
    destruct (ml_detection_total anomaly_detector available features Hav)
      as (learned & Hl).
    set (stat := _statistical_detection rt now current (map dict events)).
    set (pat := _pattern_detection rt anomaly_detector current (map dict events)).
    set (ty := if anomaly_of stat then type_of stat
               else if anomaly_of pat then type_of pat
               else if fst learned then "ml_detected" else "none").
    destruct (generate_fallback_present rt current (map dict events) ty
                (dict_coordinates events)) as (f & Hg).
    destruct (detect_total rt now current (map dict events) anomaly_detector
                features learned
                (if anomaly_of stat || fst learned || anomaly_of pat then Some f else None)
                Hf Hl) as (v & Hv).
    { subst ty stat pat. cbv zeta. rewrite Hg.
      match goal with |- (if ?b then _ else _) = _ => destruct b end; reflexivity. }
    destruct (detect_flag_class rt now current (map dict events) anomaly_detector v Hv)
      as (features' & learned' & Hf' & Hl' & Hclass).
    rewrite Hf in Hf'. injection Hf' as <-.
    rewrite Hl in Hl'. injection Hl' as <-.
    fold stat in Hclass.
    rewrite Ed in Hv. cbn [fst] in Hv. subst r.
    exists v, features, learned.
    split; [reflexivity|]. split; [exact Hf|]. split; [exact Hl|].
    cbn [fst]. unfold encodable.
    cbn [resp_is_anomaly_class resp_fallback_data]. rewrite Hclass.
    split; [|split].
    + intros Hs Hlearned. rewrite Hs, Hlearned. reflexivity.
    + intros f0 Hfb Hnan. rewrite Hfb.
      assert (E : json_float (fb_latitude f0) && json_float (fb_longitude f0) = false).
      { apply andb_false_iff. destruct Hnan as [Hnan|Hnan]; [left | right];
          apply json_float_spec; exact Hnan. }
      rewrite E, andb_false_r. reflexivity.
    + intros Hflag Hnum.
      assert (Ec : (if anomaly_of stat then builtin_bool
                    else if fst learned then numpy_bool else builtin_bool) = builtin_bool).
      { destruct Hflag as [-> | Hflag]; [reflexivity|].
        rewrite Hflag. destruct (anomaly_of stat); reflexivity. }
      rewrite Ec. cbn [andb].
      destruct (v_fallback v) as [f0|] eqn:Efb; [|reflexivity].
      destruct (Hnum f0 eq_refl) as [Hla Hlo].
      destruct (json_float (fb_latitude f0)) eqn:Ela;
        [|apply json_float_spec in Ela; contradiction].
      destruct (json_float (fb_longitude f0)) eqn:Elo;
        [|apply json_float_spec in Elo; contradiction].
      reflexivity.
  - intros body. destruct r as [v|e]; [|discriminate].
    cbn [fst].
    destruct (encodable _) eqn:Eenc; [|discriminate].
    intros [= <-]. cbn [resp_anomaly_type].
    unfold encodable in Eenc. cbn [resp_is_anomaly_class resp_fallback_data] in Eenc.
    apply andb_true_iff in Eenc. destruct Eenc as [Eclass _].
    assert (Hv : fst (detect rt now current (map dict events) anomaly_detector) = Ok v)
      by (rewrite Ed; reflexivity).
    destruct (detect_returns rt _ _ _ _ _ Hv)
      as (features & learned & Hf & Hl & _ & _ & Hty & _).
    destruct (detect_flag_class rt _ _ _ _ _ Hv)
      as (features' & learned' & Hf' & Hl' & Hclass).
    rewrite Hf in Hf'. injection Hf' as <-.
    rewrite Hl in Hl'. injection Hl' as <-.
    rewrite Hclass in Eclass. rewrite Hty. clear Hty Hclass Hv Ed.
    pose proof (statistical_cases rt now current (map dict events)) as Hs.
    pose proof (pattern_cases rt anomaly_detector current (map dict events)) as Hp.
    unfold statistical_verdicts, pattern_verdicts in Hs, Hp. cbn [In] in Hs, Hp.
    repeat (destruct Hs as [Hs|Hs]); try contradiction;
      repeat (destruct Hp as [Hp|Hp]); try contradiction;
      rewrite <- Hs, <- Hp in *;
      unfold anomaly_of, type_of in *; cbn [fst snd] in *;
      destruct (fst learned); first [discriminate Eclass | discriminate].
Qed.

(** X18.  The train endpoint answers [success: true] whenever [train]
    returns, the error dictionary included: on an empty list (or without
    scikit-learn) the body is [success: true] with
    [metrics: {error: ...}] and the detector is unchanged.  With
    scikit-learn, on a non-empty list whose events all have latitude 0, it
    answers status 500 with [ValueError] and the detector is unchanged. *)
Theorem train_endpoint_edges events (anomaly_detector : Detector rt) :
  (negb (SKLEARN_AVAILABLE rt) || is_empty events = true ->
   train_anomaly_detector rt events anomaly_detector
   = (Http200 {| train_success := true;
                 train_metrics_body :=
                   TrainError "Training requires sklearn and training data" |},
      anomaly_detector))
  /\ (SKLEARN_AVAILABLE rt = true ->
      events <> [] ->
      (forall e, In e events -> api_latitude e == 0) ->
      train_anomaly_detector rt events anomaly_detector
      = (Http500 ValueError, anomaly_detector)).
Proof.
  split.
  - intros Hg. unfold train_anomaly_detector, train.
    assert (Hg' : negb (SKLEARN_AVAILABLE rt) || is_empty (map dict events) = true).
    { destruct events; exact Hg. }
    rewrite Hg'. reflexivity.
  - intros Hsk Hne Hall. unfold train_anomaly_detector.
    destruct events as [|c rest]; [congruence|]. cbn [map].
    rewrite (train_unlocated_corpus rt (dict c) (map dict rest) anomaly_detector Hsk);
      [reflexivity|].
    intros e He. change (dict c :: map dict rest) with (map dict (c :: rest)) in He.
    apply in_map_iff in He. destruct He as (a & <- & Ha).
    right. exists (api_latitude a). split; [reflexivity|]. apply Hall. exact Ha.
Qed.

End ServingProperties.

(** ** The methods on the sample inputs *)

Module Examples.

Import Reference Sample.

(** C1 (counterexample).  A week-old event (statistical score 0.8) whose id
    is already in the window with other data (pattern score 0.85): the
    combined score 0.85 is the pattern method's, the type is the
    statistical method's.  And with a learned score of 0.4567 as the
    maximum, the combined score is 0.457. *)
Lemma type_not_from_max_score :
  let r := fst (detect runtime (clock_at (new_year + 200 * 3600)) des_moines
                  [des_moines_earlier] (restored fitted)) in
  rmap v_type r = Ok "stale_event"
  /\ rmap (fun v => Qeq_bool (statistical (v_scores v)) (8 # 10)) r = Ok true
  /\ rmap (fun v => Qeq_bool (ml (v_scores v)) (45 # 100)) r = Ok true
  /\ rmap (fun v => Qeq_bool (pattern (v_scores v)) (85 # 100)) r = Ok true
  /\ rmap (fun v => Qeq_bool (v_score v) (85 # 100)) r = Ok true
  /\ type_of (_pattern_detection runtime (restored fitted) des_moines [des_moines_earlier])
     = "duplicate_id_mismatch"
  /\ let r' := fst (detect runtime (clock_at new_year) ames [] (restored precise)) in
     rmap (fun v => Qeq_bool (ml (v_scores v)) (4567 # 10000)) r' = Ok true
     /\ rmap (fun v => Qeq_bool (v_score v) (457 # 1000)) r' = Ok true.
Proof. vm_compute. repeat split. Qed.

(** C1 (witness): the same call. *)
Lemma detect_fusion_witness :
  exists v,
    fst (detect runtime (clock_at (new_year + 200 * 3600)) des_moines
           [des_moines_earlier] (restored fitted)) = Ok v
    /\ v_type v = "stale_event" /\ v_is_anomaly v = true.
Proof.
  evaluate_call H v.
  destruct (detect_fusion runtime _ _ _ _ _ H) as (f & l & _ & _ & _ & _ & Han & Hty).
  rewrite Han, Hty. vm_compute. split; reflexivity.
Defined.

(** C10 (witness): an event at (0, 0) with a located event of its state in
    the window. *)
Lemma fallback_iff_anomaly_witness :
  exists v,
    fst (detect runtime (clock_at new_year) null_island [ames] (restored fitted)) = Ok v
    /\ (v_fallback v <> None <-> v_is_anomaly v = true)
    /\ (forall f, v_fallback v = Some f -> In (fb_source f) fallback_sources).
Proof.
  evaluate_call H v.
  destruct (fallback_iff_anomaly runtime _ _ _ _ _ H) as (Hiff & Hshape).
  split; [exact Hiff|]. intros f Hf. apply (Hshape f Hf).
Defined.

(** C3 (witness): a window that holds one event at (0, 0). *)
Lemma detect_raises_witness :
  fst (detect runtime (clock_at new_year) ames [null_island] (restored fitted))
  = Raise ValueError.
Proof.
  refine (proj2 (detect_raises_without_located_context runtime (clock_at new_year) ames
                   null_island [] (restored fitted) _)).
  intros e [<-|[]]. right. exists 0%Q. split; reflexivity.
Defined.

(** C6 (the defect at work).  An event at (0, 0) whose context window holds
    an event at (0, 0), as when a whole feed reports the failure
    signature: [detect] raises [ValueError] instead of returning a
    [zero_coordinates] verdict, whatever the runtime, the clock and the
    detector. *)
Theorem zero_coordinates_feed_raises :
  forall (rt : Runtime) (now : Clock) (self : Detector rt),
    fst (detect rt now null_island [null_island] self) = Raise ValueError.
Proof.
  intros rt now self.
  assert (Hx : _extract_features rt null_island [null_island] = Raise ValueError).
  { apply extract_features_min_empty. intros e [<-|[]]. reflexivity. }
  unfold detect, bind, get, lift. cbv beta iota. rewrite Hx. reflexivity.
Qed.

(** C4 (witness): the detector as the service constructs it, on a located
    event and an empty context window. *)
Lemma untrained_detector_raises_witness :
  exists self,
    __init__ runtime "models/anomaly_model.pkl" = Ok self
    /\ model self = Some unfitted
    /\ detect runtime (clock_at new_year) ames [] self = (Raise AttributeError, self).
Proof.
  destruct (untrained_detector_raises runtime "models/anomaly_model.pkl" AttributeError
              eq_refl eq_refl eq_refl) as (self & Hinit & _ & _ & Hdetect).
  exists self. split; [exact Hinit|]. split.
  - unfold __init__ in Hinit. cbn in Hinit. injection Hinit as <-. reflexivity.
  - rewrite Hdetect.
    assert (Hf : _extract_features runtime ames [] = Ok ames_features)
      by (vm_compute; reflexivity).
    rewrite Hf. reflexivity.
Defined.

(** X20 (witness): a fitted forest that finds the sample normal, with raw
    score -0.45. *)
Lemma learned_contribution_witness :
  model_available runtime (restored fitted) = Ok true
  /\ exists anomaly sc,
       ml_detection runtime (restored fitted) ames_features = Ok (anomaly, sc)
       /\ anomaly = false /\ sc = Qabs (- (45 # 100)) /\ (sc <= 1)%Q.
Proof.
  split; [reflexivity|].
  destruct (proj1 (learned_contribution runtime (restored fitted) ames_features)
              true eq_refl) as (anomaly & sc & Hd & _ & _ & _ & Hok).
  exists anomaly, sc. split; [exact Hd|].
  destruct (Hok eq_refl fitted [ames_features] 1%Z [] (- (45 # 100))%Q []
              eq_refl eq_refl eq_refl eq_refl) as (Ha & Hs & Hiff).
  split; [exact Ha|]. split; [exact Hs|].
  apply Hiff. split; vm_compute; discriminate.
Defined.

(** C5 (counterexample).  At (0, 0) the latitude is outside [24, 50] and
    the longitude outside [-125, -65], and the type is
    [zero_coordinates]. *)
Lemma zero_coordinates_take_precedence :
  let r := fst (detect runtime (clock_at new_year) null_island [] (restored fitted)) in
  rmap v_type r = Ok "zero_coordinates"
  /\ Qlt_bool (get_latitude null_island) 24 = true
  /\ Qlt_bool (-65) (get_longitude null_island) = true.
Proof. vm_compute. repeat split. Qed.

(** C5 (witness): an event at latitude 10, on an empty context window. *)
Lemma invalid_coordinates_witness :
  exists v,
    fst (detect runtime (clock_at new_year) tropics [] (restored fitted)) = Ok v
    /\ v_type v = "invalid_coordinates" /\ v_score v == 1.
Proof.
  destruct (invalid_coordinates_detected runtime (clock_at new_year) tropics []
              (restored fitted)) as (v & Hv & _ & Hty & _ & Hs).
  - intros [H _]. vm_compute in H. discriminate.
  - left. vm_compute. reflexivity.
  - left. reflexivity.
  - intros features. eexists. split; [reflexivity|]. vm_compute. discriminate.
  - exists v. auto.
Defined.

(** C9 (counterexample).  The same event, context and detector, one hour
    and two hundred hours after the event's timestamp. *)
Lemma detect_depends_on_clock :
  let r1 := fst (detect runtime (clock_at (new_year + 3600)) des_moines []
                   (restored fitted)) in
  let r2 := fst (detect runtime (clock_at (new_year + 200 * 3600)) des_moines []
                   (restored fitted)) in
  rmap v_is_anomaly r1 = Ok false /\ rmap v_type r1 = Ok "none"
  /\ rmap v_is_anomaly r2 = Ok true /\ rmap v_type r2 = Ok "stale_event".
Proof. vm_compute. repeat split. Qed.

(** C9 (witness): an event without timestamp at two clock readings, and
    the detector after a call. *)
Lemma detect_pure_witness :
  parse_timestamp runtime ames = None
  /\ detect runtime (clock_at (new_year + 200 * 3600)) ames [] (restored fitted)
     = detect runtime (clock_at new_year) ames [] (restored fitted)
  /\ snd (detect runtime (clock_at new_year) des_moines [] (restored fitted))
     = restored fitted.
Proof.
  split; [reflexivity|]. split.
  - apply (detect_pure_given_clock runtime (clock_at new_year) ames [] (restored fitted)).
    reflexivity.
  - apply (detect_pure_given_clock runtime (clock_at new_year) des_moines []
             (restored fitted)).
Defined.

(** C7 (counterexample).  An event at (0, 0) and two events of its state,
    11 km east and 22 km north of it: the suggested position is
    (0.2, 0.1), the mean of the non-zero values of each coordinate, where
    the mean of the two positions is (0.1, 0.05). *)
Lemma interpolation_skips_zero_coordinates :
  let window := [equator_east; meridian_north] in
  let r := _generate_fallback runtime null_island window "zero_coordinates" in
  nearby_events runtime null_island window = window
  /\ rmap fb_source r = Ok "interpolated"
  /\ rmap (fun f => match fb_latitude f with
                    | Some (Num q) => Qeq_bool q (2 # 10)
                    | _ => false
                    end) r = Ok true
  /\ rmap (fun f => match fb_longitude f with
                    | Some (Num q) => Qeq_bool q (1 # 10)
                    | _ => false
                    end) r = Ok true
  /\ Qeq_bool (coordinate_mean get_latitude window) (1 # 10) = true
  /\ Qeq_bool (coordinate_mean get_longitude window) (1 # 20) = true.
Proof. vm_compute. repeat split. Qed.

(** C7 (witness): a located event followed by one on the equator, and a
    window of two events that each have a zero coordinate. *)
Lemma zero_coordinates_fallback_witness :
  _generate_fallback runtime null_island [ames; equator_east] "zero_coordinates"
  = Ok {| fb_source := "cached_coordinates";
          fb_latitude := Some (Num 42%Q);
          fb_longitude := Some (Num (- (935 # 10))%Q);
          fb_action := None;
          fb_confidence := (6 # 10)%Q |}
  /\ exists f,
       _generate_fallback runtime null_island [equator_east; meridian_north]
         "zero_coordinates" = Ok f
       /\ fb_source f = "interpolated"
       /\ fb_longitude f = Some (Num (Qsum [1 # 10] / inject_Z (Z.of_nat 1))%Q).
Proof.
  split.
  - apply (proj1 (zero_coordinates_fallback runtime null_island [ames; equator_east])
             [] ames [equator_east] 42%Q (- (935 # 10))%Q); try reflexivity.
    + intros H. vm_compute in H. discriminate.
    + intros H. vm_compute in H. discriminate.
    + intros x [<-|[]] _. left. exists 0%Q. split; reflexivity.
  - destruct (proj2 (zero_coordinates_fallback runtime null_island
                       [equator_east; meridian_north])) as (f & Hf & _ & Hnear).
    + intros x [<-|[<-|[]]] Hst.
      * left. exists 0%Q. split; reflexivity.
      * right. exists 0%Q. split; reflexivity.
    + exists f. split; [exact Hf|].
      destruct Hnear as (Hsrc & _ & _ & _ & Hlon).
      * vm_compute. discriminate.
      * split; [exact Hsrc|]. apply Hlon. vm_compute. reflexivity.
Defined.

(** C2 (counterexample).  Two corpora of one event each, both from Iowa:
    after the second call the baseline counts two events and spans both
    latitudes; computed from the second corpus alone it counts one event
    and spans one latitude. *)
Lemma second_training_keeps_first :
  let after_both := train_all runtime [[des_moines]; [des_moines_earlier]]
                      (restored fitted) in
  let after_last := train_all runtime [[des_moines_earlier]] (restored fitted) in
  let iowa (d : option (Detector runtime)) := d ≫= (fun s => state_baselines s !! "IA") in
  (bl_avg_count <$> iowa after_both) = Some (Some 2%Z)
  /\ (bl_lat_range <$> iowa after_both) = Some (Some (41%Q, 42%Q))
  /\ (bl_avg_count <$> iowa after_last) = Some (Some 1%Z)
  /\ (bl_lat_range <$> iowa after_last) = Some (Some (41%Q, 41%Q)).
Proof. vm_compute. repeat split. Qed.

(** C2 (witness): the same two corpora. *)
Lemma train_accumulates_witness :
  exists self',
    train_all runtime [[des_moines]; [des_moines_earlier]] (restored fitted) = Some self'
    /\ exists data,
         state_baselines self' !! "IA" = Some data
         /\ bl_events data = [des_moines; des_moines_earlier]
         /\ bl_avg_count data = Some 2%Z.
Proof.
  assert (E : from_option (fun _ => true) false
                (train_all runtime [[des_moines]; [des_moines_earlier]] (restored fitted))
              = true) by (vm_compute; reflexivity).
  destruct (train_all runtime [[des_moines]; [des_moines_earlier]] (restored fitted))
    as [self'|] eqn:H; [clear E | discriminate E].
  exists self'. split; [reflexivity|].
  destruct (train_accumulates runtime _ _ _ _ H) as (_ & Hst).
  destruct (Hst "IA") as (_ & Hadded); [discriminate|].
  destruct Hadded as (data & Hd & Hev & _ & _ & Hav & _); [discriminate|].
  exists data. split; [exact Hd|]. split; [exact Hev | exact Hav].
Defined.

(** The end-to-end scenario: an Iowa event at (42.0, -93.5) seeds the
    context; a new Iowa event at (0, 0) is detected as [zero_coordinates]
    with a fallback that suggests (42.0, -93.5) with confidence 0.6. *)
Theorem end_to_end_scenario :
  let r := fst (detect runtime (clock_at new_year) null_island [ames] (restored fitted)) in
  rmap v_is_anomaly r = Ok true
  /\ rmap v_type r = Ok "zero_coordinates"
  /\ rmap (fun v => Qeq_bool (v_score v) 1) r = Ok true
  /\ rmap v_fallback r
     = Ok (Some {| fb_source := "cached_coordinates";
                   fb_latitude := Some (Num 42%Q);
                   fb_longitude := Some (Num (- (935 # 10))%Q);
                   fb_action := None;
                   fb_confidence := (6 # 10)%Q |}).
Proof. vm_compute. repeat split. Qed.

(** X1 (witness): the end-to-end scenario. *)
Lemma zero_coordinates_detected_witness :
  exists v,
    fst (detect runtime (clock_at new_year) null_island [ames] (restored fitted)) = Ok v
    /\ v_type v = "zero_coordinates" /\ v_score v == 1.
Proof.
  destruct (zero_coordinates_detected runtime (clock_at new_year) null_island [ames]
              (restored fitted)) as (v & Hv & _ & Hty & Hs & _).
  - reflexivity.
  - reflexivity.
  - right. exists ames, 42%Q. split; [left; reflexivity|].
    split; [reflexivity|]. intros H. vm_compute in H. discriminate.
  - intros e [<-|[]]. split; discriminate.
  - intros features. eexists. split; [reflexivity|]. vm_compute. discriminate.
  - exists v. auto.
Defined.

(** X3 (witness): a window that holds one located event. *)
Lemma extract_features_witness :
  exists features,
    _extract_features runtime null_island [ames] = Ok features
    /\ length features = 11%nat.
Proof.
  apply (extract_features_fixed_length runtime null_island [ames]).
  right. exists ames, 42%Q. split; [left; reflexivity|].
  split; [reflexivity|]. intros H. vm_compute in H. discriminate.
Defined.

End Examples.

(** ** Further runs on the sample inputs *)

Module Coverage.

Import Reference Sample Failing Requests.

(** X2 (witness): the end-to-end scenario. *)
Lemma verdict_type_closed_witness :
  exists v,
    fst (detect runtime (clock_at new_year) null_island [ames] (restored fitted)) = Ok v
    /\ In (v_type v) anomaly_types
    /\ (v_is_anomaly v = true <-> v_type v <> "none").
Proof.
  evaluate_call H v.
  exact (verdict_type_closed runtime _ _ _ _ _ H).
Defined.

(** X4 (witness): the end-to-end scenario, with a learned score of 0.45. *)
Lemma verdict_score_range_witness :
  exists v,
    fst (detect runtime (clock_at new_year) null_island [ames] (restored fitted)) = Ok v
    /\ (ml (v_scores v) <= 1)%Q
    /\ (0 <= v_score v)%Q /\ (v_score v <= 1)%Q.
Proof.
  assert (H : exists v,
             fst (detect runtime (clock_at new_year) null_island [ames] (restored fitted))
             = Ok v /\ (ml (v_scores v) <= 1)%Q).
  { eexists. split; [vm_compute; reflexivity|]. vm_compute. discriminate. }
  destruct H as (v & H & Hml). exists v. split; [exact H|]. split; [exact Hml|].
  destruct (verdict_score_range runtime _ _ _ _ _ H) as (H0 & H1 & _). auto.
Defined.

(** X5 (witness): a located event on an empty window. *)
Lemma explanation_iff_anomaly_witness :
  exists v,
    fst (detect runtime (clock_at new_year) ames [] (restored fitted)) = Ok v
    /\ (v_explanation v = "" <-> v_is_anomaly v = false).
Proof.
  evaluate_call H v.
  exact (explanation_iff_anomaly runtime _ _ _ _ _ H).
Defined.

(** X6 (witness): a located event on a window that replays one event. *)
Lemma fallback_by_type_witness :
  exists v,
    fst (detect runtime (clock_at new_year) ames replayed (restored fitted)) = Ok v
    /\ v_type v = "stuck_api"
    /\ v_fallback v = Some {| fb_source := "skip_update";
                              fb_latitude := None;
                              fb_longitude := None;
                              fb_action := Some "retain_previous_data";
                              fb_confidence := (8 # 10)%Q |}.
Proof.
  assert (H : exists v,
             fst (detect runtime (clock_at new_year) ames replayed (restored fitted))
             = Ok v /\ v_type v = "stuck_api").
  { eexists. split; [vm_compute; reflexivity|]. reflexivity. }
  destruct H as (v & H & Hty). exists v. split; [exact H|]. split; [exact Hty|].
  exact (proj1 (fallback_by_type runtime _ _ _ _ _ H) Hty).
Defined.

(** X7 (witness): the same window behind an older event at (0, 0). *)
Lemma stuck_api_rule_witness :
  _statistical_detection runtime (clock_at new_year) ames ([null_island] ++ replayed)%list
  = (true, (9 # 10)%Q, "stuck_api").
Proof.
  assert (Hnz : ~ (get_latitude ames == 0 /\ get_longitude ames == 0)).
  { intros [H _]. vm_compute in H. discriminate. }
  assert (H1 : (24 <= get_latitude ames)%Q) by (vm_compute; discriminate).
  assert (H2 : (get_latitude ames <= 50)%Q) by (vm_compute; discriminate).
  assert (H3 : (-125 <= get_longitude ames)%Q) by (vm_compute; discriminate).
  assert (H4 : (get_longitude ames <= -65)%Q) by (vm_compute; discriminate).
  destruct (stuck_api_rule runtime (clock_at new_year) ames [null_island] replayed
              Hnz H1 H2 H3 H4 eq_refl) as (Hiff & Hstat).
  apply Hstat. apply Hiff. intros a b Ha Hb. unfold replayed in Ha, Hb.
  cbn [In] in Ha, Hb.
  repeat (destruct Ha as [<-|Ha]); try contradiction;
    repeat (destruct Hb as [<-|Hb]); try contradiction; reflexivity.
Defined.

(** X8 (witness): an id seen before with another latitude. *)
Lemma pattern_without_baseline_witness :
  _pattern_detection runtime (restored fitted) des_moines [des_moines_earlier; des_moines]
  = (true, (85 # 100)%Q, "duplicate_id_mismatch").
Proof.
  destruct (pattern_without_baseline runtime (restored fitted) des_moines
              [des_moines_earlier; des_moines]) as (_ & Hdup & _).
  - intros st _. apply lookup_empty.
  - rewrite (Hdup [] des_moines_earlier [des_moines]); try reflexivity.
    intros e [].
Defined.

(** X9 (witness): the end-to-end scenario. *)
Lemma cached_coordinates_origin_witness :
  exists f,
    _generate_fallback runtime null_island [ames] "zero_coordinates" = Ok f
    /\ fb_source f = "cached_coordinates"
    /\ fb_confidence f = (6 # 10)%Q
    /\ exists la lo,
         fb_latitude f = Some (Num la) /\ fb_longitude f = Some (Num lo)
         /\ ~ la == 0 /\ ~ lo == 0.
Proof.
  assert (H : exists f,
             _generate_fallback runtime null_island [ames] "zero_coordinates" = Ok f
             /\ fb_source f = "cached_coordinates").
  { eexists. split; [vm_compute; reflexivity|]. reflexivity. }
  destruct H as (f & H & Hsrc). exists f. split; [exact H|]. split; [exact Hsrc|].
  destruct (cached_coordinates_origin runtime _ _ _ _ H Hsrc)
    as (_ & Hc & e & la & lo & _ & _ & _ & _ & Hla & Hlo & Hfla & Hflo).
  split; [exact Hc|]. exists la, lo. auto.
Defined.

(** X10 (witness): the nearest located event is far away although an event
    of latitude 0 is 11 km away. *)
Lemma nearest_distance_feature_witness :
  exists features,
    _extract_features runtime null_island [ames; equator_east] = Ok features
    /\ features !! 9%nat = Some (_distance runtime null_island ames)
    /\ Qlt_bool (_distance runtime null_island equator_east)
         (_distance runtime null_island ames) = true.
Proof.
  assert (H : exists features,
             _extract_features runtime null_island [ames; equator_east] = Ok features)
    by (vm_compute; eauto).
  destruct H as (features & H). exists features. split; [exact H|].
  split; [|vm_compute; reflexivity].
  destruct (nearest_distance_feature runtime _ _ _ H)
    as (d & Hd & (e & q & He & Hq & Hnz & ->) & _); [discriminate|].
  rewrite Hd. destruct He as [<-|[<-|[]]]; [reflexivity|].
  exfalso. apply Hnz. injection Hq as <-. reflexivity.
Defined.

(** X11 (witness): a type written in capitals. *)
Lemma event_type_one_hot_witness :
  exists features,
    _extract_features runtime weather_report [] = Ok features
    /\ features !! 7%nat = Some 1%Q.
Proof.
  assert (H : exists features, _extract_features runtime weather_report [] = Ok features)
    by (vm_compute; eauto).
  destruct H as (features & H). exists features. split; [exact H|].
  destruct (event_type_one_hot runtime _ _ _ H)
    as (c & i & w & s & _ & _ & Hw & _ & _ & _ & Hw1 & _).
  rewrite Hw. f_equal. apply Hw1. reflexivity.
Defined.

(** X12 (witness): a corpus of two events of latitude 0. *)
Lemma train_unlocated_corpus_witness :
  train runtime [null_island; equator_east] (restored fitted)
  = (Raise ValueError, restored fitted).
Proof.
  apply (train_unlocated_corpus runtime null_island [equator_east] (restored fitted)).
  - reflexivity.
  - intros e [<-|[<-|[]]]; right; exists 0%Q; split; reflexivity.
Defined.

(** X13 (witness): a restored detector whose scaler refuses the corpus is
    left with a scaler that is not fitted any more; a new detector whose
    forest refuses the corpus is left with a fitted scaler beside the
    unfitted forest. *)
Lemma train_fit_failure_witness :
  train broken_scaler [ames] (reloaded _ _ _)
  = (Raise (LibraryError "ValueError"),
     Build_Detector broken_scaler "models/anomaly_model.pkl" (Some fitted) false [] ∅)
  /\ train broken_forest [ames] (fresh _ _ _)
     = (Raise (LibraryError "ValueError"),
        Build_Detector broken_forest "models/anomaly_model.pkl" (Some unfitted) true [] ∅).
Proof.
  split.
  - destruct (traverse (fun e => _extract_features broken_scaler e [ames]) [ames])
      as [features|] eqn:Hf; [|vm_compute in Hf; discriminate].
    refine (proj1 (train_fit_failure broken_scaler [ames] features (reloaded _ _ _)
                     eq_refl _ Hf) (LibraryError "ValueError") false eq_refl).
    discriminate.
  - destruct (traverse (fun e => _extract_features broken_forest e [ames]) [ames])
      as [features|] eqn:Hf; [|vm_compute in Hf; discriminate].
    refine (proj2 (proj2 (train_fit_failure broken_forest [ames] features (fresh _ _ _)
                            eq_refl _ Hf))
              true features unfitted (LibraryError "ValueError") unfitted
              eq_refl eq_refl eq_refl eq_refl).
    discriminate.
Defined.

(** X14 (witness): a model store that cannot be written. *)
Lemma train_save_failure_witness :
  exists self',
    train read_only_store [ames] (fresh _ _ _)
    = (Raise (LibraryError "PermissionError"), self')
    /\ scaler self' = true
    /\ model self' = Some fitted
    /\ state_baselines self' = build_baselines ∅ [ames].
Proof.
  destruct (traverse (fun e => _extract_features read_only_store e [ames]) [ames])
    as [features|] eqn:Hf; [|vm_compute in Hf; discriminate].
  destruct (train_save_failure read_only_store [ames] features true features unfitted fitted
              (LibraryError "PermissionError") (fresh _ _ _))
    as (self' & Ht & Hs & Hm & Hb); try reflexivity; try assumption; [discriminate|].
  exists self'. auto.
Defined.

(** X15 (witness): a corpus of two Iowa events on a detector without
    baselines. *)
Lemma train_profiled_states_witness :
  exists n k ty self',
    train runtime [des_moines; ames] (restored fitted) = (Ok (TrainMetrics n k ty), self')
    /\ n = 2%nat /\ ty = "IsolationForest"
    /\ is_Some (state_baselines self' !! "IA").
Proof.
  assert (E : match fst (train runtime [des_moines; ames] (restored fitted)) with
              | Ok (TrainMetrics _ _ _) => true
              | _ => false
              end = true) by (vm_compute; reflexivity).
  destruct (train runtime [des_moines; ames] (restored fitted))
    as [[[msg|n k ty]|e] self'] eqn:H; try discriminate E.
  exists n, k, ty, self'. split; [reflexivity|].
  destruct (train_profiled_states runtime _ _ _ _ _ _ H) as (Hn & Hty & _ & Hst & _).
  split; [exact Hn|]. split; [exact Hty|].
  apply Hst. right. split; [discriminate|].
  exists ames. split; [right; left; reflexivity | reflexivity].
Defined.

(** X16 (witness): the same corpus; its second event afterwards. *)
Lemma trained_events_within_bounds_witness :
  exists n k ty self',
    train runtime [des_moines; ames] (restored fitted) = (Ok (TrainMetrics n k ty), self')
    /\ type_of (_pattern_detection runtime self' ames [des_moines]) <> "out_of_state_bounds".
Proof.
  assert (E : match fst (train runtime [des_moines; ames] (restored fitted)) with
              | Ok (TrainMetrics _ _ _) => true
              | _ => false
              end = true) by (vm_compute; reflexivity).
  destruct (train runtime [des_moines; ames] (restored fitted))
    as [[[msg|n k ty]|e] self'] eqn:H; try discriminate E.
  exists n, k, ty, self'. split; [reflexivity|].
  refine (proj2 (trained_events_within_bounds runtime _ _ _ _ _ _ ames "IA" 42%Q
                   (- (935 # 10))%Q H _ eq_refl _ eq_refl _ eq_refl _) [des_moines]).
  - right. left. reflexivity.
  - discriminate.
  - intros Hz. vm_compute in Hz. discriminate.
  - intros Hz. vm_compute in Hz. discriminate.
Defined.

(** X17 (witness): a request whose only context event is at (0, 0); a
    located event that only the learned method flags; an event whose
    fallback has no longitude to average; and an event at (0, 0) with a
    located context event. *)
Lemma detect_endpoint_answers_witness :
  fst (detect_anomalies runtime (clock_at new_year) failed_feed (restored fitted))
  = Http500 ValueError
  /\ snd (detect_anomalies runtime (clock_at new_year) failed_feed (restored fitted))
     = restored fitted
  /\ fst (detect_anomalies runtime (clock_at new_year) quiet_road (restored suspicious))
     = InternalServerError
  /\ fst (detect_anomalies runtime (clock_at new_year) meridian_feed (restored fitted))
     = InternalServerError
  /\ exists body,
       fst (detect_anomalies runtime (clock_at new_year) healthy_feed (restored fitted))
       = Http200 body
       /\ resp_is_anomaly body = true
       /\ resp_anomaly_type body = "zero_coordinates".
Proof.
  destruct (detect_endpoint_answers runtime (clock_at new_year) failed_feed
              (restored fitted) true eq_refl) as (Hkeep & H500 & _).
  destruct (detect_endpoint_answers runtime (clock_at new_year) quiet_road
              (restored suspicious) true eq_refl) as (_ & _ & Hquiet & _).
  destruct (detect_endpoint_answers runtime (clock_at new_year) meridian_feed
              (restored fitted) true eq_refl) as (_ & _ & Hmeridian & _).
  destruct (detect_endpoint_answers runtime (clock_at new_year) healthy_feed
              (restored fitted) true eq_refl) as (_ & _ & Hhealthy & _).
  split; [|split; [exact Hkeep|split; [|split]]].
  - apply H500. split; [discriminate|]. intros e [<-|[]]. reflexivity.
  - destruct Hquiet as (v & features & learned & _ & Hf & Hl & Hnumpy & _);
      [left; reflexivity|].
    apply Hnumpy; [vm_compute; reflexivity|].
    vm_compute in Hf. injection Hf as <-.
    vm_compute in Hl. injection Hl as <-. reflexivity.
  - destruct Hmeridian as (v & features & learned & Hv & _ & _ & _ & Hnan & _).
    + right. exists (api_event "a4" "IA" (101 # 10) 0).
      split; [left; reflexivity|]. intros Hz. vm_compute in Hz. discriminate.
    + vm_compute in Hv. injection Hv as <-.
      eapply Hnan; [reflexivity|]. right. reflexivity.
  - destruct Hhealthy as (v & features & learned & Hv & _ & _ & _ & _ & H200).
    + right. exists (api_event "a1" "IA" 42 (- (935 # 10))).
      split; [left; reflexivity|]. intros Hz. vm_compute in Hz. discriminate.
    + eexists. split; [apply H200|].
      * left. vm_compute. reflexivity.
      * vm_compute in Hv. injection Hv as <-.
        intros f [= <-]. split; discriminate.
      * vm_compute in Hv. injection Hv as <-. split; reflexivity.
Defined.

(** X18 (witness): an empty list, and a list of one event at (0, 0). *)
Lemma train_endpoint_edges_witness :
  train_anomaly_detector runtime [] (restored fitted)
  = (Http200 {| train_success := true;
                train_metrics_body :=
                  TrainError "Training requires sklearn and training data" |},
     restored fitted)
  /\ train_anomaly_detector runtime [api_event "a1" "IA" 0 0] (restored fitted)
     = (Http500 ValueError, restored fitted).
Proof.
  destruct (train_endpoint_edges runtime [] (restored fitted)) as (Hempty & _).
  destruct (train_endpoint_edges runtime [api_event "a1" "IA" 0 0] (restored fitted))
    as (_ & Hzero).
  split; [apply Hempty; reflexivity|].
  apply Hzero; [reflexivity | discriminate|].
  intros e [<-|[]]. reflexivity.
Defined.

(** X19 (witness): the reference runtime holds no model file. *)
Lemma constructed_detector_witness :
  exists self,
    __init__ runtime "models/anomaly_model.pkl" = Ok self
    /\ model self = Some unfitted
    /\ state_baselines self = ∅
    /\ fst (train runtime [] self)
       = Ok (TrainError "Training requires sklearn and training data").
Proof.
  eexists. split; [reflexivity|].
  destruct (constructed_detector runtime "models/anomaly_model.pkl" _ eq_refl)
    as (_ & _ & _ & Hfresh & _).
  destruct (Hfresh eq_refl) as (Hm & _ & Hb).
  split; [exact Hm|]. split; [exact Hb | reflexivity].
Defined.

End Coverage.
